(** * Keyshare server: a shallow embedding of the keyshare core's key ring
    and configuration, of the username generator, and of the HTTP handlers of
    the keyshare protocol, with the properties checked against them. *)

From Stdlib Require Import ZArith NArith String Ascii List Lia.
From Stdlib Require Import DecimalString.
From stdpp Require Import gmap strings list fin_maps.

Local Open Scope string_scope.

(** ** Shared data *)

(** A Go [error] value that is not nil.  The sentinels of package
    keysharecore are compared by identity in the handlers; every other
    error is [ErrOther]. *)
Inductive error : Type :=
| ErrInvalidPin
| ErrPinTooLong
| ErrInvalidChallenge
| ErrInvalidJWT
| ErrOther (msg : string).

#[global] Instance error_eq_dec : EqDecision error.
Proof. solve_decision. Defined.

(** irma.PublicKeyIdentifier: an issuer and the counter of one of its keys. *)
Record PublicKeyIdentifier : Type := mkPublicKeyIdentifier {
  Issuer : string;
  Counter : N
}.

#[global] Instance PublicKeyIdentifier_eq_dec : EqDecision PublicKeyIdentifier.
Proof. solve_decision. Defined.

#[global] Instance PublicKeyIdentifier_countable : Countable PublicKeyIdentifier.
Proof.
  apply (inj_countable' (fun k => (Issuer k, Counter k))
                        (fun p => mkPublicKeyIdentifier p.1 p.2)).
  by intros [].
Defined.

(** ** Package keysharecore: the Core's keys and configuration *)

Module keysharecore.

Definition JWTIssuerDefault : string := "keyshare_server".
Definition JWTPinExpiryDefault : Z := 5 * 60.

(** [AESKey] is [[32]byte] in the source. *)
Definition AESKey : Type := list Byte.byte.

Section Core.

(** Types of the collaborators the Core only stores: the RSA private key,
    the issuer public keys and the commitment storage. *)
Variables (RSAPrivateKey GabiPublicKey ConsistentStorage : Type).

Record Core : Type := mkCore {
  decryptionKeys : gmap N AESKey;
  decryptionKey : AESKey;
  decryptionKeyID : N;
  jwtPrivateKey : option RSAPrivateKey;
  jwtPrivateKeyID : N;
  jwtIssuer : string;
  jwtPinExpiry : Z;
  storage : ConsistentStorage;
  trustedKeys : gmap PublicKeyIdentifier GabiPublicKey
}.

Record Configuration : Type := mkConfiguration {
  DecryptionKey : AESKey;
  DecryptionKeyID : N;
  JWTPrivateKey : option RSAPrivateKey;
  JWTPrivateKeyID : N;
  JWTIssuer : string;
  JWTPinExpiry : Z;
  Storage : ConsistentStorage
}.

Definition DangerousAddDecryptionKey (keyID : N) (key : AESKey) (c : Core) : Core :=
  mkCore (<[keyID := key]> (decryptionKeys c))
         (decryptionKey c) (decryptionKeyID c)
         (jwtPrivateKey c) (jwtPrivateKeyID c)
         (jwtIssuer c) (jwtPinExpiry c) (storage c) (trustedKeys c).

Definition setDecryptionKey (keyID : N) (key : AESKey) (c : Core) : Core :=
  mkCore (<[keyID := key]> (decryptionKeys c))
         key keyID
         (jwtPrivateKey c) (jwtPrivateKeyID c)
         (jwtIssuer c) (jwtPinExpiry c) (storage c) (trustedKeys c).

Definition setJWTPrivateKey (id : N) (key : option RSAPrivateKey) (c : Core) : Core :=
  mkCore (decryptionKeys c) (decryptionKey c) (decryptionKeyID c)
         key id
         (jwtIssuer c) (jwtPinExpiry c) (storage c) (trustedKeys c).

Definition DangerousAddTrustedPublicKey (keyID : PublicKeyIdentifier)
    (key : GabiPublicKey) (c : Core) : Core :=
  mkCore (decryptionKeys c) (decryptionKey c) (decryptionKeyID c)
         (jwtPrivateKey c) (jwtPrivateKeyID c)
         (jwtIssuer c) (jwtPinExpiry c) (storage c)
         (<[keyID := key]> (trustedKeys c)).

Definition set_jwtIssuer (s : string) (c : Core) : Core :=
  mkCore (decryptionKeys c) (decryptionKey c) (decryptionKeyID c)
         (jwtPrivateKey c) (jwtPrivateKeyID c)
         s (jwtPinExpiry c) (storage c) (trustedKeys c).

Definition set_jwtPinExpiry (n : Z) (c : Core) : Core :=
  mkCore (decryptionKeys c) (decryptionKey c) (decryptionKeyID c)
         (jwtPrivateKey c) (jwtPrivateKeyID c)
         (jwtIssuer c) n (storage c) (trustedKeys c).

(** The struct literal of [NewKeyshareCore]: two empty maps, the storage of
    the configuration, every other field at its zero value. *)
Definition newCore (conf : Configuration) : Core :=
  mkCore ∅ [] 0%N None 0%N EmptyString 0%Z (Storage conf) ∅.

Definition NewKeyshareCore (conf : Configuration) : Core :=
  let c := newCore conf in
  let c := setDecryptionKey (DecryptionKeyID conf) (DecryptionKey conf) c in
  let c := setJWTPrivateKey (JWTPrivateKeyID conf) (JWTPrivateKey conf) c in
  let c := set_jwtIssuer (JWTIssuer conf) c in
  let c := if decide (jwtIssuer c = EmptyString) then set_jwtIssuer JWTIssuerDefault c else c in
  let c := set_jwtPinExpiry (JWTPinExpiry conf) c in
  let c := if decide (jwtPinExpiry c = 0%Z) then set_jwtPinExpiry JWTPinExpiryDefault c else c in
  c.

(** A run of [DangerousAddDecryptionKey] calls, in the order of the list. *)
Definition addDecryptionKeys (ks : list (N * AESKey)) (c : Core) : Core :=
  foldl (fun c kv => DangerousAddDecryptionKey kv.1 kv.2 c) c ks.

End Core.

Arguments mkCore {_ _ _}.
Arguments decryptionKeys {_ _ _}.
Arguments decryptionKey {_ _ _}.
Arguments decryptionKeyID {_ _ _}.
Arguments jwtPrivateKey {_ _ _}.
Arguments jwtPrivateKeyID {_ _ _}.
Arguments jwtIssuer {_ _ _}.
Arguments jwtPinExpiry {_ _ _}.
Arguments storage {_ _ _}.
Arguments trustedKeys {_ _ _}.
Arguments mkConfiguration {_ _}.
Arguments DecryptionKey {_ _}.
Arguments DecryptionKeyID {_ _}.
Arguments JWTPrivateKey {_ _}.
Arguments JWTPrivateKeyID {_ _}.
Arguments JWTIssuer {_ _}.
Arguments JWTPinExpiry {_ _}.
Arguments Storage {_ _}.
Arguments DangerousAddDecryptionKey {_ _ _}.
Arguments setDecryptionKey {_ _ _}.
Arguments setJWTPrivateKey {_ _ _}.
Arguments DangerousAddTrustedPublicKey {_ _ _}.
Arguments NewKeyshareCore {_} _ {_}.
Arguments addDecryptionKeys {_ _ _}.

(** The ring holds the key for new and changed blobs under that key's
    identifier: a blob the Core writes can be read back by the Core. *)
Definition writeKeyInRing {RSAPrivateKey GabiPublicKey ConsistentStorage : Type}
    (c : Core RSAPrivateKey GabiPublicKey ConsistentStorage) : Prop :=
  decryptionKeys c !! decryptionKeyID c = Some (decryptionKey c).

End keysharecore.

(** ** Package keyshareserver: data *)

Module keyshareserver.

Definition EncryptedKeysharePacket : Type := list Byte.byte.

Record KeyshareUserData : Type := mkKeyshareUserData {
  Username : string;
  Language : string;
  Coredata : EncryptedKeysharePacket
}.

(** [KeyshareUser] is an interface whose [Data()] gives the user's row. *)
Record KeyshareUser : Type := mkKeyshareUser { Data : KeyshareUserData }.

(** The handler's [user.Data().Coredata = ...]. *)
Definition setCoredata (user : KeyshareUser) (d : EncryptedKeysharePacket) : KeyshareUser :=
  mkKeyshareUser (mkKeyshareUserData (Username (Data user)) (Language (Data user)) d).

Inductive LogEntryType : Type :=
| PinCheckRefused
| PinCheckFailed
| PinCheckBlocked
| PinCheckSuccess
| IrmaSession.

(** [time.Time] as nanoseconds since the zero Time; [time.Duration] is a
    number of nanoseconds. *)
Definition Time : Type := Z.
Definition Second : Z := 1000000000.
Definition After (t u : Time) : bool := (u <? t)%Z.
Definition Add (t : Time) (d : Z) : Time := (t + d)%Z.

Record SessionData : Type := mkSessionData {
  LastKeyID : PublicKeyIdentifier;
  LastCommitID : N;
  expiry : Time
}.

(** [&SessionData{}]: every field at its zero value. *)
Definition zeroSessionData : SessionData :=
  mkSessionData (mkPublicKeyIdentifier EmptyString 0%N) 0%N 0%Z.

Definition set_LastCommitID (id : N) (sd : SessionData) : SessionData :=
  mkSessionData (LastKeyID sd) id (expiry sd).
Definition set_LastKeyID (k : PublicKeyIdentifier) (sd : SessionData) : SessionData :=
  mkSessionData k (LastCommitID sd) (expiry sd).
Definition set_expiry (t : Time) (sd : SessionData) : SessionData :=
  mkSessionData (LastKeyID sd) (LastCommitID sd) t.

(** gabi.ProofPCommitment: the two big integers of the server's commitment. *)
Record ProofPCommitment : Type := mkProofPCommitment { P : Z; Pcommit : Z }.

Record keysharePinMessage : Type := mkPinMessage {
  pm_Username : string;
  pm_Pin : string
}.

Record keyshareChangePin : Type := mkChangePin {
  cp_Username : string;
  cp_OldPin : string;
  cp_NewPin : string
}.

Record keysharePinStatus : Type := mkPinStatus {
  Status : string;
  Message : string
}.

Record keyshareAuthorization : Type := mkAuthorization {
  auth_Status : string;
  Candidates : list string
}.

Record proofPCommitmentMap : Type := mkCommitmentMap {
  Commitments : gmap string ProofPCommitment
}.

(** The request context the middleware builds for the keyshare session
    routes. *)
Record requestAuthorization : Type := mkContext {
  user : KeyshareUser;
  authorization : string;
  hasValidAuthorization : bool
}.

(** ** What a handler writes *)

(** server.Error values the handlers use. *)
Inductive Error : Type :=
| ErrorInvalidRequest
| ErrorUserNotRegistered
| ErrorInternal.

(** Modelled from the spec: the status codes of package server's error
    table, which is not part of the sources.  The error taxonomy gives
    InvalidRequest (400) and Internal (500); for UserNotRegistered it gives
    only the class 4xx, and nothing below depends on the number chosen. *)
Definition errorStatus (e : Error) : Z :=
  match e with
  | ErrorInvalidRequest => 400
  | ErrorUserNotRegistered => 403
  | ErrorInternal => 500
  end.

(** The message argument of [server.WriteError]: a literal of the handler,
    or [err.Error()] of an error, kept symbolic. *)
Inductive message : Type :=
| Literal (s : string)
| ErrorString (e : error).

Inductive jsonBody : Type :=
| JPinStatus (s : keysharePinStatus)
| JAuthorization (a : keyshareAuthorization)
| JCommitments (m : proofPCommitmentMap).

Inductive response : Type :=
| WriteError (e : Error) (msg : message)
| WriteJson (v : jsonBody)
| WriteString (s : string).

(** Modelled from the spec: [server.WriteJson] and [server.WriteString]
    (not part of the sources) answer 200, [server.WriteError] the status of
    its error. *)
Definition httpStatus (r : response) : Z :=
  match r with
  | WriteError e _ => errorStatus e
  | WriteJson _ => 200
  | WriteString _ => 200
  end.

(** ** The collaborators, as actions answered by the environment *)

Inductive level : Type := Debug | Info | Warn | Error_.

(** Every call a handler makes outside its own package: the request body,
    the encoders, the clock, the random source, the logger, the [KeyshareDB]
    and the operations of the keyshare Core. *)
Inductive action : Type :=
| ReadAll
| UnmarshalKeys (body : list Byte.byte)
| UnmarshalChallenge (body : list Byte.byte)
| UnmarshalPinMessage (body : list Byte.byte)
| UnmarshalChangePin (body : list Byte.byte)
| MarshalText (keyID : PublicKeyIdentifier)
| TimeNow
| RandRead (n : nat)
| Logger (lvl : level) (msg : string)
| DBUser (username : string)
| DBReservePincheck (u : KeyshareUser)
| DBClearPincheck (u : KeyshareUser)
| DBSetSeen (u : KeyshareUser)
| DBAddLog (u : KeyshareUser) (ev : LogEntryType) (param : option Z)
| DBUpdateUser (u : KeyshareUser)
| CoreValidatePin (coredata : EncryptedKeysharePacket) (pin username : string)
| CoreChangePin (coredata : EncryptedKeysharePacket) (oldPin newPin : string)
| CoreGenerateCommitments (coredata : EncryptedKeysharePacket) (jwt : string)
    (keys : list PublicKeyIdentifier)
| CoreGenerateResponse (coredata : EncryptedKeysharePacket) (jwt : string)
    (commitID : N) (challenge : Z) (keyID : PublicKeyIdentifier)
| CoreValidateJWT (coredata : EncryptedKeysharePacket) (jwt : string).

(** The Go return values of each call; [option error] is Go's [error],
    [None] being nil. *)
Definition result (a : action) : Type :=
  match a with
  | ReadAll => (list Byte.byte * option error)%type
  | UnmarshalKeys _ => (list PublicKeyIdentifier * option error)%type
  | UnmarshalChallenge _ => (Z * option error)%type
  | UnmarshalPinMessage _ => (keysharePinMessage * option error)%type
  | UnmarshalChangePin _ => (keyshareChangePin * option error)%type
  | MarshalText _ => (string * option error)%type
  | TimeNow => Time
  | RandRead _ => (list Byte.byte * option error)%type
  | Logger _ _ => unit
  | DBUser _ => (KeyshareUser * option error)%type
  | DBReservePincheck _ => (bool * Z * Z * option error)%type
  | DBClearPincheck _ => option error
  | DBSetSeen _ => option error
  | DBAddLog _ _ _ => option error
  | DBUpdateUser _ => option error
  | CoreValidatePin _ _ _ => (string * option error)%type
  | CoreChangePin _ _ _ => (EncryptedKeysharePacket * option error)%type
  | CoreGenerateCommitments _ _ _ => (list ProofPCommitment * N * option error)%type
  | CoreGenerateResponse _ _ _ _ _ => (string * option error)%type
  | CoreValidateJWT _ _ => option error
  end.

(** A handler is a finite tree of calls; [Panic] is a Go run-time panic. *)
Inductive prog (R : Type) : Type :=
| Ret (r : R)
| Act (a : action) (k : result a -> prog R)
| Panic.

Arguments Ret {R} r.
Arguments Act {R} a k.
Arguments Panic {R}.

Fixpoint bind {A B : Type} (p : prog A) (f : A -> prog B) : prog B :=
  match p with
  | Ret r => f r
  | Act a k => Act a (fun x => bind (k x) f)
  | Panic => Panic
  end.

Definition call (a : action) : prog (result a) := Act a Ret.

Declare Scope prog_scope.
Delimit Scope prog_scope with prog.
Notation "x <- p ;; q" := (bind p (fun x => q))
  (at level 100, p at next level, right associativity) : prog_scope.
Notation "p ;;; q" := (bind p (fun _ => q))
  (at level 100, right associativity) : prog_scope.
Local Open Scope prog_scope.

Definition log (lvl : level) (msg : string) : prog unit := call (Logger lvl msg).

(** Running a handler against an environment with state [W]: the calls it
    made with their answers, the final state of the environment, and what the
    handler returned. *)
Record event : Type := Event { ev_action : action; ev_result : result ev_action }.

Inductive outcome (R : Type) : Type :=
| Done (r : R)
| Panicked.

Arguments Done {R} r.
Arguments Panicked {R}.

Definition env (W : Type) : Type := forall a : action, W -> result a * W.

Fixpoint run {W R : Type} (e : env W) (p : prog R) (w : W) : list event * W * outcome R :=
  match p with
  | Ret r => ([], w, Done r)
  | Panic => ([], w, Panicked)
  | Act a k =>
      let xw := e a w in
      let '(t, w', o) := run e (k xw.1) xw.2 in
      (Event a xw.1 :: t, w', o)
  end.

Definition trace {W R : Type} (r : list event * W * outcome R) : list event := r.1.1.
Definition world {W R : Type} (r : list event * W * outcome R) : W := r.1.2.
Definition returned {W R : Type} (r : list event * W * outcome R) : outcome R := r.2.

(** ** Go library functions the username generator uses *)

(** [encoding/base64], [StdEncoding]: the alphabet, the padding character
    and [Encode]. *)
Definition encodeStd : string :=
  "ABCDEFGHIJKLMNOPQRSTUVWXYZabcdefghijklmnopqrstuvwxyz0123456789+/".

Definition StdPadding : ascii := "="%char.

(** [enc.encode[val>>shift&0x3F]] *)
Definition sextet (val shift : N) : ascii :=
  nth (N.to_nat (N.land (N.shiftr val shift) 63))
      (list_ascii_of_string encodeStd) Ascii.zero.

Definition uint (b : Byte.byte) : N := Byte.to_N b.

Fixpoint Encode (src : list Byte.byte) : list ascii :=
  match src with
  | [] => []
  | [b0] =>
      let val := N.shiftl (uint b0) 16 in
      [sextet val 18; sextet val 12; StdPadding; StdPadding]
  | [b0; b1] =>
      let val := N.lor (N.shiftl (uint b0) 16) (N.shiftl (uint b1) 8) in
      [sextet val 18; sextet val 12; sextet val 6; StdPadding]
  | b0 :: b1 :: b2 :: rest =>
      let val := N.lor (N.lor (N.shiftl (uint b0) 16) (N.shiftl (uint b1) 8)) (uint b2) in
      sextet val 18 :: sextet val 12 :: sextet val 6 :: sextet val 0 :: Encode rest
  end.

(** Writing [out] over the front of the buffer [dst]; [None] when the
    buffer is too short (an index out of range in Go). *)
Definition writeInto {A : Type} (dst out : list A) : option (list A) :=
  if (length out <=? length dst)%nat
  then Some (out ++ drop (length out) dst)%list
  else None.

(** [rand.Read(bts)]: the bytes read overwrite the front of the buffer, whose
    length does not change. *)
Definition fill {A : Type} (buf data : list A) : list A :=
  take (length buf) (data ++ drop (length data) buf)%list.

(** [strings.ReplaceAll]: the occurrences of [old] that do not overlap, from
    the left; an empty [old] matches before every character and at the end. *)
Fixpoint replaceFrom (skip : nat) (s old new : string) : string :=
  match s with
  | EmptyString => EmptyString
  | String c s' =>
      match skip with
      | S k => replaceFrom k s' old new
      | O =>
          if String.prefix old s
          then String.append new (replaceFrom (String.length old - 1) s' old new)
          else String c (replaceFrom 0 s' old new)
      end
  end.

Fixpoint intersperse (s new : string) : string :=
  match s with
  | EmptyString => new
  | String c s' => String.append new (String c (intersperse s' new))
  end.

Definition ReplaceAll (s old new : string) : string :=
  match old with
  | EmptyString => intersperse s new
  | _ => replaceFrom 0 s old new
  end.

(** [fmt.Sprintf("%v", n)] for an integer [n]. *)
Definition fmt_v (n : Z) : string := NilZero.string_of_int (Z.to_int n).

(** ** The username generator *)

Definition generateUsername : prog string :=
  let bts := repeat Byte.x00 8 in
  r <- call (RandRead (length bts)) ;;
  let '(data, err) := r in
  match err with
  | Some _ => Panic
  | None =>
      let bts := fill bts data in
      let raw := repeat Ascii.zero 12 in
      match writeInto raw (Encode bts) with
      | None => Panic
      | Some raw =>
          Ret (ReplaceAll
                 (ReplaceAll
                    (ReplaceAll (string_of_list_ascii raw) "+" EmptyString)
                    "/" EmptyString)
                 "=" EmptyString)
      end
  end.

(** The characters of a base62 username: letters and digits. *)
Definition isBase62 (c : ascii) : bool :=
  let n := nat_of_ascii c in
  ((65 <=? n) && (n <=? 90) || (97 <=? n) && (n <=? 122) || (48 <=? n) && (n <=? 57))%nat.

(** ** The session cache *)

(** clean up any expired sessions *)
Definition clearSessions (sessions : gmap string SessionData)
  : prog (gmap string SessionData) :=
  now <- call TimeNow ;;
  Ret (filter (fun kv : string * SessionData => After now (expiry kv.2) = false) sessions).

(** ** Handlers *)

Definition whenErr (err : option error) (p : prog unit) : prog unit :=
  match err with
  | Some _ => p
  | None => Ret tt
  end.

Definition emptyPinStatus : keysharePinStatus := mkPinStatus EmptyString EmptyString.

(** The loop of [generateCommitments] that prepares the output message:
    [mappedCommitments[string(keyIDV)] = commitments[i]] for the keys from
    index [i] on. *)
Fixpoint mapCommitments (commitments : list ProofPCommitment) (i : nat)
    (keys : list PublicKeyIdentifier) (mapped : gmap string ProofPCommitment)
  : prog (gmap string ProofPCommitment * option error) :=
  match keys with
  | [] => Ret (mapped, None)
  | keyID :: rest =>
      r <- call (MarshalText keyID) ;;
      let '(keyIDV, err) := r in
      match err with
      | Some e =>
          log Error_ "Could not convert key identifier to string" ;;;
          Ret (mapped, Some e)
      | None =>
          match commitments !! i with
          | None => Panic
          | Some c => mapCommitments commitments (S i) rest (<[keyIDV := c]> mapped)
          end
      end
  end.

Definition generateCommitments (sessions : gmap string SessionData)
    (user : KeyshareUser) (authorization : string) (keys : list PublicKeyIdentifier)
  : prog (gmap string SessionData * (proofPCommitmentMap * option error)) :=
  r <- call (CoreGenerateCommitments (Coredata (Data user)) authorization keys) ;;
  let '(commitments, commitID, err) := r in
  match err with
  | Some e =>
      log Warn "Could not generate commitments for request" ;;;
      Ret (sessions, (mkCommitmentMap ∅, Some e))
  | None =>
      r <- mapCommitments commitments 0 keys ∅ ;;
      let '(mappedCommitments, err) := r in
      match err with
      | Some e => Ret (sessions, (mkCommitmentMap ∅, Some e))
      | None =>
          let username := Username (Data user) in
          let sessions :=
            match sessions !! username with
            | None => <[username := zeroSessionData]> sessions
            | Some _ => sessions
            end in
          let sessions := alter (set_LastCommitID commitID) username sessions in
          match keys with
          | [] => Panic
          | key0 :: _ =>
              let sessions := alter (set_LastKeyID key0) username sessions in
              now <- call TimeNow ;;
              let sessions := alter (set_expiry (Add now (10 * Second))) username sessions in
              Ret (sessions, (mkCommitmentMap mappedCommitments, None))
          end
      end
  end.

(** /prove/getCommitments *)
Definition handleCommitments (ctx : requestAuthorization)
    (sessions : gmap string SessionData)
  : prog (gmap string SessionData * response) :=
  r <- call ReadAll ;;
  let '(body, err) := r in
  match err with
  | Some e =>
      log Info "Malformed request: could not read request body" ;;;
      Ret (sessions, WriteError ErrorInvalidRequest (ErrorString e))
  | None =>
  r <- call (UnmarshalKeys body) ;;
  let '(keys, err) := r in
  match err with
  | Some e =>
      log Info "Malformed request: could not parse request body" ;;;
      log Debug "Malformed request data" ;;;
      Ret (sessions, WriteError ErrorInvalidRequest (ErrorString e))
  | None =>
  if decide (length keys = 0%nat) then
    log Info "Malformed request: no keys over which to commit specified" ;;;
    Ret (sessions, WriteError ErrorInvalidRequest (Literal "No key specified"))
  else
  r <- generateCommitments sessions (user ctx) (authorization ctx) keys ;;
  let '(sessions, (commitments, err)) := r in
  if decide (err = Some ErrInvalidChallenge \/ err = Some ErrInvalidJWT) then
    Ret (sessions, WriteError ErrorInvalidRequest
                     (match err with Some e => ErrorString e | None => Literal EmptyString end))
  else
  match err with
  | Some e => Ret (sessions, WriteError ErrorInternal (ErrorString e))
  | None => Ret (sessions, WriteJson (JCommitments commitments))
  end
  end
  end.

Definition doGenerateResponses (user : KeyshareUser) (authorization : string)
    (challenge : Z) (commitID : N) (keyID : PublicKeyIdentifier)
  : prog (string * option error) :=
  err <- call (DBSetSeen user) ;;
  whenErr err (log Error_ "Could not mark user as seen recently") ;;;
  err <- call (DBAddLog user IrmaSession None) ;;
  match err with
  | Some e =>
      log Error_ "Could not add log entry for user" ;;;
      Ret (EmptyString, Some e)
  | None =>
      r <- call (CoreGenerateResponse (Coredata (Data user)) authorization
                   commitID challenge keyID) ;;
      let '(proofResponse, err) := r in
      match err with
      | Some e =>
          log Error_ "Could not generate response for request" ;;;
          Ret (EmptyString, Some e)
      | None => Ret (proofResponse, None)
      end
  end.

(** /prove/getResponse *)
Definition handleResponse (ctx : requestAuthorization)
    (sessions : gmap string SessionData) : prog response :=
  let username := Username (Data (user ctx)) in
  r <- call ReadAll ;;
  let '(body, err) := r in
  match err with
  | Some e =>
      log Info "Malformed request: could not read request body" ;;;
      Ret (WriteError ErrorInvalidRequest (ErrorString e))
  | None =>
  r <- call (UnmarshalChallenge body) ;;
  let '(challenge, err) := r in
  match err with
  | Some e =>
      log Info "Malformed request: could not parse challenge" ;;;
      Ret (WriteError ErrorInvalidRequest (ErrorString e))
  | None =>
  if negb (hasValidAuthorization ctx) then
    log Warn "Could not generate keyshare response due to invalid authorization" ;;;
    Ret (WriteError ErrorInvalidRequest (Literal "Invalid authorization"))
  else
  match sessions !! username with
  | None =>
      log Warn "Request for response without previous call to get commitments" ;;;
      Ret (WriteError ErrorInvalidRequest (Literal "Missing previous call to getCommitments"))
  | Some sessionData =>
      r <- doGenerateResponses (user ctx) (authorization ctx) challenge
             (LastCommitID sessionData) (LastKeyID sessionData) ;;
      let '(proofResponse, err) := r in
      if decide (err = Some ErrInvalidChallenge \/ err = Some ErrInvalidJWT) then
        Ret (WriteError ErrorInvalidRequest
               (match err with Some e => ErrorString e | None => Literal EmptyString end))
      else
      match err with
      | Some e => Ret (WriteError ErrorInternal (ErrorString e))
      | None => Ret (WriteString proofResponse)
      end
  end
  end
  end.

(** /users/isAuthorized *)
Definition handleValidate (ctx : requestAuthorization) : prog response :=
  if hasValidAuthorization ctx
  then Ret (WriteJson (JAuthorization (mkAuthorization "authorized" ["pin"])))
  else Ret (WriteJson (JAuthorization (mkAuthorization "expired" ["pin"]))).

Definition doVerifyPin (user : KeyshareUser) (username pin : string)
  : prog (keysharePinStatus * option error) :=
  (* Check whether timing allows this pin to be checked *)
  r <- call (DBReservePincheck user) ;;
  let '(ok, tries, wait, err) := r in
  match err with
  | Some _ =>
      log Error_ "Could not reserve pin check slot" ;;;
      Ret (emptyPinStatus, None)
  | None =>
  if negb ok then
    err <- call (DBAddLog user PinCheckRefused None) ;;
    match err with
    | Some e =>
        log Error_ "Could not add log entry for user" ;;;
        Ret (emptyPinStatus, Some e)
    | None => Ret (mkPinStatus "error" (fmt_v wait), None)
    end
  else
  r <- call (CoreValidatePin (Coredata (Data user)) pin username) ;;
  let '(jwtt, err) := r in
  if decide (err <> None /\ err <> Some ErrInvalidPin) then
    (* Errors other than invalid pin are real errors *)
    log Error_ "Could not validate pin" ;;;
    Ret (emptyPinStatus, err)
  else
  if decide (err = Some ErrInvalidPin) then
    (* Handle invalid pin *)
    err <- call (DBAddLog user PinCheckFailed (Some tries)) ;;
    match err with
    | Some e =>
        log Error_ "Could not add log entry for user" ;;;
        Ret (emptyPinStatus, Some e)
    | None =>
        if decide (tries = 0%Z) then
          err <- call (DBAddLog user PinCheckBlocked (Some wait)) ;;
          match err with
          | Some e =>
              log Error_ "Could not add log entry for user" ;;;
              Ret (emptyPinStatus, Some e)
          | None => Ret (mkPinStatus "error" (fmt_v wait), None)
          end
        else Ret (mkPinStatus "failure" (fmt_v tries), None)
    end
  else
  (* Handle success *)
  err <- call (DBClearPincheck user) ;;
  whenErr err (log Error_ "Could not reset users pin check logic") ;;;
  err <- call (DBSetSeen user) ;;
  whenErr err (log Error_ "Could not indicate user activity") ;;;
  err <- call (DBAddLog user PinCheckSuccess None) ;;
  match err with
  | Some e =>
      log Error_ "Could not add log entry for user" ;;;
      Ret (emptyPinStatus, Some e)
  | None => Ret (mkPinStatus "success" jwtt, err)
  end
  end.

(** /users/verify/pin *)
Definition handleVerifyPin : prog response :=
  r <- call ReadAll ;;
  let '(body, err) := r in
  match err with
  | Some e =>
      log Info "Malformed request: could not read request body" ;;;
      Ret (WriteError ErrorInvalidRequest (ErrorString e))
  | None =>
  r <- call (UnmarshalPinMessage body) ;;
  let '(msg, err) := r in
  match err with
  | Some e =>
      log Info "Malformed request: could not parse request body" ;;;
      Ret (WriteError ErrorInvalidRequest (ErrorString e))
  | None =>
  (* Fetch user *)
  r <- call (DBUser (pm_Username msg)) ;;
  let '(user, err) := r in
  match err with
  | Some _ =>
      log Warn "Could not find user in db" ;;;
      Ret (WriteError ErrorUserNotRegistered (Literal EmptyString))
  | None =>
  (* and verify pin *)
  r <- doVerifyPin user (pm_Username msg) (pm_Pin msg) ;;
  let '(result, err) := r in
  match err with
  | Some e => Ret (WriteError ErrorInternal (ErrorString e))
  | None => Ret (WriteJson (JPinStatus result))
  end
  end
  end
  end.

Definition doUpdatePin (user : KeyshareUser) (oldPin newPin : string)
  : prog (keysharePinStatus * option error) :=
  (* Check whether pin check is currently allowed *)
  r <- call (DBReservePincheck user) ;;
  let '(ok, tries, wait, err) := r in
  match err with
  | Some e =>
      log Error_ "Could not reserve pin check slot" ;;;
      Ret (emptyPinStatus, Some e)
  | None =>
  if negb ok then Ret (mkPinStatus "error" (fmt_v wait), None) else
  (* Try to do the update *)
  r <- call (CoreChangePin (Coredata (Data user)) oldPin newPin) ;;
  let '(coredata, err) := r in
  let user := setCoredata user coredata in
  if decide (err = Some ErrInvalidPin) then
    if decide (tries = 0%Z)
    then Ret (mkPinStatus "error" (fmt_v wait), None)
    else Ret (mkPinStatus "failure" (fmt_v tries), None)
  else
  if decide (err <> None) then
    log Error_ "Could not change pin" ;;;
    Ret (emptyPinStatus, None)
  else
  (* Mark pincheck as success, resetting users wait and count *)
  err <- call (DBClearPincheck user) ;;
  whenErr err (log Error_ "Could not reset users pin check logic") ;;;
  (* Write user back *)
  err <- call (DBUpdateUser user) ;;
  match err with
  | Some e =>
      log Error_ "Could not write updated user to database" ;;;
      Ret (emptyPinStatus, Some e)
  | None => Ret (mkPinStatus "success" EmptyString, None)
  end
  end.

(** /users/change/pin *)
Definition handleChangePin : prog response :=
  r <- call ReadAll ;;
  let '(body, err) := r in
  match err with
  | Some _ =>
      log Info "Malformed request: could not read request body" ;;;
      Ret (WriteError ErrorInvalidRequest (Literal "could not read request body"))
  | None =>
  r <- call (UnmarshalChangePin body) ;;
  let '(msg, err) := r in
  match err with
  | Some _ =>
      log Info "Malformed request: could not parse request body" ;;;
      Ret (WriteError ErrorInvalidRequest (Literal "Invalid request"))
  | None =>
  (* Fetch user *)
  r <- call (DBUser (cp_Username msg)) ;;
  let '(user, err) := r in
  match err with
  | Some _ =>
      log Warn "Could not find user in db" ;;;
      Ret (WriteError ErrorUserNotRegistered (Literal EmptyString))
  | None =>
  r <- doUpdatePin user (cp_OldPin msg) (cp_NewPin msg) ;;
  let '(result, err) := r in
  match err with
  | Some e => Ret (WriteError ErrorInternal (ErrorString e))
  | None => Ret (WriteJson (JPinStatus result))
  end
  end
  end
  end.

(** ** Middleware of the keyshare session routes *)

Record request : Type := mkRequest {
  header_Username : string;       (* X-IRMA-Keyshare-Username *)
  header_Authorization : string   (* Authorization *)
}.

Definition userMiddleware {S : Type} (r : request) (sessions : S)
    (next : KeyshareUser -> prog (S * response)) : prog (S * response) :=
  let username := header_Username r in
  x <- call (DBUser username) ;;
  let '(user, err) := x in
  match err with
  | Some e =>
      log Warn "Could not find user in db" ;;;
      Ret (sessions, WriteError ErrorUserNotRegistered (ErrorString e))
  | None => next user
  end.

Definition authorizationMiddleware {S : Type} (r : request) (user : KeyshareUser)
    (next : requestAuthorization -> prog (S * response)) : prog (S * response) :=
  let authorization := header_Authorization r in
  let authorization :=
    if String.prefix "Bearer " authorization
    then String.substring 7 (String.length authorization - 7) authorization
    else authorization in
  err <- call (CoreValidateJWT (Coredata (Data user)) authorization) ;;
  let hasValidAuthorization := bool_decide (err = None) in
  next (mkContext user authorization hasValidAuthorization).

(** The routes of the group behind both middlewares. *)
Definition routeCommitments (r : request) (sessions : gmap string SessionData)
  : prog (gmap string SessionData * response) :=
  userMiddleware r sessions (fun user =>
    authorizationMiddleware r user (fun ctx => handleCommitments ctx sessions)).

Definition routeResponse (r : request) (sessions : gmap string SessionData)
  : prog (gmap string SessionData * response) :=
  userMiddleware r sessions (fun user =>
    authorizationMiddleware r user (fun ctx =>
      resp <- handleResponse ctx sessions ;; Ret (sessions, resp))).

(** ** Reading a run *)

(** What the calls of one kind were answered, in the order of the calls. *)
Definition reservation (ev : event) : option (bool * Z * Z * option error) :=
  match ev with
  | Event (DBReservePincheck _) r => Some r
  | _ => None
  end.

Definition fetchedUser (ev : event) : option (KeyshareUser * option error) :=
  match ev with
  | Event (DBUser _) r => Some r
  | _ => None
  end.

Definition logEntry (ev : event) : option (LogEntryType * option Z * option error) :=
  match ev with
  | Event (DBAddLog _ kind param) r => Some (kind, param, r)
  | _ => None
  end.

Definition pinValidation (ev : event) : option (string * option error) :=
  match ev with
  | Event (CoreValidatePin _ _ _) r => Some r
  | _ => None
  end.

Definition pinChange (ev : event) : option (EncryptedKeysharePacket * option error) :=
  match ev with
  | Event (CoreChangePin _ _ _) r => Some r
  | _ => None
  end.

Definition reservations (t : list event) := omap reservation t.
Definition fetchedUsers (t : list event) := omap fetchedUser t.
Definition logEntries (t : list event) := omap logEntry t.
Definition pinValidations (t : list event) := omap pinValidation t.
Definition pinChanges (t : list event) := omap pinChange t.

(** The calls of a run without their answers. *)
Definition calls (t : list event) : list action := map ev_action t.

Definition isCore (a : action) : bool :=
  match a with
  | CoreValidatePin _ _ _ | CoreChangePin _ _ _ | CoreGenerateCommitments _ _ _
  | CoreGenerateResponse _ _ _ _ _ | CoreValidateJWT _ _ => true
  | _ => false
  end.

Definition isReservePincheck (a : action) : bool :=
  match a with
  | DBReservePincheck _ => true
  | _ => false
  end.

Definition isLogger (a : action) : bool :=
  match a with
  | Logger _ _ => true
  | _ => false
  end.

(** Every Core call of the list comes after a [ReservePincheck]. *)
Fixpoint reservedBeforeCore (reserved : bool) (l : list action) : bool :=
  match l with
  | [] => true
  | a :: l' =>
      (negb (isCore a) || reserved) && reservedBeforeCore (reserved || isReservePincheck a) l'
  end.

Definition parsedKeys (ev : event) : option (list PublicKeyIdentifier * option error) :=
  match ev with
  | Event (UnmarshalKeys _) r => Some r
  | _ => None
  end.

Definition parsedChallenge (ev : event) : option (Z * option error) :=
  match ev with
  | Event (UnmarshalChallenge _) r => Some r
  | _ => None
  end.

Definition marshalledKey (ev : event) : option (PublicKeyIdentifier * (string * option error)) :=
  match ev with
  | Event (MarshalText k) r => Some (k, r)
  | _ => None
  end.

Definition committed (ev : event) : option (list ProofPCommitment * N * option error) :=
  match ev with
  | Event (CoreGenerateCommitments _ _ _) r => Some r
  | _ => None
  end.

Definition responded (ev : event) : option (string * option error) :=
  match ev with
  | Event (CoreGenerateResponse _ _ _ _ _) r => Some r
  | _ => None
  end.

Definition clockReading (ev : event) : option Time :=
  match ev with
  | Event TimeNow r => Some r
  | _ => None
  end.

Definition jwtValidation (ev : event) : option (option error) :=
  match ev with
  | Event (CoreValidateJWT _ _) r => Some r
  | _ => None
  end.

Definition keyLists (t : list event) := omap parsedKeys t.
Definition challenges (t : list event) := omap parsedChallenge t.
Definition marshalledKeys (t : list event) := omap marshalledKey t.
Definition commitmentAnswers (t : list event) := omap committed t.
Definition responseAnswers (t : list event) := omap responded t.
Definition clockReadings (t : list event) := omap clockReading t.
Definition jwtValidations (t : list event) := omap jwtValidation t.

(** The calls of a run to the Core, and its calls other than to the logger. *)
Definition coreCalls (t : list event) : list action := List.filter isCore (calls t).
Definition externalCalls (t : list event) : list action :=
  List.filter (fun a => negb (isLogger a)) (calls t).

(** The response map the loop of [generateCommitments] builds from the
    string forms of the keys and the commitments, in the order of the keys:
    a later assignment to the same string replaces an earlier one. *)
Definition assignAll (strs : list string) (commitments : list ProofPCommitment)
  : gmap string ProofPCommitment :=
  foldl (fun m sc => <[sc.1 := sc.2]> m) ∅ (zip strs commitments).

(** ** Environments *)

(** The environment [e] with other answers to [SetSeen] and [ClearPincheck]:
    whether these two calls fail is decided by [seen] and [clear]; every
    other answer and the state of the environment are those of [e]. *)
Definition withBookkeeping {W : Type} (seen clear : W -> option error) (e : env W) : env W :=
  fun a =>
    match a as a0 return (W -> result a0 * W) -> W -> result a0 * W with
    | DBSetSeen _ => fun d w => (seen w, (d w).2)
    | DBClearPincheck _ => fun d w => (clear w, (d w).2)
    | _ => fun d => d
    end (e a).

(** A handler that calls neither [SetSeen] nor [ClearPincheck]. *)
Definition isBookkeeping (a : action) : bool :=
  match a with
  | DBSetSeen _ | DBClearPincheck _ => true
  | _ => false
  end.

Inductive noBookkeeping {R : Type} : prog R -> Prop :=
| noBookkeeping_Ret (r : R) : noBookkeeping (Ret r)
| noBookkeeping_Panic : noBookkeeping Panic
| noBookkeeping_Act (a : action) (k : result a -> prog R) :
    isBookkeeping a = false ->
    (forall x, noBookkeeping (k x)) ->
    noBookkeeping (Act a k).

(** The logger is apart from the store and the Core: a log line leaves the
    state of the environment as it is. *)
Definition loggerIndependent {W : Type} (e : env W) : Prop :=
  forall lvl msg w, e (Logger lvl msg) w = (tt, w).

(** The environment [e] with a logger made independent by construction. *)
Definition silentLogger {W : Type} (e : env W) : env W :=
  fun a =>
    match a as a0 return (W -> result a0 * W) -> W -> result a0 * W with
    | Logger _ _ => fun _ w => (tt, w)
    | _ => fun d => d
    end (e a).

(** A scripted environment, as a test would set one up: the answers of the
    database, of the Core and of the decoders are fixed in advance. *)
Record script : Type := mkScript {
  s_body : list Byte.byte * option error;
  s_keys : list PublicKeyIdentifier * option error;
  s_challenge : Z * option error;
  s_pinMessage : keysharePinMessage * option error;
  s_changePin : keyshareChangePin * option error;
  s_now : Time;
  s_random : list Byte.byte * option error;
  s_user : string -> KeyshareUser * option error;
  s_reserve : bool * Z * Z * option error;
  s_clearPincheck : option error;
  s_setSeen : option error;
  s_addLog : LogEntryType -> option error;
  s_updateUser : option error;
  s_validatePin : string -> string * option error;
  s_changedPin : string -> EncryptedKeysharePacket * option error;
  s_commitments : list PublicKeyIdentifier -> list ProofPCommitment * N * option error;
  s_response : N -> PublicKeyIdentifier -> string * option error;
  s_validateJWT : string -> option error
}.

(** The text form of a key identifier in the scripted environment:
    issuer, a dash, the counter. *)
Definition scriptedMarshalText (k : PublicKeyIdentifier) : string :=
  String.append (Issuer k) (String.append "-" (fmt_v (Z.of_N (Counter k)))).

Definition answer (s : script) (a : action) : result a :=
  match a as a0 return result a0 with
  | ReadAll => s_body s
  | UnmarshalKeys _ => s_keys s
  | UnmarshalChallenge _ => s_challenge s
  | UnmarshalPinMessage _ => s_pinMessage s
  | UnmarshalChangePin _ => s_changePin s
  | MarshalText k => (scriptedMarshalText k, None)
  | TimeNow => s_now s
  | RandRead _ => s_random s
  | Logger _ _ => tt
  | DBUser name => s_user s name
  | DBReservePincheck _ => s_reserve s
  | DBClearPincheck _ => s_clearPincheck s
  | DBSetSeen _ => s_setSeen s
  | DBAddLog _ kind _ => s_addLog s kind
  | DBUpdateUser _ => s_updateUser s
  | CoreValidatePin _ pin _ => s_validatePin s pin
  | CoreChangePin _ oldPin _ => s_changedPin s oldPin
  | CoreGenerateCommitments _ _ keys => s_commitments s keys
  | CoreGenerateResponse _ _ commitID _ keyID => s_response s commitID keyID
  | CoreValidateJWT _ jwt => s_validateJWT s jwt
  end.

Definition scripted (s : script) : env unit := fun a w => (answer s a, w).

(** A registered user, whose PIN is "12345", and a database and Core in
    working order. *)
Definition alice : KeyshareUser :=
  mkKeyshareUser (mkKeyshareUserData "alice" "en" [Byte.x01; Byte.x02]).

Definition issuerKey2 : PublicKeyIdentifier := mkPublicKeyIdentifier "test.issuer" 2.
Definition issuerKey3 : PublicKeyIdentifier := mkPublicKeyIdentifier "test.issuer" 3.

Definition working : script :=
  mkScript
    ([], None)
    ([issuerKey2; issuerKey3], None)
    (42%Z, None)
    (mkPinMessage "alice" "12345", None)
    (mkChangePin "alice" "12345" "54321", None)
    1000000000000%Z
    ([Byte.xfb; Byte.xff; Byte.x00; Byte.x10; Byte.x83; Byte.x3e; Byte.x7a; Byte.x01], None)
    (fun name => if decide (name = "alice") then (alice, None)
                 else (mkKeyshareUser (mkKeyshareUserData EmptyString EmptyString []), Some (ErrOther "not found")))
    (true, 2%Z, 0%Z, None)
    None None (fun _ => None) None
    (fun pin => if decide (pin = "12345") then ("jwt", None) else (EmptyString, Some ErrInvalidPin))
    (fun pin => if decide (pin = "12345") then ([Byte.x03], None) else ([], Some ErrInvalidPin))
    (fun keys => (map (fun k => mkProofPCommitment 0 (Z.of_N (Counter k))) keys, 7%N, None))
    (fun _ _ => ("1234567", None))
    (fun jwt => if decide (jwt = "jwt") then None else Some ErrInvalidJWT).

Definition with_reserve (r : bool * Z * Z * option error) (s : script) : script :=
  mkScript (s_body s) (s_keys s) (s_challenge s) (s_pinMessage s) (s_changePin s)
    (s_now s) (s_random s) (s_user s) r (s_clearPincheck s) (s_setSeen s)
    (s_addLog s) (s_updateUser s) (s_validatePin s) (s_changedPin s)
    (s_commitments s) (s_response s) (s_validateJWT s).

Definition with_addLog (f : LogEntryType -> option error) (s : script) : script :=
  mkScript (s_body s) (s_keys s) (s_challenge s) (s_pinMessage s) (s_changePin s)
    (s_now s) (s_random s) (s_user s) (s_reserve s) (s_clearPincheck s) (s_setSeen s)
    f (s_updateUser s) (s_validatePin s) (s_changedPin s)
    (s_commitments s) (s_response s) (s_validateJWT s).

Definition with_pinMessage (m : keysharePinMessage) (s : script) : script :=
  mkScript (s_body s) (s_keys s) (s_challenge s) (m, None) (s_changePin s)
    (s_now s) (s_random s) (s_user s) (s_reserve s) (s_clearPincheck s) (s_setSeen s)
    (s_addLog s) (s_updateUser s) (s_validatePin s) (s_changedPin s)
    (s_commitments s) (s_response s) (s_validateJWT s).

Definition with_changePin (m : keyshareChangePin) (s : script) : script :=
  mkScript (s_body s) (s_keys s) (s_challenge s) (s_pinMessage s) (m, None)
    (s_now s) (s_random s) (s_user s) (s_reserve s) (s_clearPincheck s) (s_setSeen s)
    (s_addLog s) (s_updateUser s) (s_validatePin s) (s_changedPin s)
    (s_commitments s) (s_response s) (s_validateJWT s).

Definition with_changedPin (f : string -> EncryptedKeysharePacket * option error)
    (s : script) : script :=
  mkScript (s_body s) (s_keys s) (s_challenge s) (s_pinMessage s) (s_changePin s)
    (s_now s) (s_random s) (s_user s) (s_reserve s) (s_clearPincheck s) (s_setSeen s)
    (s_addLog s) (s_updateUser s) (s_validatePin s) f
    (s_commitments s) (s_response s) (s_validateJWT s).

Definition with_validatePin (f : string -> string * option error) (s : script) : script :=
  mkScript (s_body s) (s_keys s) (s_challenge s) (s_pinMessage s) (s_changePin s)
    (s_now s) (s_random s) (s_user s) (s_reserve s) (s_clearPincheck s) (s_setSeen s)
    (s_addLog s) (s_updateUser s) f (s_changedPin s)
    (s_commitments s) (s_response s) (s_validateJWT s).

Definition with_keys (ks : list PublicKeyIdentifier) (s : script) : script :=
  mkScript (s_body s) (ks, None) (s_challenge s) (s_pinMessage s) (s_changePin s)
    (s_now s) (s_random s) (s_user s) (s_reserve s) (s_clearPincheck s) (s_setSeen s)
    (s_addLog s) (s_updateUser s) (s_validatePin s) (s_changedPin s)
    (s_commitments s) (s_response s) (s_validateJWT s).

(** The context of a request of alice with a valid JWT. *)
Definition authorized : requestAuthorization := mkContext alice "jwt" true.

(** The store refuses the check and does not accept the log entry of the
    refusal. *)
Definition refusedUnlogged (wait : Z) : script :=
  with_addLog (fun _ => Some (ErrOther "log store unavailable"))
    (with_reserve (false, 0%Z, wait, None) working).

(** The session cache of the scripted runs: alice committed under [issuerKey2]
    with commitID 7, and the entry expired long before the clock of
    [working]. *)
Definition staleSessions : gmap string SessionData :=
  {[ "alice" := mkSessionData issuerKey2 7%N 5%Z ]}.

(** The log store is down; everything else works. *)
Definition unlogged : script :=
  with_addLog (fun _ => Some (ErrOther "log store unavailable")) working.


(** ** Further readings of a run and further scripted environments *)

Definition userUpdate (ev : event) : option (KeyshareUser * option error) :=
  match ev with
  | Event (DBUpdateUser u) r => Some (u, r)
  | _ => None
  end.

Definition userUpdates (t : list event) := omap userUpdate t.

(** The calls to the [KeyshareDB]. *)
Definition isStore (a : action) : bool :=
  match a with
  | DBUser _ | DBReservePincheck _ | DBClearPincheck _ | DBSetSeen _
  | DBAddLog _ _ _ | DBUpdateUser _ => true
  | _ => false
  end.

Definition storeCalls (t : list event) : list action := List.filter isStore (calls t).

Definition with_commitments
    (f : list PublicKeyIdentifier -> list ProofPCommitment * N * option error)
    (s : script) : script :=
  mkScript (s_body s) (s_keys s) (s_challenge s) (s_pinMessage s) (s_changePin s)
    (s_now s) (s_random s) (s_user s) (s_reserve s) (s_clearPincheck s) (s_setSeen s)
    (s_addLog s) (s_updateUser s) (s_validatePin s) (s_changedPin s)
    f (s_response s) (s_validateJWT s).

Definition with_response (f : N -> PublicKeyIdentifier -> string * option error)
    (s : script) : script :=
  mkScript (s_body s) (s_keys s) (s_challenge s) (s_pinMessage s) (s_changePin s)
    (s_now s) (s_random s) (s_user s) (s_reserve s) (s_clearPincheck s) (s_setSeen s)
    (s_addLog s) (s_updateUser s) (s_validatePin s) (s_changedPin s)
    (s_commitments s) f (s_validateJWT s).

Definition with_updateUser (r : option error) (s : script) : script :=
  mkScript (s_body s) (s_keys s) (s_challenge s) (s_pinMessage s) (s_changePin s)
    (s_now s) (s_random s) (s_user s) (s_reserve s) (s_clearPincheck s) (s_setSeen s)
    (s_addLog s) r (s_validatePin s) (s_changedPin s)
    (s_commitments s) (s_response s) (s_validateJWT s).

Definition with_body (b : list Byte.byte * option error) (s : script) : script :=
  mkScript b (s_keys s) (s_challenge s) (s_pinMessage s) (s_changePin s)
    (s_now s) (s_random s) (s_user s) (s_reserve s) (s_clearPincheck s) (s_setSeen s)
    (s_addLog s) (s_updateUser s) (s_validatePin s) (s_changedPin s)
    (s_commitments s) (s_response s) (s_validateJWT s).

Definition with_now (t : Time) (s : script) : script :=
  mkScript (s_body s) (s_keys s) (s_challenge s) (s_pinMessage s) (s_changePin s)
    t (s_random s) (s_user s) (s_reserve s) (s_clearPincheck s) (s_setSeen s)
    (s_addLog s) (s_updateUser s) (s_validatePin s) (s_changedPin s)
    (s_commitments s) (s_response s) (s_validateJWT s).

Definition with_random (r : list Byte.byte * option error) (s : script) : script :=
  mkScript (s_body s) (s_keys s) (s_challenge s) (s_pinMessage s) (s_changePin s)
    (s_now s) r (s_user s) (s_reserve s) (s_clearPincheck s) (s_setSeen s)
    (s_addLog s) (s_updateUser s) (s_validatePin s) (s_changedPin s)
    (s_commitments s) (s_response s) (s_validateJWT s).

(** A cache with entries that expire at 5, 15 and 25 ns. *)
Definition agingSessions : gmap string SessionData :=
  {[ "alice" := mkSessionData issuerKey2 7%N 5%Z;
     "bob" := mkSessionData issuerKey3 8%N 15%Z;
     "carol" := mkSessionData issuerKey2 9%N 25%Z ]}.

(** The route of /users/isAuthorized, behind both middlewares as the other
    keyshare session routes of [Handler]. *)
Definition routeValidate (r : request) (sessions : gmap string SessionData)
  : prog (gmap string SessionData * response) :=
  userMiddleware r sessions (fun user =>
    authorizationMiddleware r user (fun ctx =>
      resp <- handleValidate ctx ;; Ret (sessions, resp))).

End keyshareserver.

(** ** Effects over any set of calls *)

(** The handlers above call a fixed set of collaborators.  The code below
    calls others as well, so the tree of calls and its run are given once
    more, for any type of calls [A] with answers [res]. *)
Module effects.

Import keyshareserver.

Section Free.

Context {A : Type} {res : A -> Type}.

Inductive fprog (R : Type) : Type :=
| FRet (r : R)
| FAct (a : A) (k : res a -> fprog R)
| FPanic.

Arguments FRet {R} r.
Arguments FAct {R} a k.
Arguments FPanic {R}.

Fixpoint fbind {X Y : Type} (p : fprog X) (f : X -> fprog Y) : fprog Y :=
  match p with
  | FRet r => f r
  | FAct a k => FAct a (fun x => fbind (k x) f)
  | FPanic => FPanic
  end.

Definition fcall (a : A) : fprog (res a) := FAct a FRet.

Record fevent : Type := FEvent { fev_action : A; fev_result : res fev_action }.

Definition fenv (W : Type) : Type := forall a : A, W -> res a * W.

Fixpoint frun {W R : Type} (e : fenv W) (p : fprog R) (w : W)
  : list fevent * W * outcome R :=
  match p with
  | FRet r => ([], w, Done r)
  | FPanic => ([], w, Panicked)
  | FAct a k =>
      let xw := e a w in
      let '(t, w', o) := frun e (k xw.1) xw.2 in
      (FEvent a xw.1 :: t, w', o)
  end.

Definition fcalls (t : list fevent) : list A := map fev_action t.

End Free.

Arguments fprog {A} res R.
Arguments FRet {A res R} r.
Arguments FAct {A res R} a k.
Arguments FPanic {A res R}.
Arguments fevent {A} res.
Arguments FEvent {A res} fev_action fev_result.
Arguments fenv {A} res W.

Declare Scope fprog_scope.
Delimit Scope fprog_scope with fprog.
Notation "x <- p ;; q" := (fbind p (fun x => q))
  (at level 100, p at next level, right associativity) : fprog_scope.
Notation "p ;;; q" := (fbind p (fun _ => q))
  (at level 100, right associativity) : fprog_scope.

End effects.

(** ** Loading the issuer keys *)

Module loading.

Import keysharecore keyshareserver effects.
Local Open Scope fprog_scope.

(** [uint(id)] for an [int]. *)
Definition uint_of_int (id : Z) : N := Z.to_N (id mod 2 ^ 64).

Section LoadIdemixKeys.

Variables (RSAPrivateKey GabiPublicKey ConsistentStorage : Type).

(** What [LoadIdemixKeys] calls: the logger, and the two lookups of the
    IRMA configuration. *)
Inductive laction : Type :=
| LBase (a : action)
| PublicKeyIndices (issuer : string)
| PublicKey (issuer : string) (id : Z).

Definition lresult (a : laction) : Type :=
  match a with
  | LBase a => result a
  | PublicKeyIndices _ => (list Z * option error)%type
  | PublicKey _ _ => (GabiPublicKey * option error)%type
  end.

Definition llog (lvl : level) (msg : string) : fprog lresult unit :=
  fcall (LBase (Logger lvl msg)).

(** The inner loop, over the key identifiers of one issuer. *)
Fixpoint loadKeys (issuer : string) (keyIDs : list Z)
    (c : Core RSAPrivateKey GabiPublicKey ConsistentStorage)
  : fprog lresult (Core RSAPrivateKey GabiPublicKey ConsistentStorage) :=
  match keyIDs with
  | [] => FRet c
  | id :: rest =>
      r <- fcall (PublicKey issuer id) ;;
      let '(key, err) := r in
      match err with
      | Some _ =>
          llog Warn "Could not fetch public key for issuer" ;;;
          loadKeys issuer rest c
      | None =>
          loadKeys issuer rest
            (DangerousAddTrustedPublicKey
               (mkPublicKeyIdentifier issuer (uint_of_int id)) key c)
      end
  end.

(** On configuration changes, inform the keyshare core of any new IRMA
    issuer public keys.  [issuers] are the identifiers of the issuers of the
    configuration, in the order the map of issuers is ranged over. *)
Fixpoint LoadIdemixKeys (issuers : list string)
    (c : Core RSAPrivateKey GabiPublicKey ConsistentStorage)
  : fprog lresult (Core RSAPrivateKey GabiPublicKey ConsistentStorage) :=
  match issuers with
  | [] => FRet c
  | issuer :: rest =>
      r <- fcall (PublicKeyIndices issuer) ;;
      let '(keyIDs, err) := r in
      match err with
      | Some _ =>
          llog Warn "Could not find keyIDs for issuer" ;;;
          LoadIdemixKeys rest c
      | None =>
          c <- loadKeys issuer keyIDs c ;;
          LoadIdemixKeys rest c
      end
  end.

(** Readings of a run. *)
Definition indexRequest (ev : fevent lresult) : option string :=
  match ev with
  | FEvent (PublicKeyIndices issuer) _ => Some issuer
  | _ => None
  end.

Definition fetchedKey (ev : fevent lresult) : option (PublicKeyIdentifier * GabiPublicKey) :=
  match ev with
  | FEvent (PublicKey issuer id) (key, None) =>
      Some (mkPublicKeyIdentifier issuer (uint_of_int id), key)
  | _ => None
  end.

Definition indexRequests (t : list (fevent lresult)) := omap indexRequest t.
Definition fetchedKeys (t : list (fevent lresult)) := omap fetchedKey t.

End LoadIdemixKeys.

Arguments loadKeys {_ _ _} issuer keyIDs c.
Arguments LoadIdemixKeys {_ _ _} issuers c.
Arguments indexRequests {_} t.
Arguments fetchedKeys {_} t.

(** A configuration with two issuers, as a test would set one up: the keys
    of the first cannot be listed, the second has the keys 0 and 1, of
    which key 0 cannot be read. *)
Definition twoIssuers : fenv (lresult (option Z)) unit :=
  fun a w =>
    (match a as a0 return lresult (option Z) a0 with
     | LBase a => answer working a
     | PublicKeyIndices issuer =>
         if decide (issuer = "test.first") then ([], Some (ErrOther "no such directory"))
         else ([0%Z; 1%Z], None)
     | PublicKey issuer id =>
         if decide (id = 0%Z) then (None, Some (ErrOther "unreadable key"))
         else (Some id, None)
     end, w).

End loading.

(** ** /client/register *)

Module registration.

Import keyshareserver effects.
Local Open Scope fprog_scope.

Record keyshareEnrollment : Type := mkEnrollment {
  en_Pin : string;
  en_Email : option string;       (* [*string]; nil is [None] *)
  en_Language : string
}.

(** irma.Qr, the pointer to the issuance session. *)
Record Qr : Type := mkQr { qr_Type : string; qr_URL : string }.

(** One credential of an issuance request. *)
Record CredentialRequest : Type := mkCredentialRequest {
  CredentialTypeID : string;
  Attributes : gmap string string
}.

(** A parsed email template, by handle. *)
Definition Template : Type := N.

(** The fields of the server configuration that registration reads. *)
Record Configuration : Type := mkConfiguration {
  DefaultLanguage : string;
  EmailServer : string;
  EmailAuth : N;                  (* the SMTP credentials, by handle *)
  EmailFrom : string;
  RegistrationEmailTemplates : gmap string (option Template);  (* [*template.Template] *)
  RegistrationEmailSubject : gmap string string;
  VerificationURL : gmap string string;
  KeyshareCredential : string;
  KeyshareAttribute : string
}.

(** The calls of registration: those of the other handlers, the decoder of
    the enrollment message, the Core, the store, the token generator, the
    template engine, the mailer and the issuance session server. *)
Inductive raction : Type :=
| Base (a : action)
| UnmarshalEnrollment (body : list Byte.byte)
| CoreGenerateKeyshareSecret (pin : string)
| DBNewUser (data : KeyshareUserData)
| DBAddEmailVerification (u : KeyshareUser) (email token : string)
| NewSessionToken
| TemplateExecute (template : Template) (data : gmap string string)
| SendHTMLMail (addr : string) (auth : N) (from to subject : string) (msg : list Byte.byte)
| StartSession (request : list CredentialRequest).

Definition rresult (a : raction) : Type :=
  match a with
  | Base a => result a
  | UnmarshalEnrollment _ => (keyshareEnrollment * option error)%type
  | CoreGenerateKeyshareSecret _ => (EncryptedKeysharePacket * option error)%type
  | DBNewUser _ => (KeyshareUser * option error)%type
  | DBAddEmailVerification _ _ _ => option error
  | NewSessionToken => string
  | TemplateExecute _ _ => (list Byte.byte * option error)%type
  | SendHTMLMail _ _ _ _ _ _ => option error
  | StartSession _ => (option Qr * string * option error)%type
  end.

Definition rprog (R : Type) : Type := fprog rresult R.

(** A handler of the other routes, run among the calls of registration. *)
Fixpoint lift {R : Type} (p : prog R) : rprog R :=
  match p with
  | Ret r => FRet r
  | Act a k => FAct (Base a) (fun x => lift (k x))
  | Panic => FPanic
  end.

Definition rlog (lvl : level) (msg : string) : rprog unit := fcall (Base (Logger lvl msg)).

(** A lookup in a map of the configuration by language, falling back on the
    default language: [v, ok := m[language]; if !ok { v = m[DefaultLanguage] }];
    a key the map does not have reads as the zero value of the values. *)
Definition byLanguage {V : Type} (zero : V) (m : gmap string V) (conf : Configuration)
    (language : string) : V :=
  match m !! language with
  | Some v => v
  | None => default zero (m !! DefaultLanguage conf)
  end.

Definition sendRegistrationEmail (conf : Configuration) (user : KeyshareUser)
    (language email : string) : rprog (option error) :=
  (* Fetch template and configuration data for users language, falling back if needed *)
  let template := byLanguage None (RegistrationEmailTemplates conf) conf language in
  let verificationBaseURL := byLanguage EmptyString (VerificationURL conf) conf language in
  let subject := byLanguage EmptyString (RegistrationEmailSubject conf) conf language in
  (* Generate token *)
  token <- fcall NewSessionToken ;;
  (* Add it to the database *)
  err <- fcall (DBAddEmailVerification user email token) ;;
  match err with
  | Some e =>
      rlog Error_ "Could not generate email verifiation mail record" ;;;
      FRet (Some e)
  | None =>
  (* Build message; [Execute] on a nil template dereferences it *)
  match template with
  | None => FPanic
  | Some template =>
  r <- fcall (TemplateExecute template
                {[ "VerificationURL" := String.append verificationBaseURL token ]}) ;;
  let '(msg, err) := r in
  match err with
  | Some e =>
      rlog Error_ "Could not generate email verifiation mail" ;;;
      FRet (Some e)
  | None =>
  (* And send it *)
  err <- fcall (SendHTMLMail (EmailServer conf) (EmailAuth conf) (EmailFrom conf)
                  email subject msg) ;;
  match err with
  | Some e =>
      rlog Error_ "Could not send email verifiation mail" ;;;
      FRet (Some e)
  | None => FRet None
  end
  end
  end
  end.

Definition doRegistration (conf : Configuration) (msg : keyshareEnrollment)
  : rprog (option Qr * option error) :=
  (* Generate keyshare server account *)
  username <- lift generateUsername ;;
  r <- fcall (CoreGenerateKeyshareSecret (en_Pin msg)) ;;
  let '(coredata, err) := r in
  match err with
  | Some e =>
      rlog Error_ "Could not register user" ;;;
      FRet (None, Some e)
  | None =>
  r <- fcall (DBNewUser (mkKeyshareUserData username (en_Language msg) coredata)) ;;
  let '(user, err) := r in
  match err with
  | Some e =>
      rlog Error_ "Could not store new user in database" ;;;
      FRet (None, Some e)
  | None =>
  (* Send email if user specified email address *)
  err <-
    match en_Email msg with
    | Some email =>
        if decide (email <> EmptyString /\ EmailServer conf <> EmptyString)
        then sendRegistrationEmail conf user (en_Language msg) email
        else FRet None
    | None => FRet None
    end ;;
  match err with
  | Some e => FRet (None, Some e)
  | None =>
  (* Setup and return issuance session for keyshare credential. *)
  let request :=
    [mkCredentialRequest (KeyshareCredential conf)
       {[ KeyshareAttribute conf := username ]}] in
  r <- fcall (StartSession request) ;;
  let '(sessionptr, _, err) := r in
  match err with
  | Some e =>
      rlog Error_ "Could not start keyshare credential issuance sessions" ;;;
      FRet (None, Some e)
  | None => FRet (sessionptr, None)
  end
  end
  end
  end.

(** What /client/register writes. *)
Inductive registerResponse : Type :=
| RegisterError (e : Error) (msg : message)
| RegisterJson (sessionptr : option Qr).

(** /client/register *)
Definition handleRegister (conf : Configuration) : rprog registerResponse :=
  r <- fcall (Base ReadAll) ;;
  let '(body, err) := r in
  match err with
  | Some _ =>
      rlog Info "Malformed request: could not read request body" ;;;
      FRet (RegisterError ErrorInvalidRequest (Literal "could not read request body"))
  | None =>
  r <- fcall (UnmarshalEnrollment body) ;;
  let '(msg, err) := r in
  match err with
  | Some _ =>
      rlog Info "Malformed request: could not parse request body" ;;;
      FRet (RegisterError ErrorInvalidRequest (Literal "Invalid request"))
  | None =>
  r <- doRegistration conf msg ;;
  let '(sessionptr, err) := r in
  if decide (err = Some ErrPinTooLong) then
    (* Too long pin is not an internal error *)
    FRet (RegisterError ErrorInvalidRequest (ErrorString ErrPinTooLong))
  else
  match err with
  | Some e => FRet (RegisterError ErrorInternal (ErrorString e))
  | None => FRet (RegisterJson sessionptr)
  end
  end
  end.

(** Readings of a run. *)
Definition revent : Type := fevent rresult.

Definition liftEvent (ev : event) : revent :=
  let 'Event a r := ev in FEvent (Base a) r.

(** What [generateUsername] makes of the bytes [data] of the random source. *)
Definition usernameFrom (data : list Byte.byte) : outcome string :=
  returned (run (scripted (with_random (data, None) working)) generateUsername tt).

Definition newUser (ev : revent) : option (KeyshareUserData * (KeyshareUser * option error)) :=
  match ev with
  | FEvent (DBNewUser data) r => Some (data, r)
  | _ => None
  end.

Definition generatedSecret (ev : revent)
  : option (string * (EncryptedKeysharePacket * option error)) :=
  match ev with
  | FEvent (CoreGenerateKeyshareSecret pin) r => Some (pin, r)
  | _ => None
  end.

Definition startedSession (ev : revent)
  : option (list CredentialRequest * (option Qr * string * option error)) :=
  match ev with
  | FEvent (StartSession request) r => Some (request, r)
  | _ => None
  end.

Definition enrollment (ev : revent) : option (keyshareEnrollment * option error) :=
  match ev with
  | FEvent (UnmarshalEnrollment _) r => Some r
  | _ => None
  end.

Definition randomRead (ev : revent) : option (list Byte.byte * option error) :=
  match ev with
  | FEvent (Base (RandRead _)) r => Some r
  | _ => None
  end.

Definition newToken (ev : revent) : option string :=
  match ev with
  | FEvent NewSessionToken t => Some t
  | _ => None
  end.

Definition verification (ev : revent)
  : option (KeyshareUser * string * string * option error) :=
  match ev with
  | FEvent (DBAddEmailVerification u email token) r => Some (u, email, token, r)
  | _ => None
  end.

Definition rendering (ev : revent)
  : option (Template * gmap string string * (list Byte.byte * option error)) :=
  match ev with
  | FEvent (TemplateExecute t data) r => Some (t, data, r)
  | _ => None
  end.

Definition sentMail (ev : revent)
  : option (string * N * string * string * string * list Byte.byte * option error) :=
  match ev with
  | FEvent (SendHTMLMail addr auth from to subject msg) r =>
      Some (addr, auth, from, to, subject, msg, r)
  | _ => None
  end.

Definition isMail (a : raction) : bool :=
  match a with
  | DBAddEmailVerification _ _ _ | NewSessionToken | TemplateExecute _ _
  | SendHTMLMail _ _ _ _ _ _ => true
  | _ => false
  end.

Definition isRLogger (a : raction) : bool :=
  match a with
  | Base (Logger _ _) => true
  | _ => false
  end.

Definition newUsers (t : list revent) := omap newUser t.
Definition generatedSecrets (t : list revent) := omap generatedSecret t.
Definition startedSessions (t : list revent) := omap startedSession t.
Definition enrollments (t : list revent) := omap enrollment t.
Definition randomReads (t : list revent) := omap randomRead t.
Definition newTokens (t : list revent) := omap newToken t.
Definition verifications (t : list revent) := omap verification t.
Definition renderings (t : list revent) := omap rendering t.
Definition sentMails (t : list revent) := omap sentMail t.
Definition mailCalls (t : list revent) : list raction := List.filter isMail (fcalls t).
Definition registrationCalls (t : list revent) : list raction :=
  List.filter (fun a => negb (isRLogger a)) (fcalls t).

(** A scripted environment for registration: a script for the calls of the
    other handlers, and fixed answers to the others. *)
Record rscript : Type := mkRScript {
  rs_base : script;
  rs_enrollment : keyshareEnrollment * option error;
  rs_secret : string -> EncryptedKeysharePacket * option error;
  rs_newUser : option error;
  rs_addVerification : option error;
  rs_token : string;
  rs_template : Template -> gmap string string -> list Byte.byte * option error;
  rs_mail : option error;
  rs_session : option Qr * string * option error
}.

Definition ranswer (s : rscript) (a : raction) : rresult a :=
  match a as a0 return rresult a0 with
  | Base a => answer (rs_base s) a
  | UnmarshalEnrollment _ => rs_enrollment s
  | CoreGenerateKeyshareSecret pin => rs_secret s pin
  | DBNewUser data => (mkKeyshareUser data, rs_newUser s)
  | DBAddEmailVerification _ _ _ => rs_addVerification s
  | NewSessionToken => rs_token s
  | TemplateExecute t data => rs_template s t data
  | SendHTMLMail _ _ _ _ _ _ => rs_mail s
  | StartSession _ => rs_session s
  end.

Definition rscripted (s : rscript) : fenv rresult unit := fun a w => (ranswer s a, w).

(** A server with an English and a Dutch mail template, English being the
    default language, and no subject line for Dutch. *)
Definition mailing : Configuration :=
  mkConfiguration "en" "smtp.example.com:25" 0%N "noreply@example.com"
    {[ "en" := Some 1%N; "nl" := Some 2%N ]}
    {[ "en" := "Verify your email address" ]}
    {[ "en" := "https://example.com/en/verify/"; "nl" := "https://example.com/nl/verify/" ]}
    "test.keyshare.mijnirma" "email".

(** The same server without any mail template. *)
Definition untemplated : Configuration :=
  mkConfiguration "en" "smtp.example.com:25" 0%N "noreply@example.com"
    ∅
    {[ "en" := "Verify your email address" ]}
    {[ "en" := "https://example.com/en/verify/"; "nl" := "https://example.com/nl/verify/" ]}
    "test.keyshare.mijnirma" "email".

(** The answers to a client that enrolls with [msg], all collaborators
    working; the Core refuses a PIN of more than 64 characters. *)
Definition enrolling (msg : keyshareEnrollment) : rscript :=
  mkRScript working (msg, None)
    (fun pin => if decide (String.length pin <= 64)%nat then ([Byte.x07], None)
                else ([], Some ErrPinTooLong))
    None None "token"
    (fun t data => ([Byte.x68; Byte.x69], None))
    None
    (Some (mkQr "issuing" "https://example.com/irma/session/abc"), "requestortoken", None).

Definition with_base (b : script) (s : rscript) : rscript :=
  mkRScript b (rs_enrollment s) (rs_secret s) (rs_newUser s) (rs_addVerification s)
    (rs_token s) (rs_template s) (rs_mail s) (rs_session s).

Definition with_enrollment (r : keyshareEnrollment * option error) (s : rscript) : rscript :=
  mkRScript (rs_base s) r (rs_secret s) (rs_newUser s) (rs_addVerification s)
    (rs_token s) (rs_template s) (rs_mail s) (rs_session s).

Definition with_mail (r : option error) (s : rscript) : rscript :=
  mkRScript (rs_base s) (rs_enrollment s) (rs_secret s) (rs_newUser s) (rs_addVerification s)
    (rs_token s) (rs_template s) r (rs_session s).

Definition with_session (r : option Qr * string * option error) (s : rscript) : rscript :=
  mkRScript (rs_base s) (rs_enrollment s) (rs_secret s) (rs_newUser s) (rs_addVerification s)
    (rs_token s) (rs_template s) (rs_mail s) r.

Definition with_newUser (r : option error) (s : rscript) : rscript :=
  mkRScript (rs_base s) (rs_enrollment s) (rs_secret s) r (rs_addVerification s)
    (rs_token s) (rs_template s) (rs_mail s) (rs_session s).

(** A client with a PIN, an email address and Dutch as language. *)
Definition carol : keyshareEnrollment :=
  mkEnrollment "12345" (Some "carol@example.com") "nl".

End registration.
(** * Properties *)

Import keysharecore keyshareserver.

(** ** The key ring and the configuration defaults *)

Section CoreProperties.

Context {RSAPrivateKey GabiPublicKey ConsistentStorage : Type}.
Implicit Types c : Core RSAPrivateKey GabiPublicKey ConsistentStorage.

Lemma addDecryptionKeys_write_key ks :
  forall c,
    decryptionKey (addDecryptionKeys ks c) = decryptionKey c /\
    decryptionKeyID (addDecryptionKeys ks c) = decryptionKeyID c.
Proof.
  induction ks as [|[id k] ks IH]; intros c; [done|].
  unfold addDecryptionKeys in *. cbn [foldl].
  destruct (IH (DangerousAddDecryptionKey (id, k).1 (id, k).2 c)) as [-> ->]. done.
Qed.

(** C7: [DangerousAddDecryptionKey keyID key] puts [key] under [keyID] in
    the decryption key ring and changes no other field of the Core, the
    current write key and its identifier included; so after any run of such
    calls the write key is still the one [setDecryptionKey] installed. *)
Theorem DangerousAddDecryptionKey_frame keyID key c :
  let c' := DangerousAddDecryptionKey keyID key c in
  decryptionKeys c' = <[keyID := key]> (decryptionKeys c) /\
  decryptionKey c' = decryptionKey c /\
  decryptionKeyID c' = decryptionKeyID c /\
  jwtPrivateKey c' = jwtPrivateKey c /\
  jwtPrivateKeyID c' = jwtPrivateKeyID c /\
  jwtIssuer c' = jwtIssuer c /\
  jwtPinExpiry c' = jwtPinExpiry c /\
  storage c' = storage c /\
  trustedKeys c' = trustedKeys c /\
  forall ks id k,
    let c'' := addDecryptionKeys ks (setDecryptionKey id k c) in
    decryptionKey c'' = k /\ decryptionKeyID c'' = id.
Proof.
  cbn. repeat split; try reflexivity.
  - by destruct (addDecryptionKeys_write_key ks (setDecryptionKey id k c)) as [-> _].
  - by destruct (addDecryptionKeys_write_key ks (setDecryptionKey id k c)) as [_ ->].
Qed.

(** C8: [NewKeyshareCore] takes the issuer and the pin expiry over from the
    configuration, except that an empty issuer becomes "keyshare_server" and
    a pin expiry of 0 becomes 300 seconds; the keys, their identifiers and
    the storage are those of the configuration. *)
Theorem NewKeyshareCore_defaults (conf : Configuration RSAPrivateKey ConsistentStorage) :
  let c := NewKeyshareCore GabiPublicKey conf in
  jwtIssuer c = (if decide (JWTIssuer conf = EmptyString) then "keyshare_server" else JWTIssuer conf) /\
  jwtPinExpiry c = (if decide (JWTPinExpiry conf = 0) then 300 else JWTPinExpiry conf)%Z /\
  decryptionKey c = DecryptionKey conf /\
  decryptionKeyID c = DecryptionKeyID conf /\
  decryptionKeys c = {[ DecryptionKeyID conf := DecryptionKey conf ]} /\
  jwtPrivateKey c = JWTPrivateKey conf /\
  jwtPrivateKeyID c = JWTPrivateKeyID conf /\
  storage c = Storage conf /\
  trustedKeys c = ∅.
Proof.
  unfold NewKeyshareCore. cbn.
  destruct (decide (JWTIssuer conf = EmptyString)); cbn;
    destruct (decide (JWTPinExpiry conf = 0%Z)); cbn; repeat split; done.
Qed.

End CoreProperties.

(** ** The username generator *)

Section Username.

Lemma land_63_lt (x : N) : (N.land x 63 < 64)%N.
Proof.
  change 63%N with (N.ones 6). rewrite N.land_ones.
  apply N.mod_lt. discriminate.
Qed.

Lemma sextet_in_alphabet val shift :
  In (sextet val shift) (list_ascii_of_string encodeStd).
Proof.
  unfold sextet. apply nth_In.
  pose proof (land_63_lt (N.shiftr val shift)) as H.
  change (length (list_ascii_of_string encodeStd)) with 64%nat. lia.
Qed.

Lemma alphabet_chars c :
  In c (list_ascii_of_string encodeStd) ->
  isBase62 c = true \/ c = "+"%char \/ c = "/"%char.
Proof.
  intros H. cbn in H.
  repeat (destruct H as [<-|H]; [first [by left | by right; left | by right; right]|]).
  destruct H.
Qed.

Lemma replaceFrom_single c s :
  list_ascii_of_string (replaceFrom 0 s (String c EmptyString) EmptyString) =
  filter (fun x => x <> c) (list_ascii_of_string s).
Proof.
  induction s as [|a s IH]; [done|].
  cbn [replaceFrom String.prefix String.length list_ascii_of_string].
  rewrite filter_cons.
  destruct (ascii_dec c a) as [->|Hne].
  - destruct (decide (a <> a)) as [?|_]; [done|].
    replace (String.prefix EmptyString s) with true by (by destruct s).
    cbn. apply IH.
  - destruct (decide (a <> c)) as [_|E]; [|by destruct E; congruence].
    cbn. by rewrite IH.
Qed.

Lemma ReplaceAll_single c s :
  list_ascii_of_string (ReplaceAll s (String c EmptyString) EmptyString) =
  filter (fun x => x <> c) (list_ascii_of_string s).
Proof. apply replaceFrom_single. Qed.

Lemma fill_length {A} (buf data : list A) : length (fill buf data) = length buf.
Proof.
  unfold fill. rewrite length_take, length_app, length_drop. lia.
Qed.

End Username.

Lemma String_length_list (s : string) :
  String.length s = length (list_ascii_of_string s).
Proof. induction s as [|a s IH]; [done|]. cbn. by rewrite IH. Qed.

(** C9: [generateUsername] reads 8 bytes of the random source, once, and
    panics exactly when the source fails.  The username it returns is the
    base64 encoding, 12 characters long, of its 8-byte buffer after the
    read (the bytes read, when the source delivered 8) without the
    characters '+', '/' and '='; it consists of letters and digits only and
    has at most 11 characters. *)
Theorem generateUsername_base62 {W : Type} (e : env W) (w : W) :
  let data := (e (RandRead 8) w).1.1 in
  let err := (e (RandRead 8) w).1.2 in
  let bts := fill (repeat Byte.x00 8) data in
  calls (trace (run e generateUsername w)) = [RandRead 8] /\
  length bts = 8%nat /\ length (Encode bts) = 12%nat /\
  (length data = 8%nat -> bts = data) /\
  match returned (run e generateUsername w) with
  | Done s =>
      err = None /\
      Forall (fun c => isBase62 c = true) (list_ascii_of_string s) /\
      (String.length s <= 11)%nat /\
      list_ascii_of_string s =
        filter (fun c => c <> "="%char)
          (filter (fun c => c <> "/"%char)
             (filter (fun c => c <> "+"%char) (Encode bts)))
  | Panicked => exists e', err = Some e'
  end.
Proof.
  cbv zeta.
  split; [|split; [apply fill_length|]].
  { unfold generateUsername, trace, calls. cbn -[ReplaceAll Encode writeInto fill].
    destruct (e (RandRead 8) w) as [[data [err|]] w']; cbn -[ReplaceAll Encode writeInto fill];
      [done|].
    by destruct (writeInto _ _). }
  split.
  { pose proof (fill_length (repeat Byte.x00 8) (e (RandRead 8) w).1.1) as Hlen.
    remember (fill _ _) as bts eqn:Hb. clear Hb.
    do 9 (destruct bts as [|? bts]; try discriminate Hlen). reflexivity. }
  split.
  { generalize (e (RandRead 8) w).1.1. intros data Hd.
    unfold fill. rewrite Hd. cbn [repeat drop length].
    rewrite app_nil_r. apply take_ge. lia. }
  unfold generateUsername, returned. cbn -[ReplaceAll Encode writeInto fill].
  destruct (e (RandRead 8) w) as [[data [err|]] w']; cbn -[ReplaceAll Encode writeInto fill]; [by eauto|].
  remember (fill _ data) as bts eqn:Hb.
  assert (Hlen : length bts = 8%nat) by (subst bts; apply fill_length).
  clear Hb.
  do 9 (destruct bts as [|? bts]; try discriminate Hlen). clear Hlen.
  cbn [Encode writeInto length Nat.leb repeat drop app run snd fst].
  rewrite !ReplaceAll_single, list_ascii_of_string_of_list_ascii.
  match goal with |- context [filter _ (filter _ (filter _ ?l))] => set (enc := l) end.
  assert (Hin : forall c, In c enc ->
            In c (list_ascii_of_string encodeStd) \/ c = StdPadding).
  { intros c Hc. subst enc. cbn in Hc.
    repeat (destruct Hc as [<-|Hc];
            [first [left; apply sextet_in_alphabet | by right]|]).
    destruct Hc. }
  split; [done|]. split; [|split].
  - apply Forall_forall. intros c Hc.
    rewrite !list_elem_of_filter in Hc. destruct Hc as (Heq & Hsl & Hpl & Hc).
    apply list_elem_of_In in Hc. apply Hin in Hc. destruct Hc as [Hc|Hc]; [|done].
    destruct (alphabet_chars c Hc) as [?|[?|?]]; done.
  - rewrite String_length_list, !ReplaceAll_single, list_ascii_of_string_of_list_ascii.
    fold enc.
    assert (Hpad : StdPadding ∈ enc)
      by (apply list_elem_of_lookup; exists 11%nat; reflexivity).
    pose proof (length_filter (fun c => c <> "+"%char) enc) as H1.
    pose proof (length_filter (fun c => c <> "/"%char)
                  (filter (fun c => c <> "+"%char) enc)) as H2.
    pose proof (length_filter_lt (fun c => c <> "="%char)
                  (filter (fun c => c <> "/"%char)
                     (filter (fun c => c <> "+"%char) enc)) StdPadding) as H3.
    change (length enc) with 12%nat in H1.
    assert (length (filter (fun c => c <> "="%char)
                      (filter (fun c => c <> "/"%char)
                         (filter (fun c => c <> "+"%char) enc))) <
            length (filter (fun c => c <> "/"%char)
                      (filter (fun c => c <> "+"%char) enc)))%nat; [|lia].
    apply H3; [|by intros E; apply E].
    rewrite !list_elem_of_filter. done.
  - reflexivity.
Qed.

(** The 8 bytes fb ff 00 10 83 3e 7a 01 encode to +/8AEIM+egE=. *)
Lemma generateUsername_base62_witness :
  let data := [Byte.xfb; Byte.xff; Byte.x00; Byte.x10; Byte.x83; Byte.x3e; Byte.x7a; Byte.x01] in
  length data = 8%nat /\
  fill (repeat Byte.x00 8) data = data /\
  returned (run (scripted working) generateUsername tt) = Done "8AEIMegE".
Proof.
  cbv zeta. split; [reflexivity|].
  destruct (generateUsername_base62 (scripted working) tt) as (_ & _ & _ & H & _).
  split; [exact (H eq_refl)|reflexivity].
Defined.

(** ** Symbolic execution of a handler against any environment *)

(** One call: name its answer and the next state of the environment. *)
Ltac answer_call e :=
  match goal with
  | |- context [e ?a ?w] =>
      is_var w;
      let x := fresh "x" in
      let w' := fresh "w" in
      destruct (e a w) as [x w'];
      cbn in x;
      repeat match type of x with
             | (_ * _)%type => let y := fresh "err" in destruct x as [x y]
             end
  end.

(** Run a handler whose calls do not depend on a map lookup: answer the
    call in front, split on what was answered, simplify. *)
Ltac exec e :=
  repeat first
    [ answer_call e
    | match goal with
      | |- context [match ?x with _ => _ end] => is_var x; destruct x
      | |- context [negb ?x] => is_var x; destruct x
      | |- context [decide ?P] => destruct (decide P)
      end
    | progress cbn -[fmt_v] ].

(** Close a leaf of the execution from the equations on its trace. *)
Ltac finish :=
  intros; simplify_eq/=;
  repeat match goal with
         | H : Forall _ (_ :: _) |- _ => apply Forall_cons in H; destruct H
         | H : _ /\ _ |- _ => destruct H
         end;
  simplify_eq/=; try done; try tauto; try congruence;
  try (case_decide; done); try (intuition discriminate); eauto.

Section PinHandlers.

Context {W : Type} (e : env W) (w : W).

(** C1, as amended: for a request of a registered user whose reservation the
    store answers without error, /users/verify/pin answers by the case split
    of the specification as long as the log entries the handler adds on its
    way are accepted; a log entry that is not accepted is the last one the
    handler adds, and the answer is then an Internal error with the error of
    the log.  A refused reservation adds the one entry PinCheckRefused. *)
Theorem handleVerifyPin_cases (user : KeyshareUser) (ok : bool) (tries wait : Z) :
  let r := run e handleVerifyPin w in
  fetchedUsers (trace r) = [(user, None)] ->
  reservations (trace r) = [(ok, tries, wait, None)] ->
  (Forall (fun l => l.2 = None) (logEntries (trace r)) ->
   (ok = false ->
      returned r = Done (WriteJson (JPinStatus (mkPinStatus "error" (fmt_v wait)))) /\
      pinValidations (trace r) = []) /\
   (forall jwt, pinValidations (trace r) = [(jwt, Some ErrInvalidPin)] -> tries <> 0%Z ->
      returned r = Done (WriteJson (JPinStatus (mkPinStatus "failure" (fmt_v tries))))) /\
   (forall jwt, pinValidations (trace r) = [(jwt, Some ErrInvalidPin)] -> tries = 0%Z ->
      returned r = Done (WriteJson (JPinStatus (mkPinStatus "error" (fmt_v wait))))) /\
   (forall jwt, pinValidations (trace r) = [(jwt, None)] ->
      returned r = Done (WriteJson (JPinStatus (mkPinStatus "success" jwt))) /\
      In (DBClearPincheck user) (calls (trace r)) /\
      In (DBSetSeen user) (calls (trace r)))) /\
  (forall kind param err,
     In (kind, param, Some err) (logEntries (trace r)) ->
     returned r = Done (WriteError ErrorInternal (ErrorString err)) /\
     last (logEntries (trace r)) = Some (kind, param, Some err)) /\
  (ok = false ->
     pinValidations (trace r) = [] /\
     exists logged, logEntries (trace r) = [(PinCheckRefused, None, logged)]).
Proof.
  unfold handleVerifyPin, doVerifyPin, whenErr, log, call, trace, returned, calls,
    fetchedUsers, reservations, logEntries, pinValidations.
  cbv zeta.
  exec e.
  all: intros Hu Hr; (split; [intros Hl; repeat split; finish|]).
  all: split; [|intros; simplify_eq/=; eauto].
  all: cbn; intros kind param err' Hin.
  all: repeat match goal with H : _ \/ _ |- _ => destruct H end; simplify_eq/=; done.
Qed.

(** C4, as amended: in /users/verify/pin and /users/change/pin no Core
    operation is called before [ReservePincheck]; a refused reservation
    makes no Core call; in verify-pin it adds the log entry PinCheckRefused
    and is answered with status "error" and the wait when the log accepts
    the entry, and with an Internal error carrying the error of the log when
    it does not; in change-pin it is answered with status "error" and the
    wait; in change-pin a wrong old PIN is answered from the reservation,
    "failure" with the remaining tries or "error" with the wait when none
    remain, and the pincheck is not cleared; a successful change calls
    [ClearPincheck] and then [UpdateUser], both with the user carrying the
    new blob. *)
Theorem pincheck_reserved_before_crypto :
  let rv := run e handleVerifyPin w in
  let rc := run e handleChangePin w in
  reservedBeforeCore false (calls (trace rv)) = true /\
  reservedBeforeCore false (calls (trace rc)) = true /\
  (forall tries wait,
     reservations (trace rv) = [(false, tries, wait, None)] ->
     coreCalls (trace rv) = [] /\
     exists logged,
       logEntries (trace rv) = [(PinCheckRefused, None, logged)] /\
       returned rv =
         Done (match logged with
               | None => WriteJson (JPinStatus (mkPinStatus "error" (fmt_v wait)))
               | Some err => WriteError ErrorInternal (ErrorString err)
               end)) /\
  (forall tries wait,
     reservations (trace rc) = [(false, tries, wait, None)] ->
     coreCalls (trace rc) = [] /\
     returned rc = Done (WriteJson (JPinStatus (mkPinStatus "error" (fmt_v wait))))) /\
  (forall tries wait blob,
     reservations (trace rc) = [(true, tries, wait, None)] ->
     pinChanges (trace rc) = [(blob, Some ErrInvalidPin)] ->
     returned rc =
       Done (WriteJson (JPinStatus
         (if decide (tries = 0%Z) then mkPinStatus "error" (fmt_v wait)
          else mkPinStatus "failure" (fmt_v tries)))) /\
     forall u, ~ In (DBClearPincheck u) (calls (trace rc))) /\
  (forall user tries wait blob,
     fetchedUsers (trace rc) = [(user, None)] ->
     reservations (trace rc) = [(true, tries, wait, None)] ->
     pinChanges (trace rc) = [(blob, None)] ->
     exists body msg,
       externalCalls (trace rc) =
         [ReadAll; UnmarshalChangePin body; DBUser (cp_Username msg);
          DBReservePincheck user;
          CoreChangePin (Coredata (Data user)) (cp_OldPin msg) (cp_NewPin msg);
          DBClearPincheck (setCoredata user blob);
          DBUpdateUser (setCoredata user blob)]).
Proof.
  unfold handleVerifyPin, handleChangePin, doVerifyPin, doUpdatePin, whenErr, log, call,
    trace, returned, calls, coreCalls, externalCalls,
    fetchedUsers, reservations, logEntries, pinValidations, pinChanges.
  cbv zeta.
  split; [exec e; reflexivity|].
  split; [exec e; reflexivity|].
  split; [exec e; intros; split; finish|].
  split; [exec e; intros; split; finish|].
  split.
  - exec e; intros; split; finish.
  - exec e; intros; finish.
Qed.

End PinHandlers.

(** *** Runs of the pin handlers against scripted environments *)

(** A correct PIN against the working store and Core; and a refused
    reservation whose log entry the store does not accept. *)
Lemma handleVerifyPin_cases_witness :
  let r := run (scripted working) handleVerifyPin tt in
  let r' := run (scripted (refusedUnlogged 60)) handleVerifyPin tt in
  fetchedUsers (trace r) = [(alice, None)] /\
  reservations (trace r) = [(true, 2%Z, 0%Z, None)] /\
  returned r = Done (WriteJson (JPinStatus (mkPinStatus "success" "jwt"))) /\
  reservations (trace r') = [(false, 0%Z, 60%Z, None)] /\
  logEntries (trace r') = [(PinCheckRefused, None, Some (ErrOther "log store unavailable"))] /\
  returned r' = Done (WriteError ErrorInternal (ErrorString (ErrOther "log store unavailable"))).
Proof.
  split; [reflexivity|]. split; [reflexivity|].
  split.
  - destruct (handleVerifyPin_cases (scripted working) tt alice true 2 0)
      as (H & _); [reflexivity | reflexivity |].
    destruct H as (_ & _ & _ & H); [by vm_compute; repeat constructor|].
    apply (H "jwt"). reflexivity.
  - split; [reflexivity|]. split; [reflexivity|].
    destruct (handleVerifyPin_cases (scripted (refusedUnlogged 60)) tt alice false 0 60)
      as (_ & H & _); [reflexivity | reflexivity |].
    apply (H PinCheckRefused None (ErrOther "log store unavailable")).
    left. reflexivity.
Defined.

(** C1 fails as stated: the reservation is refused (allowed=false, no
    error), yet the answer is not status "error" with the wait, because the
    log entry of the refusal was not accepted. *)
Lemma handleVerifyPin_refused_unlogged :
  let r := run (scripted (refusedUnlogged 60)) handleVerifyPin tt in
  fetchedUsers (trace r) = [(alice, None)] /\
  reservations (trace r) = [(false, 0%Z, 60%Z, None)] /\
  returned r = Done (WriteError ErrorInternal (ErrorString (ErrOther "log store unavailable"))) /\
  returned r <> Done (WriteJson (JPinStatus (mkPinStatus "error" "60"))).
Proof. vm_compute. repeat split; discriminate. Qed.

(** A wrong old PIN in /users/change/pin with two tries left; and a refused
    reservation in /users/verify/pin whose log entry is not accepted. *)
Lemma pincheck_reserved_before_crypto_witness :
  let rc := run (scripted (with_changePin (mkChangePin "alice" "00000" "54321") working))
              handleChangePin tt in
  let rv := run (scripted (refusedUnlogged 30)) handleVerifyPin tt in
  reservations (trace rc) = [(true, 2%Z, 0%Z, None)] /\
  pinChanges (trace rc) = [([], Some ErrInvalidPin)] /\
  returned rc = Done (WriteJson (JPinStatus (mkPinStatus "failure" "2"))) /\
  reservations (trace rv) = [(false, 0%Z, 30%Z, None)] /\
  returned rv = Done (WriteError ErrorInternal (ErrorString (ErrOther "log store unavailable"))).
Proof.
  split; [reflexivity|]. split; [reflexivity|].
  split.
  - destruct (pincheck_reserved_before_crypto
                (scripted (with_changePin (mkChangePin "alice" "00000" "54321") working)) tt)
      as (_ & _ & _ & _ & H & _).
    destruct (H 2%Z 0%Z [] eq_refl eq_refl) as [-> _]. reflexivity.
  - split; [reflexivity|].
    destruct (pincheck_reserved_before_crypto (scripted (refusedUnlogged 30)) tt)
      as (_ & _ & H & _).
    destruct (H 0%Z 30%Z eq_refl) as (_ & logged & Hl & ->).
    assert (logged = Some (ErrOther "log store unavailable")) as ->
      by (vm_compute in Hl; congruence).
    reflexivity.
Defined.

(** C4 fails as stated: in verify-pin a refused reservation is answered
    with an Internal error, not with status "error" and the wait, when the
    log entry of the refusal is not accepted. *)
Lemma verify_pin_refusal_not_error_status :
  let r := run (scripted (refusedUnlogged 30)) handleVerifyPin tt in
  reservations (trace r) = [(false, 0%Z, 30%Z, None)] /\
  coreCalls (trace r) = [] /\
  (exists msg, returned r = Done (WriteError ErrorInternal msg)) /\
  returned r <> Done (WriteJson (JPinStatus (mkPinStatus "error" "30"))).
Proof. vm_compute. repeat split; [by eexists | discriminate]. Qed.

(** C5: a failing [ReservePincheck] in verify-pin and a failing [ChangePin]
    (other than a wrong PIN) in change-pin are answered 200 with an empty
    status, not with an Internal error; the sibling paths, a failing
    [ReservePincheck] in change-pin and a failing [ValidatePin] in
    verify-pin, do answer with an Internal error. *)
Theorem pin_handlers_swallow_errors :
  let storeDown := with_reserve (false, 0%Z, 0%Z, Some (ErrOther "store unavailable")) working in
  let noKey := with_changedPin (fun _ => ([], Some (ErrOther "unknown key"))) working in
  let noKey' := with_validatePin (fun _ => (EmptyString, Some (ErrOther "unknown key"))) working in
  let rv := run (scripted storeDown) handleVerifyPin tt in
  let rc := run (scripted noKey) handleChangePin tt in
  reservations (trace rv) = [(false, 0%Z, 0%Z, Some (ErrOther "store unavailable"))] /\
  returned rv = Done (WriteJson (JPinStatus (mkPinStatus EmptyString EmptyString))) /\
  pinChanges (trace rc) = [([], Some (ErrOther "unknown key"))] /\
  returned rc = Done (WriteJson (JPinStatus (mkPinStatus EmptyString EmptyString))) /\
  httpStatus (WriteJson (JPinStatus (mkPinStatus EmptyString EmptyString))) = 200%Z /\
  returned (run (scripted storeDown) handleChangePin tt) =
    Done (WriteError ErrorInternal (ErrorString (ErrOther "store unavailable"))) /\
  returned (run (scripted noKey') handleVerifyPin tt) =
    Done (WriteError ErrorInternal (ErrorString (ErrOther "unknown key"))) /\
  errorStatus ErrorInternal = 500%Z.
Proof. vm_compute. repeat split. Qed.

(** ** /prove/getResponse *)

(** The same for handlers that read the session cache; both sides of an
    equation between two runs are simplified before a call is answered, so
    that the same call gets the same answer on both. *)
Ltac exec_sessions e :=
  repeat first
    [ progress cbn -[fmt_v]
    | match goal with
      | |- context [match ?m !! ?k with _ => _ end] =>
          first [ rewrite lookup_insert_eq
                | match goal with H : m !! k = _ |- _ => rewrite H end
                | destruct (m !! k) eqn:? ]
      end
    | answer_call e
    | match goal with
      | |- context [match ?x with _ => _ end] => is_var x; destruct x
      | |- context [negb ?x] => is_var x; destruct x
      | |- context [bool_decide (?x = None)] => is_var x; destruct x
      | |- context [decide ?P] => destruct (decide P)
      end ].

Section Response.

Context {W : Type} (e : env W) (w : W).

(** C2, as amended: for a /prove/getResponse request whose body parses to a
    challenge, without valid authorization the answer is an InvalidRequest
    error and the run is the same whatever the session cache holds; with
    valid authorization and no entry for the username the answer is the 400
    InvalidRequest error "Missing previous call to getCommitments" and the
    Core is not called; with an entry, the handler marks the user as seen
    and adds the IrmaSession log entry; when the log accepts the entry the
    next and only Core call is [GenerateResponse] with the commitID and the
    keyID of the entry, and when it does not, nothing is called any more and
    the answer is the error of the log. *)
Theorem handleResponse_cases (ctx : requestAuthorization)
    (sessions : gmap string SessionData) (challenge : Z) :
  let r := run e (handleResponse ctx sessions) w in
  challenges (trace r) = [(challenge, None)] ->
  (hasValidAuthorization ctx = false ->
     returned r = Done (WriteError ErrorInvalidRequest (Literal "Invalid authorization")) /\
     forall sessions', run e (handleResponse ctx sessions') w = r) /\
  (hasValidAuthorization ctx = true ->
   sessions !! Username (Data (user ctx)) = None ->
     returned r = Done (WriteError ErrorInvalidRequest
                          (Literal "Missing previous call to getCommitments")) /\
     errorStatus ErrorInvalidRequest = 400%Z /\
     coreCalls (trace r) = []) /\
  (forall sd,
   hasValidAuthorization ctx = true ->
   sessions !! Username (Data (user ctx)) = Some sd ->
     exists logged body,
       logEntries (trace r) = [(IrmaSession, None, logged)] /\
       externalCalls (trace r) =
         ([ReadAll; UnmarshalChallenge body; DBSetSeen (user ctx);
           DBAddLog (user ctx) IrmaSession None] ++
          match logged with
          | None =>
              [CoreGenerateResponse (Coredata (Data (user ctx))) (authorization ctx)
                 (LastCommitID sd) challenge (LastKeyID sd)]
          | Some _ => []
          end)%list /\
       forall err, logged = Some err ->
         returned r =
           Done (WriteError
                   (if decide (err = ErrInvalidChallenge \/ err = ErrInvalidJWT)
                    then ErrorInvalidRequest else ErrorInternal)
                   (ErrorString err))).
Proof.
  destruct ctx as [u auth valid].
  unfold handleResponse, doGenerateResponses, whenErr, log, call,
    trace, returned, calls, coreCalls, externalCalls, challenges, logEntries.
  cbv zeta.
  exec_sessions e; intros; repeat split; finish.
  all: intros; simplify_eq/=; do 2 eexists; (split; [reflexivity|]); (split; [reflexivity|]).
  all: intros; simplify_eq/=; try done; repeat case_decide; try done; intuition congruence.
Qed.


(** Behind the middleware: a caller whose JWT the Core does not accept gets
    the same run of /prove/getResponse whatever the session cache holds. *)
Lemma routeResponse_unauthorized_blind (r : request)
    (sessions1 sessions2 : gmap string SessionData) (err : error) :
  jwtValidations (trace (run e (routeResponse r sessions1) w)) = [Some err] ->
  trace (run e (routeResponse r sessions2) w) = trace (run e (routeResponse r sessions1) w) /\
  forall s1 resp,
    returned (run e (routeResponse r sessions1) w) = Done (s1, resp) ->
    returned (run e (routeResponse r sessions2) w) = Done (sessions2, resp).
Proof.
  unfold routeResponse, userMiddleware, authorizationMiddleware, handleResponse,
    doGenerateResponses, whenErr, log, call, trace, returned, jwtValidations.
  exec_sessions e; intros; try split; finish.
Qed.

End Response.

(** *** Runs of /prove/getResponse against scripted environments *)

(** A valid JWT and a cached entry: the user is marked as seen, the log
    entry is added, and the Core is asked for the response to challenge 42
    under the cached commitID 7 and key. *)
Lemma handleResponse_cases_witness :
  let r := run (scripted working) (handleResponse authorized staleSessions) tt in
  challenges (trace r) = [(42%Z, None)] /\
  logEntries (trace r) = [(IrmaSession, None, None)] /\
  exists body,
    externalCalls (trace r) =
      [ReadAll; UnmarshalChallenge body; DBSetSeen alice; DBAddLog alice IrmaSession None;
       CoreGenerateResponse [Byte.x01; Byte.x02] "jwt" 7%N 42%Z issuerKey2].
Proof.
  split; [reflexivity|].
  destruct (handleResponse_cases (scripted working) tt authorized staleSessions 42%Z eq_refl)
    as (_ & _ & H).
  destruct (H (mkSessionData issuerKey2 7%N 5%Z) eq_refl eq_refl)
    as (logged & body & Hl & Hc & _).
  assert (logged = None) as -> by (vm_compute in Hl; congruence).
  split; [exact Hl|]. exists body. exact Hc.
Defined.

(** C2 fails as stated: the body parses, the authorization is valid and the
    cache holds an entry, yet [GenerateResponse] is not called, because the
    IrmaSession log entry was not accepted. *)
Lemma handleResponse_unlogged_no_core_call :
  let r := run (scripted unlogged) (handleResponse authorized staleSessions) tt in
  challenges (trace r) = [(42%Z, None)] /\
  hasValidAuthorization authorized = true /\
  staleSessions !! "alice" = Some (mkSessionData issuerKey2 7%N 5%Z) /\
  coreCalls (trace r) = [] /\
  returned r = Done (WriteError ErrorInternal (ErrorString (ErrOther "log store unavailable"))).
Proof. vm_compute. repeat split. Qed.


(** ** Best-effort bookkeeping *)

Section Bookkeeping.

Context {W : Type} (e : env W) (seen clear : W -> option error).

Lemma run_ext {R : Type} (e1 e2 : env W) (p : prog R) :
  (forall a w, e1 a w = e2 a w) -> forall w, run e1 p w = run e2 p w.
Proof.
  intros H. induction p as [r|a k IH|]; intros w; [done| |done].
  cbn [run]. by rewrite H, IH.
Qed.

Lemma silentLogger_eq :
  loggerIndependent e -> forall a w, e a w = silentLogger e a w.
Proof. intros H a w. destruct a; try reflexivity. apply H. Qed.

Lemma withBookkeeping_silentLogger_eq :
  loggerIndependent e ->
  forall a w, withBookkeeping seen clear e a w =
              withBookkeeping seen clear (silentLogger e) a w.
Proof. intros H a w. destruct a; try reflexivity. apply H. Qed.

Lemma run_noBookkeeping {R : Type} (e0 : env W) (p : prog R) :
  noBookkeeping p ->
  forall w, run (withBookkeeping seen clear e0) p w = run e0 p w.
Proof.
  induction 1 as [r| |a k Ha Hk IH]; intros w; [done|done|].
  cbn [run].
  assert (Ha' : withBookkeeping seen clear e0 a w = e0 a w)
    by (destruct a; try discriminate Ha; reflexivity).
  rewrite Ha', IH. reflexivity.
Qed.

Lemma noBookkeeping_bind {A B : Type} (p : prog A) (f : A -> prog B) :
  noBookkeeping p -> (forall x, noBookkeeping (f x)) -> noBookkeeping (bind p f).
Proof.
  intros Hp Hf. induction Hp as [r| |a k Ha Hk IH]; cbn; [done|constructor|].
  by constructor.
Qed.

(** Walk through a handler to show it makes no bookkeeping call. *)
Ltac quiet :=
  repeat match goal with
         | |- noBookkeeping (Ret _) => constructor
         | |- noBookkeeping Panic => constructor
         | |- noBookkeeping (call _) => unfold call
         | |- noBookkeeping (log _ _) => unfold log, call
         | |- noBookkeeping (Act _ _) => constructor; [reflexivity | intros ?]
         | |- noBookkeeping (bind _ _) => apply noBookkeeping_bind; [|intros ?]
         | |- noBookkeeping (match ?x with _ => _ end) => destruct x
         end.

Lemma mapCommitments_noBookkeeping commitments keys :
  forall i mapped, noBookkeeping (mapCommitments commitments i keys mapped).
Proof.
  induction keys as [|k keys IH]; intros i mapped; cbn [mapCommitments]; quiet.
  apply IH.
Qed.

Lemma handleCommitments_noBookkeeping ctx sessions :
  noBookkeeping (handleCommitments ctx sessions).
Proof.
  unfold handleCommitments, generateCommitments. quiet.
  all: try apply mapCommitments_noBookkeeping; quiet.
Qed.

(** C6, as amended: whether [SetSeen] and [ClearPincheck] fail does not
    change what the client gets from any handler; a log entry that [AddLog]
    does not accept is surfaced, as an Internal error by the pin handler and
    as an error response carrying that error by /prove/getResponse. *)
(** Run a handler side by side in [e] and in [e] with other bookkeeping
    answers. *)
Ltac exec_bookkeeping :=
  repeat first
    [ progress cbn -[fmt_v]
    | match goal with
      | |- context [match seen ?w with _ => _ end] => destruct (seen w)
      | |- context [match clear ?w with _ => _ end] => destruct (clear w)
      | |- context [match ?m !! ?k with _ => _ end] => destruct (m !! k) eqn:?
      | |- context [match ?x with _ => _ end] => is_var x; destruct x
      | |- context [negb ?x] => is_var x; destruct x
      | |- context [decide ?P] => destruct (decide P)
      end
    | answer_call e ].

Theorem bookkeeping_failures_not_surfaced (w : W) (ctx : requestAuthorization)
    (sessions : gmap string SessionData) :
  loggerIndependent e ->
  let e' := withBookkeeping seen clear e in
  returned (run e' handleVerifyPin w) = returned (run e handleVerifyPin w) /\
  returned (run e' handleChangePin w) = returned (run e handleChangePin w) /\
  returned (run e' (handleResponse ctx sessions) w) =
    returned (run e (handleResponse ctx sessions) w) /\
  returned (run e' (handleCommitments ctx sessions) w) =
    returned (run e (handleCommitments ctx sessions) w) /\
  returned (run e' (handleValidate ctx) w) = returned (run e (handleValidate ctx) w) /\
  (forall kind param err,
     In (kind, param, Some err) (logEntries (trace (run e handleVerifyPin w))) ->
     returned (run e handleVerifyPin w) = Done (WriteError ErrorInternal (ErrorString err))) /\
  (forall kind param err,
     In (kind, param, Some err)
        (logEntries (trace (run e (handleResponse ctx sessions) w))) ->
     returned (run e (handleResponse ctx sessions) w) =
       Done (WriteError
               (if decide (err = ErrInvalidChallenge \/ err = ErrInvalidJWT)
                then ErrorInvalidRequest else ErrorInternal)
               (ErrorString err))).
Proof.
  intros Hlog. cbv zeta.
  rewrite !(run_ext _ _ _ (withBookkeeping_silentLogger_eq Hlog)).
  rewrite !(run_ext _ _ _ (silentLogger_eq Hlog)).
  split; [|split; [|split; [|split; [|split; [|split]]]]].
  - unfold handleVerifyPin, doVerifyPin, whenErr, log, call, returned, withBookkeeping, silentLogger.
    exec_bookkeeping; reflexivity.
  - unfold handleChangePin, doUpdatePin, whenErr, log, call, returned, withBookkeeping, silentLogger.
    exec_bookkeeping; reflexivity.
  - destruct ctx as [u auth valid].
    unfold handleResponse, doGenerateResponses, whenErr, log, call, returned, withBookkeeping, silentLogger.
    exec_bookkeeping; reflexivity.
  - by rewrite (run_noBookkeeping (silentLogger e) _ (handleCommitments_noBookkeeping ctx sessions)).
  - unfold handleValidate. by destruct (hasValidAuthorization ctx).
  - unfold handleVerifyPin, doVerifyPin, whenErr, log, call, returned, trace, logEntries, silentLogger.
    exec_sessions e; intros kind param er Hin; cbn in Hin;
      repeat (destruct Hin as [Hin|Hin]; simplify_eq); done.
  - destruct ctx as [u auth valid].
    unfold handleResponse, doGenerateResponses, whenErr, log, call, returned, trace, logEntries, silentLogger.
    exec_sessions e; intros kind param er Hin; cbn in Hin;
      repeat (destruct Hin as [Hin|Hin]; simplify_eq); try done;
      case_decide; try done; intuition congruence.
Qed.

End Bookkeeping.

(** *** Runs with failing bookkeeping against scripted environments *)

(** [SetSeen] and [ClearPincheck] both fail; the correct PIN still gets its
    JWT. *)
Lemma bookkeeping_failures_not_surfaced_witness :
  let down := fun _ : unit => Some (ErrOther "store unavailable") in
  loggerIndependent (scripted working) /\
  returned (run (withBookkeeping down down (scripted working)) handleVerifyPin tt) =
    Done (WriteJson (JPinStatus (mkPinStatus "success" "jwt"))).
Proof.
  assert (H : loggerIndependent (scripted working)) by (intros lvl msg []; reflexivity).
  split; [exact H|].
  destruct (bookkeeping_failures_not_surfaced (scripted working)
              (fun _ => Some (ErrOther "store unavailable"))
              (fun _ => Some (ErrOther "store unavailable"))
              tt authorized staleSessions H) as [-> _].
  reflexivity.
Defined.

(** C6 fails as stated: two runs of /prove/getResponse that differ only in
    whether [AddLog] accepts the log entry give the client different status
    codes and bodies. *)
Lemma addLog_failure_changes_response :
  let ok := run (scripted working) (handleResponse authorized staleSessions) tt in
  let ko := run (scripted unlogged) (handleResponse authorized staleSessions) tt in
  returned ok = Done (WriteString "1234567") /\
  returned ko = Done (WriteError ErrorInternal (ErrorString (ErrOther "log store unavailable"))) /\
  httpStatus (WriteString "1234567") = 200%Z /\
  httpStatus (WriteError ErrorInternal (ErrorString (ErrOther "log store unavailable"))) = 500%Z /\
  returned ok <> returned ko.
Proof. vm_compute. repeat split. discriminate. Qed.

(** ** /prove/getCommitments *)

Lemma run_bind {W A B : Type} (e : env W) (p : prog A) (f : A -> prog B) :
  forall w,
    run e (bind p f) w =
    match run e p w with
    | (t1, w1, Done x) =>
        let '(t2, w2, o) := run e (f x) w1 in ((t1 ++ t2)%list, w2, o)
    | (t1, w1, Panicked) => (t1, w1, Panicked)
    end.
Proof.
  induction p as [r|a k IH|]; intros w; cbn [bind run].
  - by destruct (run e (f r) w) as [[t2 w2] o].
  - rewrite IH. destruct (run e (k (e a w).1) (e a w).2) as [[t1 w1] [x|]]; [|done].
    by destruct (run e (f x) w1) as [[t2 w2] o].
  - done.
Qed.

(** The three field assignments of [generateCommitments] amount to
    replacing the entry of the user. *)
Lemma session_update (sessions : gmap string SessionData) (u : string)
    (k : PublicKeyIdentifier) (id : N) (t : Time) :
  alter (set_expiry t) u
    (alter (set_LastKeyID k) u
       (alter (set_LastCommitID id) u
          (match sessions !! u with
           | None => <[u := zeroSessionData]> sessions
           | Some _ => sessions
           end))) =
  <[u := mkSessionData k id t]> sessions.
Proof.
  apply map_eq. intros j. destruct (decide (u = j)) as [<-|Hne].
  - rewrite lookup_insert_eq, !lookup_alter_eq.
    destruct (sessions !! u) as [sd|] eqn:E.
    + rewrite E. reflexivity.
    + rewrite lookup_insert_eq. reflexivity.
  - rewrite lookup_insert_ne by done. rewrite !lookup_alter_ne by done.
    destruct (sessions !! u); [done|]. by rewrite lookup_insert_ne.
Qed.

Lemma assign_last (l : list (string * ProofPCommitment))
    (m0 : gmap string ProofPCommitment) :
  forall i s c,
    l !! i = Some (s, c) ->
    exists j c',
      (i <= j)%nat /\ l !! j = Some (s, c') /\
      foldl (fun m sc => <[sc.1 := sc.2]> m) m0 l !! s = Some c' /\
      forall j' c'', (j < j')%nat -> l !! j' <> Some (s, c'').
Proof.
  induction l as [|[s1 c1] l IH] using rev_ind; intros i s c Hi; [done|].
  rewrite foldl_app. cbn [foldl fst snd].
  destruct (decide (i < length l)%nat) as [Hlt|Hge].
  - rewrite lookup_app_l in Hi by done.
    destruct (IH i s c Hi) as (j & c' & Hij & Hj & Hm & Hlast).
    destruct (decide (s1 = s)) as [->|Hne].
    + exists (length l), c1. split; [lia|]. split.
      { by rewrite lookup_app_r, Nat.sub_diag by lia. }
      split; [apply lookup_insert_eq|].
      intros j' c'' Hj'. rewrite lookup_ge_None_2; [done|].
      rewrite length_app. cbn. lia.
    + exists j, c'. split; [done|]. split.
      { rewrite lookup_app_l; [done|]. by eapply lookup_lt_Some. }
      split; [by rewrite lookup_insert_ne|].
      intros j' c'' Hj' Hl.
      destruct (decide (j' < length l)%nat).
      * rewrite lookup_app_l in Hl by done. by eapply Hlast.
      * rewrite lookup_app_r in Hl by lia.
        destruct (j' - length l)%nat; [|done]. cbn in Hl. congruence.
  - assert (i = length l) as ->.
    { apply lookup_lt_Some in Hi. rewrite length_app in Hi. cbn in Hi. lia. }
    rewrite lookup_app_r, Nat.sub_diag in Hi by lia. cbn in Hi. simplify_eq.
    exists (length l), c. split; [done|]. split.
    { by rewrite lookup_app_r, Nat.sub_diag by lia. }
    split; [apply lookup_insert_eq|].
    intros j' c'' Hj'. rewrite lookup_ge_None_2; [done|].
    rewrite length_app. cbn. lia.
Qed.

Section Commitments.

Context {W : Type} (e : env W).

(** What the loop that prepares the output message does: it calls only the
    encoder of key identifiers, and when it goes through it has assigned,
    in order, the commitment at each index under the string form of the key
    at that index. *)
Lemma mapCommitments_run (commitments : list ProofPCommitment)
    (keys : list PublicKeyIdentifier) :
  forall i mapped w,
    let r := run e (mapCommitments commitments i keys mapped) w in
    coreCalls (trace r) = [] /\
    clockReadings (trace r) = [] /\
    keyLists (trace r) = [] /\
    commitmentAnswers (trace r) = [] /\
    forall m, returned r = Done (m, None) ->
      exists strs,
        length strs = length keys /\
        marshalledKeys (trace r) = zip keys (map (fun s => (s, None)) strs) /\
        (length keys <= length (drop i commitments))%nat /\
        m = foldl (fun m sc => <[sc.1 := sc.2]> m) mapped (zip strs (drop i commitments)).
Proof.
  induction keys as [|k keys IH]; intros i mapped w; cbv zeta.
  - cbn. repeat split. intros m [= <-]. exists []. repeat split. cbn. lia.
  - cbn [mapCommitments]. unfold log, call. cbn [bind run].
    destruct (e (MarshalText k) w) as [[keyIDV [err|]] w1]; cbn [fst snd].
    + cbn. repeat split. intros m [=].
    + destruct (commitments !! i) as [c|] eqn:Hc; [|cbn; repeat split; intros m [=]].
      specialize (IH (S i) (<[keyIDV := c]> mapped) w1). cbv zeta in IH.
      destruct (run e (mapCommitments commitments (S i) keys (<[keyIDV:=c]> mapped)) w1)
        as [[t w2] o].
      unfold trace, returned, coreCalls, clockReadings, keyLists, commitmentAnswers,
        marshalledKeys, calls in *.
      cbn in *. destruct IH as (H1 & H2 & H3 & H4 & IH).
      repeat split; try done.
      intros m Hm. destruct (IH m Hm) as (strs & Hlen & Hmk & Hle & ->).
      exists (keyIDV :: strs). rewrite (drop_S _ _ _ Hc). cbn.
      split; [by rewrite Hlen|]. split; [by rewrite Hmk|]. split; [lia|done].
Qed.

Lemma generateCommitments_run (sessions : gmap string SessionData)
    (u : KeyshareUser) (auth : string) (keys : list PublicKeyIdentifier) (w : W) :
  let r := run e (generateCommitments sessions u auth keys) w in
  keyLists (trace r) = [] /\
  coreCalls (trace r) = [CoreGenerateCommitments (Coredata (Data u)) auth keys] /\
  forall sessions' m, returned r = Done (sessions', (m, None)) ->
    exists key0 rest commitments commitID now strs,
      keys = key0 :: rest /\
      commitmentAnswers (trace r) = [(commitments, commitID, None)] /\
      clockReadings (trace r) = [now] /\
      length strs = length keys /\
      marshalledKeys (trace r) = zip keys (map (fun s => (s, None)) strs) /\
      (length keys <= length commitments)%nat /\
      sessions' = <[Username (Data u) :=
                      mkSessionData key0 commitID (now + 10 * 1000000000)%Z]> sessions /\
      Commitments m = assignAll strs commitments.
Proof.
  cbv zeta. unfold generateCommitments, log, call. cbn [bind run].
  destruct (e (CoreGenerateCommitments (Coredata (Data u)) auth keys) w)
    as [[[commitments commitID] [err|]] w1]; cbn [fst snd].
  { cbn. repeat split. intros sessions' m [=]. }
  rewrite run_bind.
  pose proof (mapCommitments_run commitments keys 0 ∅ w1) as Hmap. cbv zeta in Hmap.
  destruct (run e (mapCommitments commitments 0 keys ∅) w1) as [[t1 w2] o1].
  unfold trace, returned, coreCalls, clockReadings, keyLists, commitmentAnswers,
    marshalledKeys, calls in *.
  cbn [fst snd] in Hmap. destruct Hmap as (H1 & H2 & H3 & H4 & Hmap).
  destruct o1 as [[mapped [err|]]|].
  - cbn. rewrite ?app_nil_r, H1, H3. repeat split. intros sessions' m [=].
  - specialize (Hmap mapped eq_refl) as (strs & Hlen & Hmk & Hle & Hmapped).
    destruct keys as [|key0 rest].
    + cbn. rewrite ?app_nil_r, H1, H3. repeat split. intros sessions' m [=].
    + cbn [run]. destruct (e TimeNow w2) as [now w3]. cbn [fst snd].
      rewrite session_update.
      cbn. rewrite map_app, omap_app, List.filter_app, !omap_app. cbn.
      rewrite H1, H2, H3, H4. cbn. repeat split.
      intros sessions' m [= <- <-].
      exists key0, rest, commitments, commitID, now, strs.
      rewrite ?app_nil_r. rewrite drop_0 in Hle, Hmapped. repeat split; try done.
  - cbn. rewrite ?app_nil_r, H1, H3. repeat split. intros sessions' m [=].
Qed.

(** C3: a /prove/getCommitments request whose body parses to an empty
    list of keys is answered with a 400 InvalidRequest error and the Core is
    not called; a request that succeeds for a user replaces the user's entry
    of the session cache, whatever it was, by the commitID the Core just
    returned, the first of the requested keys and the time of the update
    plus 10 seconds, and its response maps the string form of each requested
    key to a commitment the Core returned for that string's key: the one at
    the last index at which the string occurs, which is the key's own index
    when the strings are pairwise different. *)
Theorem handleCommitments_session (ctx : requestAuthorization)
    (sessions : gmap string SessionData) (w : W) :
  let r := run e (handleCommitments ctx sessions) w in
  (keyLists (trace r) = [([], None)] ->
     returned r = Done (sessions, WriteError ErrorInvalidRequest (Literal "No key specified")) /\
     errorStatus ErrorInvalidRequest = 400%Z /\
     coreCalls (trace r) = []) /\
  (forall sessions' m,
     returned r = Done (sessions', WriteJson (JCommitments m)) ->
     exists key0 rest commitments commitID now strs,
       keyLists (trace r) = [(key0 :: rest, None)] /\
       commitmentAnswers (trace r) = [(commitments, commitID, None)] /\
       clockReadings (trace r) = [now] /\
       length strs = length (key0 :: rest) /\
       marshalledKeys (trace r) = zip (key0 :: rest) (map (fun s => (s, None)) strs) /\
       sessions' = <[Username (Data (user ctx)) :=
                       mkSessionData key0 commitID (now + 10 * 1000000000)%Z]> sessions /\
       sessions' !! Username (Data (user ctx)) =
         Some (mkSessionData key0 commitID (now + 10 * 1000000000)%Z) /\
       Commitments m = assignAll strs commitments /\
       (forall i s, strs !! i = Some s ->
          exists j c,
            (i <= j)%nat /\ strs !! j = Some s /\ commitments !! j = Some c /\
            Commitments m !! s = Some c /\
            forall j', (j < j')%nat -> strs !! j' <> Some s) /\
       (NoDup strs ->
        forall i s, strs !! i = Some s -> Commitments m !! s = commitments !! i)).
Proof.
  destruct ctx as [u auth valid]. cbv zeta.
  unfold handleCommitments, log, call. cbn [bind run user authorization].
  destruct (e ReadAll w) as [[body [err|]] w1]; cbn [fst snd].
  { cbn. split; [intros [=]|intros sessions' m [=]]. }
  cbn [bind run].
  destruct (e (UnmarshalKeys body) w1) as [[keys [err|]] w2]; cbn [fst snd].
  { cbn. split; [intros [=]|intros sessions' m [=]]. }
  destruct (decide (length keys = 0%nat)) as [Hnil|Hcons].
  { destruct keys; [|done]. cbn. split; [done|intros sessions' m [=]]. }
  rewrite run_bind.
  pose proof (generateCommitments_run sessions u auth keys w2) as Hgen. cbv zeta in Hgen.
  destruct (run e (generateCommitments sessions u auth keys) w2) as [[t w3] o].
  unfold trace, returned, coreCalls, clockReadings, keyLists, commitmentAnswers,
    marshalledKeys, calls in *.
  cbn [fst snd] in Hgen. destruct Hgen as (Hkl & Hcore & Hgen).
  destruct o as [[sessions1 [cm err]]|].
  2: { cbn. split; [intros [= ->]; done|intros sessions' m [=]]. }
  split.
  { destruct (decide (err = Some ErrInvalidChallenge \/ err = Some ErrInvalidJWT));
      [|destruct err]; cbn; rewrite ?app_nil_r, Hkl; intros [= ->]; done. }
  intros sessions' m.
  destruct (decide (err = Some ErrInvalidChallenge \/ err = Some ErrInvalidJWT));
    [cbn; intros [=]|].
  destruct err as [err|]; [cbn; intros [=]|].
  cbn. intros [= <- <-]. rewrite ?app_nil_r, Hkl.
  destruct (Hgen sessions1 cm eq_refl)
    as (key0 & rest & commitments & commitID & now & strs &
        -> & Hca & Hclock & Hlen & Hmk & Hle & -> & Hcm).
  exists key0, rest, commitments, commitID, now, strs.
  assert (Hlast : forall i s, strs !! i = Some s ->
            exists j c,
              (i <= j)%nat /\ strs !! j = Some s /\ commitments !! j = Some c /\
              Commitments cm !! s = Some c /\
              forall j', (j < j')%nat -> strs !! j' <> Some s).
  { intros i s Hi.
    assert (Hi' : (i < length commitments)%nat)
      by (apply lookup_lt_Some in Hi; lia).
    destruct (lookup_lt_is_Some_2 commitments i Hi') as [c Hc].
    destruct (assign_last (zip strs commitments) ∅ i s c) as (j & c' & Hij & Hj & Hm & Hl).
    { apply lookup_zip_with_Some. eauto. }
    apply lookup_zip_with_Some in Hj as (s' & c'' & [= <- <-] & Hsj & Hcj).
    exists j, c'. rewrite Hcm. repeat split; try done.
    intros j' Hj' Hs'.
    assert (Hj'' : (j' < length commitments)%nat)
      by (apply lookup_lt_Some in Hs'; lia).
    destruct (lookup_lt_is_Some_2 commitments j' Hj'') as [c2 Hc2].
    apply (Hl j' c2 Hj'). apply lookup_zip_with_Some. eauto. }
  repeat split; try done.
  - apply lookup_insert_eq.
  - intros Hnd i s Hi.
    destruct (Hlast i s Hi) as (j & c & Hij & Hj & Hc & Hm & _).
    rewrite (NoDup_lookup _ _ _ _ Hnd Hi Hj). congruence.
Qed.

(** Behind the middleware, whose [ValidateJWT] comes before the handler: an
    empty list of keys is answered 400 without any call to
    [GenerateCommitments], and the session cache is left as it was. *)
Lemma routeCommitments_empty_keys (r : request) (sessions : gmap string SessionData) (w : W) :
  let x := run e (routeCommitments r sessions) w in
  keyLists (trace x) = [([], None)] ->
  returned x = Done (sessions, WriteError ErrorInvalidRequest (Literal "No key specified")) /\
  commitmentAnswers (trace x) = [] /\
  exists coredata jwt, coreCalls (trace x) = [CoreValidateJWT coredata jwt].
Proof.
  cbv zeta. unfold routeCommitments, userMiddleware, authorizationMiddleware, log, call.
  cbn [bind run].
  destruct (e (DBUser (header_Username r)) w) as [[u [err|]] w1]; cbn [fst snd].
  { cbn. intros [=]. }
  cbn [bind run].
  match goal with
  | |- context [e (CoreValidateJWT ?c ?j) w1] =>
      destruct (e (CoreValidateJWT c j) w1) as [verr w2]; cbn [fst snd];
      pose proof (proj1 (handleCommitments_session
                           (mkContext u j (bool_decide (verr = None))) sessions w2)) as H;
      cbv zeta in H;
      destruct (run e (handleCommitments (mkContext u j (bool_decide (verr = None))) sessions) w2)
        as [[t w3] o]
  end.
  unfold trace, returned, keyLists, commitmentAnswers, coreCalls, calls in *.
  cbn in *. intros Hk. destruct (H Hk) as (-> & _ & Hc).
  split; [done|]. split.
  - clear -Hc. induction t as [|[a x] t IH]; [done|].
    cbn in *. destruct a; cbn in *; try discriminate Hc; auto.
  - rewrite Hc. eauto.
Qed.

End Commitments.

(** *** Runs of /prove/getCommitments against scripted environments *)

(** An empty list of keys, and a request for two keys of one issuer made
    while a stale entry of an earlier request is still cached. *)
Lemma handleCommitments_session_witness :
  let r0 := run (scripted (with_keys [] working)) (handleCommitments authorized staleSessions) tt in
  let r := run (scripted working) (handleCommitments authorized staleSessions) tt in
  (keyLists (trace r0) = [([], None)] /\
   returned r0 =
     Done (staleSessions, WriteError ErrorInvalidRequest (Literal "No key specified"))) /\
  exists sessions' m,
    returned r = Done (sessions', WriteJson (JCommitments m)) /\
    sessions' = <[ "alice" := mkSessionData issuerKey2 7%N 1010000000000%Z ]> staleSessions /\
    Commitments m !! "test.issuer-2" = Some (mkProofPCommitment 0 2) /\
    Commitments m !! "test.issuer-3" = Some (mkProofPCommitment 0 3).
Proof.
  cbv zeta. split.
  - split; [reflexivity|].
    apply (handleCommitments_session (scripted (with_keys [] working))
             authorized staleSessions tt).
    reflexivity.
  - destruct (returned (run (scripted working) (handleCommitments authorized staleSessions) tt))
      as [[sessions' [e msg|[s|a|m]|s]]|] eqn:Hr; try (vm_compute in Hr; discriminate Hr).
    exists sessions', m. split; [reflexivity|].
    destruct (proj2 (handleCommitments_session (scripted working)
                       authorized staleSessions tt) sessions' m Hr)
      as (k0 & rest & commitments & commitID & now & strs &
          Hkl & Hca & Hclock & Hlen & Hmk & Hs & _ & _ & _ & Hnd).
    vm_compute in Hkl, Hca, Hclock. simplify_eq.
    assert (strs = ["test.issuer-2"; "test.issuer-3"]) as ->.
    { vm_compute in Hmk. do 3 (destruct strs as [|? strs]; try discriminate Hlen).
      cbn in Hmk. by simplify_eq. }
    split; [reflexivity|].
    split; [apply (Hnd ltac:(compute_done) 0%nat); reflexivity|].
    apply (Hnd ltac:(compute_done) 1%nat); reflexivity.
Defined.

(** * Further properties *)

(** ** The key ring *)

Section KeyRing.

Context {RSAPrivateKey GabiPublicKey ConsistentStorage : Type}.
Implicit Types c : Core RSAPrivateKey GabiPublicKey ConsistentStorage.

Lemma addDecryptionKeys_snoc ks kv c :
  addDecryptionKeys (ks ++ [kv]) c =
  DangerousAddDecryptionKey kv.1 kv.2 (addDecryptionKeys ks c).
Proof. unfold addDecryptionKeys. by rewrite foldl_app. Qed.

(** X1: after any run of [DangerousAddDecryptionKey] calls, the key the
    ring holds under an identifier is the one of the last call for that
    identifier, and the key it held before when there was no such call. *)
Theorem addDecryptionKeys_lookup (ks : list (N * AESKey)) c (id : N) :
  decryptionKeys (addDecryptionKeys ks c) !! id =
  match last (filter (fun kv => kv.1 = id) ks) with
  | Some kv => Some kv.2
  | None => decryptionKeys c !! id
  end.
Proof.
  induction ks as [|[id' k] ks IH] using rev_ind; [done|].
  rewrite addDecryptionKeys_snoc, filter_app. cbn [fst snd DangerousAddDecryptionKey decryptionKeys].
  rewrite filter_cons, filter_nil. cbn [fst].
  destruct (decide (id' = id)) as [->|Hne].
  - by rewrite lookup_insert_eq, last_snoc.
  - rewrite lookup_insert_ne by done. by rewrite app_nil_r.
Qed.

(** X2: the Core built by [NewKeyshareCore] holds its write key in the ring
    under the write key's identifier, and so does any Core after
    [setDecryptionKey]; [setJWTPrivateKey] and [DangerousAddTrustedPublicKey]
    keep this; [DangerousAddDecryptionKey] keeps it except when called with
    the identifier of the write key and another key, after which the ring
    holds that other key under the write key's identifier. *)
Theorem writeKeyInRing_kept :
  (forall conf : Configuration RSAPrivateKey ConsistentStorage,
     writeKeyInRing (NewKeyshareCore GabiPublicKey conf)) /\
  (forall id k c, writeKeyInRing (setDecryptionKey id k c)) /\
  (forall id k c, writeKeyInRing c -> writeKeyInRing (setJWTPrivateKey id k c)) /\
  (forall id k c, writeKeyInRing c -> writeKeyInRing (DangerousAddTrustedPublicKey id k c)) /\
  (forall id k c,
     writeKeyInRing (DangerousAddDecryptionKey id k c) <->
     if decide (id = decryptionKeyID c) then k = decryptionKey c else writeKeyInRing c) /\
  (forall k c,
     k <> decryptionKey c ->
     let c' := DangerousAddDecryptionKey (decryptionKeyID c) k c in
     decryptionKey c' = decryptionKey c /\
     decryptionKeys c' !! decryptionKeyID c' = Some k).
Proof.
  unfold writeKeyInRing. repeat split.
  - intros conf. unfold NewKeyshareCore. cbn.
    destruct (decide (JWTIssuer conf = EmptyString)); cbn;
      destruct (decide (JWTPinExpiry conf = 0%Z)); cbn; apply lookup_insert_eq.
  - intros id k c. cbn. apply lookup_insert_eq.
  - done.
  - done.
  - cbn. destruct (decide (id = decryptionKeyID c)) as [->|Hne].
    + rewrite lookup_insert_eq. congruence.
    + by rewrite lookup_insert_ne.
  - cbn. destruct (decide (id = decryptionKeyID c)) as [->|Hne].
    + rewrite lookup_insert_eq. congruence.
    + by rewrite lookup_insert_ne.
  - cbn. apply lookup_insert_eq.
Qed.

End KeyRing.

(** A write key replaced in the ring under its own identifier. *)
Lemma writeKeyInRing_kept_witness :
  let conf := mkConfiguration (RSAPrivateKey := unit) [Byte.x01] 1%N None 0%N EmptyString 0%Z tt in
  let c := NewKeyshareCore unit conf in
  writeKeyInRing c /\
  ~ writeKeyInRing (DangerousAddDecryptionKey 1%N [Byte.x02] c) /\
  writeKeyInRing (DangerousAddDecryptionKey 2%N [Byte.x02] c).
Proof.
  cbv zeta.
  pose proof (@writeKeyInRing_kept unit unit unit) as (Hnew & _ & _ & _ & Hadd & _).
  split; [apply Hnew|]. split.
  - rewrite Hadd. cbn. discriminate.
  - rewrite Hadd. cbn. apply Hnew.
Defined.

(** ** The session cache and /prove/getCommitments *)

Section SessionCache.

Context {W : Type} (e : env W).

(** Where the loop of [generateCommitments] stops: an encoder error is the
    last thing the loop sees, and it is the error the loop returns. *)
Lemma mapCommitments_error (commitments : list ProofPCommitment)
    (keys : list PublicKeyIdentifier) :
  forall i mapped w,
    let r := run e (mapCommitments commitments i keys mapped) w in
    (forall k s err, In (k, (s, Some err)) (marshalledKeys (trace r)) ->
       exists m, returned r = Done (m, Some err)) /\
    (forall m err, returned r = Done (m, Some err) ->
       exists k s, In (k, (s, Some err)) (marshalledKeys (trace r))).
Proof.
  induction keys as [|k keys IH]; intros i mapped w; cbv zeta.
  - cbn. split; [intros ? ? ? []|intros ? ? [=]].
  - cbn [mapCommitments]. unfold log, call. cbn [bind run].
    destruct (e (MarshalText k) w) as [[keyIDV [err|]] w1]; cbn [fst snd].
    + cbn. split.
      * intros k' s err' [[= <- <- <-]|[]]. eauto.
      * intros m err' [= <- <-]. eauto.
    + destruct (commitments !! i) as [c|] eqn:Hc.
      2: { cbn. split; [intros ? ? ? [[=]|[]]|intros ? ? [=]]. }
      specialize (IH (S i) (<[keyIDV := c]> mapped) w1). cbv zeta in IH.
      destruct (run e (mapCommitments commitments (S i) keys (<[keyIDV:=c]> mapped)) w1)
        as [[t w2] o].
      unfold trace, returned, marshalledKeys in *. cbn in *.
      destruct IH as [IH1 IH2]. split.
      * intros k' s err' [[=]|Hin]. eauto.
      * intros m err' Hm. destruct (IH2 m err' Hm) as (k' & s & Hin). eauto.
Qed.

(** A call of [generateCommitments] that returns an error returns the
    session cache it was given, and the error is the one of the Core or of
    the encoder of key identifiers. *)
Lemma generateCommitments_failure (sessions : gmap string SessionData)
    (u : KeyshareUser) (auth : string) (keys : list PublicKeyIdentifier) (w : W) :
  let r := run e (generateCommitments sessions u auth keys) w in
  (forall sessions' m err, returned r = Done (sessions', (m, Some err)) ->
     sessions' = sessions /\
     ((exists c id, commitmentAnswers (trace r) = [(c, id, Some err)]) \/
      (exists k s, In (k, (s, Some err)) (marshalledKeys (trace r))))) /\
  (forall c id err, commitmentAnswers (trace r) = [(c, id, Some err)] ->
     returned r = Done (sessions, (mkCommitmentMap ∅, Some err)) /\
     marshalledKeys (trace r) = []) /\
  (forall k s err, In (k, (s, Some err)) (marshalledKeys (trace r)) ->
     returned r = Done (sessions, (mkCommitmentMap ∅, Some err))).
Proof.
  cbv zeta. unfold generateCommitments, log, call. cbn [bind run].
  destruct (e (CoreGenerateCommitments (Coredata (Data u)) auth keys) w)
    as [[[commitments commitID] [err|]] w1]; cbn [fst snd].
  { cbn. split; [|split].
    - intros sessions' m err' [= <- _ <-]. split; [done|]. left. eauto.
    - by intros c id err' [= _ _ <-].
    - intros ? ? ? []. }
  rewrite run_bind.
  pose proof (mapCommitments_error commitments keys 0 ∅ w1) as [He1 He2].
  pose proof (mapCommitments_run e commitments keys 0 ∅ w1) as Hmap.
  cbv zeta in He1, He2, Hmap.
  destruct (run e (mapCommitments commitments 0 keys ∅) w1) as [[t1 w2] o1].
  unfold trace, returned, coreCalls, clockReadings, keyLists, commitmentAnswers,
    marshalledKeys, calls in *.
  cbn [fst snd] in *. destruct Hmap as (_ & _ & _ & H4 & _).
  destruct o1 as [[mapped [err|]]|].
  - cbn. rewrite ?app_nil_r, H4. split; [|split].
    + intros sessions' m err' [= <- _ <-]. split; [done|]. right.
      destruct (He2 mapped err eq_refl) as (k & s & Hin). eauto.
    + intros ? ? ? [=].
    + intros k s err' Hin. destruct (He1 k s err' Hin) as (m & [= _ <-]). done.
  - destruct keys as [|key0 rest].
    + cbn. rewrite ?app_nil_r. split; [|split]; try (intros ? ? ? [=]).
      intros k s err Hin. by destruct (He1 k s err Hin) as (m & [=]).
    + cbn [run]. destruct (e TimeNow w2) as [now w3]. cbn [fst snd].
      cbn. rewrite !omap_app. cbn. rewrite ?app_nil_r, H4.
      split; [|split]; try (intros ? ? ? [=]).
      intros k s err Hin. by destruct (He1 k s err Hin) as (m & [=]).
  - cbn. rewrite ?app_nil_r, H4. split; [|split]; try (intros ? ? ? [=]).
    intros k s err Hin. by destruct (He1 k s err Hin) as (m & [=]).
Qed.

(** The handler around [generateCommitments]: it stops with an
    invalid-request error before any other call when the body cannot be read or parsed or holds no key,
    and otherwise answers from what [generateCommitments] returned. *)
Lemma handleCommitments_split (ctx : requestAuthorization)
    (sessions : gmap string SessionData) (w : W) :
  let r := run e (handleCommitments ctx sessions) w in
  ((exists msg, returned r = Done (sessions, WriteError ErrorInvalidRequest msg)) /\
   (forall keys, keyLists (trace r) <> [(keys, None)] \/ keys = []) /\
   commitmentAnswers (trace r) = [] /\ marshalledKeys (trace r) = [] /\
   clockReadings (trace r) = [] /\ coreCalls (trace r) = []) \/
  (exists keys w2,
     let rg := run e (generateCommitments sessions (user ctx) (authorization ctx) keys) w2 in
     keys <> [] /\ keyLists (trace r) = [(keys, None)] /\
     commitmentAnswers (trace r) = commitmentAnswers (trace rg) /\
     marshalledKeys (trace r) = marshalledKeys (trace rg) /\
     clockReadings (trace r) = clockReadings (trace rg) /\
     coreCalls (trace r) = coreCalls (trace rg) /\
     returned r =
       match returned rg with
       | Done (s', (cm, None)) => Done (s', WriteJson (JCommitments cm))
       | Done (s', (cm, Some err)) =>
           Done (s', WriteError
                       (if decide (err = ErrInvalidChallenge \/ err = ErrInvalidJWT)
                        then ErrorInvalidRequest else ErrorInternal)
                       (ErrorString err))
       | Panicked => Panicked
       end).
Proof.
  destruct ctx as [u auth valid]. cbv zeta.
  unfold handleCommitments, log, call. cbn [bind run user authorization].
  destruct (e ReadAll w) as [[body [err|]] w1]; cbn [fst snd].
  { left. cbn. split; [eauto|]. split; [by left|done]. }
  cbn [bind run].
  destruct (e (UnmarshalKeys body) w1) as [[keys [err|]] w2]; cbn [fst snd].
  { left. cbn. split; [eauto|]. split; [by left|done]. }
  destruct (decide (length keys = 0%nat)) as [Hnil|Hcons].
  { destruct keys; [|done]. left. cbn. split; [eauto|]. split; [|done].
    intros keys. destruct keys; [by right|left; congruence]. }
  right. exists keys, w2. cbv zeta. rewrite run_bind.
  pose proof (generateCommitments_run e sessions u auth keys w2) as Hgen. cbv zeta in Hgen.
  destruct (run e (generateCommitments sessions u auth keys) w2) as [[t w3] o].
  unfold trace, returned, coreCalls, clockReadings, keyLists, commitmentAnswers,
    marshalledKeys, calls in *.
  cbn [fst snd] in *. destruct Hgen as (Hkl & _).
  split; [by destruct keys|].
  destruct o as [[s' [cm [err|]]]|]; cbn.
  - destruct (decide (Some err = Some ErrInvalidChallenge \/ Some err = Some ErrInvalidJWT))
      as [Hs|Hs]; cbn; rewrite ?app_nil_r, Hkl; repeat split.
    + destruct (decide (err = ErrInvalidChallenge \/ err = ErrInvalidJWT)) as [|Hn]; [done|].
      destruct Hn. destruct Hs as [[=]|[=]]; auto.
    + destruct (decide (err = ErrInvalidChallenge \/ err = ErrInvalidJWT)) as [Hy|]; [|done].
      destruct Hs. destruct Hy as [->| ->]; auto.
  - destruct (decide (None = Some ErrInvalidChallenge \/ None = Some ErrInvalidJWT))
      as [[[=]|[=]]|_].
    cbn. rewrite ?app_nil_r, Hkl. done.
  - rewrite Hkl. done.
Qed.

(** X3: a /prove/getCommitments request writes at most the entry of the
    user who made it, and writes nothing unless it answers with
    commitments: every other user's entry is the one from before the
    request, and with any other response the whole cache is. *)
Theorem handleCommitments_writes_own_entry (ctx : requestAuthorization)
    (sessions sessions' : gmap string SessionData) (resp : response) (w : W) :
  returned (run e (handleCommitments ctx sessions) w) = Done (sessions', resp) ->
  (forall v, v <> Username (Data (user ctx)) -> sessions' !! v = sessions !! v) /\
  ((forall m, resp <> WriteJson (JCommitments m)) -> sessions' = sessions).
Proof.
  intros Hr.
  destruct (handleCommitments_split ctx sessions w) as [Hearly|Hgen]; cbv zeta in *.
  - destruct Hearly as ((msg & Hmsg) & _). rewrite Hmsg in Hr. by simplify_eq.
  - destruct Hgen as (keys & w2 & _ & _ & _ & _ & _ & _ & Hret).
    pose proof (generateCommitments_run e sessions (user ctx) (authorization ctx) keys w2)
      as (_ & _ & Hok).
    pose proof (generateCommitments_failure sessions (user ctx) (authorization ctx) keys w2)
      as (Hko & _).
    cbv zeta in Hok, Hko. rewrite Hret in Hr.
    destruct (returned (run e (generateCommitments sessions (user ctx) (authorization ctx)
                                 keys) w2)) as [[s' [cm [err|]]]|]; [| |done].
    + simplify_eq. destruct (Hko _ _ _ eq_refl) as [-> _]. done.
    + simplify_eq.
      destruct (Hok _ _ eq_refl) as (k0 & rest & c & id & now & strs & _ & _ & _ & _ & _ & _ & -> & _).
      split.
      * intros v Hv. by rewrite lookup_insert_ne.
      * intros Hn. by destruct (Hn cm).
Qed.

(** X4: how /prove/getCommitments answers a failure: an error of
    [Core.GenerateCommitments] or of the encoder of key identifiers is
    answered as an invalid request when it is the Core's invalid-challenge
    or invalid-JWT error and as an internal error otherwise, with the text
    of the error; a body that cannot be read or parsed is answered as an
    invalid request without any call to the Core; and
    commitments are never answered when the Core returned fewer commitments
    than keys were requested. *)
Theorem handleCommitments_failures (ctx : requestAuthorization)
    (sessions : gmap string SessionData) (w : W) :
  let r := run e (handleCommitments ctx sessions) w in
  let code := fun err : error =>
    if decide (err = ErrInvalidChallenge \/ err = ErrInvalidJWT)
    then ErrorInvalidRequest else ErrorInternal in
  (forall c id err, commitmentAnswers (trace r) = [(c, id, Some err)] ->
     returned r = Done (sessions, WriteError (code err) (ErrorString err)) /\
     marshalledKeys (trace r) = []) /\
  (forall k s err, In (k, (s, Some err)) (marshalledKeys (trace r)) ->
     returned r = Done (sessions, WriteError (code err) (ErrorString err))) /\
  ((forall keys, keyLists (trace r) <> [(keys, None)]) ->
     (exists msg, returned r = Done (sessions, WriteError ErrorInvalidRequest msg)) /\
     coreCalls (trace r) = []) /\
  (forall sessions' m keys c id,
     returned r = Done (sessions', WriteJson (JCommitments m)) ->
     keyLists (trace r) = [(keys, None)] ->
     commitmentAnswers (trace r) = [(c, id, None)] ->
     (length keys <= length c)%nat).
Proof.
  cbv zeta.
  destruct (handleCommitments_split ctx sessions w) as [Hearly|Hgen]; cbv zeta in *.
  - destruct Hearly as ((msg & Hmsg) & Hk & Hca & Hmk & _ & Hcore).
    rewrite Hca, Hmk, Hmsg. split; [intros ? ? ? [=]|]. split; [intros ? ? ? []|].
    split; [eauto|]. intros ? ? ? ? ? [=].
  - destruct Hgen as (keys & w2 & Hne & Hkl & Hca & Hmk & _ & _ & Hret).
    pose proof (generateCommitments_run e sessions (user ctx) (authorization ctx) keys w2)
      as (_ & _ & Hok).
    pose proof (generateCommitments_failure sessions (user ctx) (authorization ctx) keys w2)
      as (_ & Hko1 & Hko2).
    cbv zeta in Hok, Hko1, Hko2. rewrite Hca, Hmk, Hret, Hkl.
    split; [|split; [|split]].
    + intros c id err Hc. destruct (Hko1 c id err Hc) as [-> ->]. done.
    + intros k s err Hin. by rewrite (Hko2 k s err Hin).
    + intros Hn. by destruct (Hn keys).
    + intros sessions' m keys' c id Hr [= <-] Hc.
      destruct (returned (run e (generateCommitments sessions (user ctx) (authorization ctx)
                                   keys) w2)) as [[s' [cm [err|]]]|]; [done| |done].
      simplify_eq.
      destruct (Hok _ _ eq_refl) as (k0 & rest & c' & id' & now & strs & _ & Hc' & _ & _ & _ & Hle & _).
      rewrite Hc' in Hc. by simplify_eq.
Qed.

(** X5: a sweep reads the clock once and keeps exactly the entries that
    have not expired at that reading, unchanged; an entry whose expiry is
    the reading itself is kept. *)
Theorem clearSessions_keeps_unexpired (sessions : gmap string SessionData) (w : W) :
  let r := run e (clearSessions sessions) w in
  exists now swept,
    calls (trace r) = [TimeNow] /\
    clockReadings (trace r) = [now] /\
    returned r = Done swept /\
    forall k sd, swept !! k = Some sd <-> sessions !! k = Some sd /\ (now <= expiry sd)%Z.
Proof.
  cbv zeta. unfold clearSessions, call. cbn [bind run].
  destruct (e TimeNow w) as [now w1]. cbn.
  eexists now, _. split; [reflexivity|]. split; [reflexivity|]. split; [reflexivity|].
  intros k sd. rewrite map_lookup_filter_Some. cbn. unfold After.
  rewrite Z.ltb_ge. tauto.
Qed.

End SessionCache.

(** X6: two sweeps in a row leave what one sweep at the later of the two
    clock readings leaves. *)
Theorem clearSessions_twice {W1 W2 W3 : Type} (e1 : env W1) (e2 : env W2) (e3 : env W3)
    (w1 : W1) (w2 : W2) (w3 : W3) (sessions s1 s2 : gmap string SessionData) (t1 t2 : Time) :
  clockReadings (trace (run e1 (clearSessions sessions) w1)) = [t1] ->
  returned (run e1 (clearSessions sessions) w1) = Done s1 ->
  clockReadings (trace (run e2 (clearSessions s1) w2)) = [t2] ->
  returned (run e2 (clearSessions s1) w2) = Done s2 ->
  clockReadings (trace (run e3 (clearSessions sessions) w3)) = [Z.max t1 t2] ->
  returned (run e3 (clearSessions sessions) w3) = Done s2.
Proof.
  unfold clearSessions, call. cbn [bind run].
  destruct (e1 TimeNow w1) as [n1 w1']. destruct (e2 TimeNow w2) as [n2 w2'].
  destruct (e3 TimeNow w3) as [n3 w3']. cbn.
  intros [= ->] [= <-] [= ->] [= <-] [= ->]. f_equal.
  apply map_eq. intros k.
  apply option_eq. intros sd. rewrite !map_lookup_filter_Some. cbn. unfold After.
  rewrite !Z.ltb_ge. intuition lia.
Qed.

(** What /prove/getResponse answers when the cache has no entry for the
    user. *)
Lemma handleResponse_no_entry {W : Type} (e : env W) (w : W) (ctx : requestAuthorization)
    (sessions : gmap string SessionData) (challenge : Z) :
  hasValidAuthorization ctx = true ->
  sessions !! Username (Data (user ctx)) = None ->
  challenges (trace (run e (handleResponse ctx sessions) w)) = [(challenge, None)] ->
  returned (run e (handleResponse ctx sessions) w) =
    Done (WriteError ErrorInvalidRequest (Literal "Missing previous call to getCommitments")).
Proof.
  destruct ctx as [u auth valid]. cbn [user hasValidAuthorization]. intros -> Hnone.
  unfold handleResponse, doGenerateResponses, whenErr, log, call, trace, returned, challenges.
  exec_sessions e; finish.
Qed.

(** X7: the entry a successful /prove/getCommitments writes at clock
    reading [t] outlives every sweep whose clock reading is at most 10
    seconds later, and is deleted by a sweep after that; from then on
    /prove/getResponse of that user, with valid authorization and a
    challenge that parses, is answered "Missing previous call to
    getCommitments". *)
Theorem committed_entry_lifetime {W W' W'' : Type}
    (e : env W) (e' : env W') (e'' : env W'') (w : W) (w' : W') (w'' : W'')
    (ctx : requestAuthorization) (sessions sessions' swept : gmap string SessionData)
    (m : proofPCommitmentMap) (t now : Time) :
  returned (run e (handleCommitments ctx sessions) w) = Done (sessions', WriteJson (JCommitments m)) ->
  clockReadings (trace (run e (handleCommitments ctx sessions) w)) = [t] ->
  clockReadings (trace (run e' (clearSessions sessions') w')) = [now] ->
  returned (run e' (clearSessions sessions') w') = Done swept ->
  ((now <= t + 10 * 1000000000)%Z ->
     is_Some (swept !! Username (Data (user ctx))) /\
     swept !! Username (Data (user ctx)) = sessions' !! Username (Data (user ctx))) /\
  ((t + 10 * 1000000000 < now)%Z ->
     swept !! Username (Data (user ctx)) = None /\
     forall challenge,
       hasValidAuthorization ctx = true ->
       challenges (trace (run e'' (handleResponse ctx swept) w'')) = [(challenge, None)] ->
       returned (run e'' (handleResponse ctx swept) w'') =
         Done (WriteError ErrorInvalidRequest
                 (Literal "Missing previous call to getCommitments"))).
Proof.
  intros Hr Hclock.
  assert (Hs : exists k0 id,
             sessions' = <[Username (Data (user ctx)) :=
                             mkSessionData k0 id (t + 10 * 1000000000)%Z]> sessions).
  { destruct (handleCommitments_split e ctx sessions w) as [Hearly|Hgen]; cbv zeta in *.
    - destruct Hearly as ((msg & Hmsg) & _). rewrite Hmsg in Hr. discriminate.
    - destruct Hgen as (keys & w2 & _ & _ & _ & _ & Hcl & _ & Hret).
      pose proof (generateCommitments_run e sessions (user ctx) (authorization ctx) keys w2)
        as (_ & _ & Hok). cbv zeta in Hok.
      rewrite Hret in Hr. rewrite Hcl in Hclock.
      destruct (returned (run e (generateCommitments sessions (user ctx) (authorization ctx)
                                   keys) w2)) as [[s' [cm [err|]]]|]; [done| |done].
      simplify_eq.
      destruct (Hok _ _ eq_refl)
        as (k0 & rest & c & id & now0 & strs & _ & _ & Hc0 & _ & _ & _ & -> & _).
      rewrite Hc0 in Hclock. simplify_eq. eauto. }
  destruct Hs as (k0 & id & ->).
  unfold clearSessions, call. cbn [bind run].
  destruct (e' TimeNow w') as [n w1']. cbn. intros [= ->] [= <-].
  split.
  - intros Hle.
    assert (Hk : filter (fun kv : string * SessionData => After now (expiry kv.2) = false)
                   (<[Username (Data (user ctx)) :=
                        mkSessionData k0 id (t + 10 * 1000000000)%Z]> sessions)
                 !! Username (Data (user ctx))
                 = Some (mkSessionData k0 id (t + 10 * 1000000000)%Z)).
    { apply map_lookup_filter_Some. split; [apply lookup_insert_eq|].
      cbn. unfold After. apply Z.ltb_ge. lia. }
    rewrite Hk, lookup_insert_eq. eauto.
  - intros Hlt.
    assert (Hk : filter (fun kv : string * SessionData => After now (expiry kv.2) = false)
                   (<[Username (Data (user ctx)) :=
                        mkSessionData k0 id (t + 10 * 1000000000)%Z]> sessions)
                 !! Username (Data (user ctx)) = None).
    { apply map_lookup_filter_None. right. intros sd. rewrite lookup_insert_eq.
      intros [= <-]. cbn. unfold After.
      assert (((t + 10 * 1000000000) <? now)%Z = true) as -> by (apply Z.ltb_lt; lia). done. }
    split; [done|].
    intros challenge Hvalid Hch. by eapply handleResponse_no_entry.
Qed.

(** A request for two keys at the clock of [working], then a sweep at that
    same clock reading. *)
Lemma committed_entry_lifetime_witness :
  exists sessions' swept,
    returned (run (scripted working) (clearSessions sessions') tt) = Done swept /\
    swept !! "alice" = sessions' !! "alice" /\
    swept !! "alice" = Some (mkSessionData issuerKey2 7%N 1010000000000%Z).
Proof.
  destruct (returned (run (scripted working) (handleCommitments authorized staleSessions) tt))
    as [[sessions' [e msg|[s|a|m]|s]]|] eqn:Hr; try (vm_compute in Hr; discriminate Hr).
  destruct (returned (run (scripted working) (clearSessions sessions') tt))
    as [swept|] eqn:Hs; [|done].
  exists sessions', swept. split; [done|].
  destruct (committed_entry_lifetime (scripted working) (scripted working) (scripted working)
              tt tt tt authorized staleSessions sessions' swept m
              (s_now working) (s_now working) Hr eq_refl eq_refl Hs) as [Hkeep _].
  destruct (Hkeep ltac:(vm_compute; discriminate)) as [_ Heq].
  change (Username (Data (user authorized))) with "alice" in Heq.
  split; [exact Heq|]. rewrite Heq.
  vm_compute in Hr. injection Hr as <- _. reflexivity.
Defined.

(** The request of alice leaves the entry of nobody else, here bob's. *)
Lemma handleCommitments_writes_own_entry_witness :
  let sessions := <[ "bob" := mkSessionData issuerKey3 9%N 3%Z ]> staleSessions in
  exists sessions' resp,
    returned (run (scripted working) (handleCommitments authorized sessions) tt) =
      Done (sessions', resp) /\
    sessions' !! "bob" = Some (mkSessionData issuerKey3 9%N 3%Z).
Proof.
  cbv zeta.
  destruct (returned (run (scripted working)
                        (handleCommitments authorized
                           (<[ "bob" := mkSessionData issuerKey3 9%N 3%Z ]> staleSessions)) tt))
    as [[sessions' resp]|] eqn:Hr; [|vm_compute in Hr; discriminate Hr].
  exists sessions', resp. split; [reflexivity|].
  destruct (handleCommitments_writes_own_entry (scripted working) authorized _ _ _ tt Hr)
    as [Hother _].
  rewrite (Hother "bob"); [reflexivity|discriminate].
Defined.

(** The Core does not know the key: an error that is neither of the two
    the handler answers as an invalid request. *)
Lemma handleCommitments_failures_witness :
  let s := with_commitments (fun _ => ([], 0%N, Some (ErrOther "unknown key"))) working in
  returned (run (scripted s) (handleCommitments authorized staleSessions) tt) =
    Done (staleSessions, WriteError ErrorInternal (ErrorString (ErrOther "unknown key"))).
Proof.
  cbv zeta.
  destruct (handleCommitments_failures
              (scripted (with_commitments (fun _ => ([], 0%N, Some (ErrOther "unknown key")))
                           working))
              authorized staleSessions tt) as (H & _).
  destruct (H [] 0%N (ErrOther "unknown key") eq_refl) as [-> _]. reflexivity.
Defined.

(** A sweep at 10 ns deletes alice's entry, a second sweep at 20 ns deletes
    bob's: what is left is what one sweep at 20 ns leaves. *)
Lemma clearSessions_twice_witness :
  let s1 := {[ "bob" := mkSessionData issuerKey3 8%N 15%Z;
               "carol" := mkSessionData issuerKey2 9%N 25%Z ]} in
  let s2 := {[ "carol" := mkSessionData issuerKey2 9%N 25%Z ]} in
  returned (run (scripted (with_now 10%Z working)) (clearSessions agingSessions) tt) = Done s1 /\
  returned (run (scripted (with_now 20%Z working)) (clearSessions s1) tt) = Done s2 /\
  returned (run (scripted (with_now 20%Z working)) (clearSessions agingSessions) tt) = Done s2.
Proof.
  cbv zeta.
  split; [vm_compute; reflexivity|]. split; [vm_compute; reflexivity|].
  apply (clearSessions_twice
           (scripted (with_now 10%Z working)) (scripted (with_now 20%Z working))
           (scripted (with_now 20%Z working)) tt tt tt agingSessions
           {[ "bob" := mkSessionData issuerKey3 8%N 15%Z;
              "carol" := mkSessionData issuerKey2 9%N 25%Z ]}
           {[ "carol" := mkSessionData issuerKey2 9%N 25%Z ]} 10%Z 20%Z).
  - reflexivity.
  - vm_compute; reflexivity.
  - reflexivity.
  - vm_compute; reflexivity.
  - reflexivity.
Defined.

(** ** The pin handlers *)

Section PinRequests.

Context {W : Type} (e : env W) (w : W).

(** X8: a /users/verify/pin or /users/change/pin request whose body cannot
    be read or parsed, or whose user the store does not find, reserves no
    pincheck and reaches no Core operation; it is answered with an
    InvalidRequest error in the first two cases and with UserNotRegistered
    and an empty message in the third. *)
Theorem pin_requests_without_user :
  let rv := run e handleVerifyPin w in
  let rc := run e handleChangePin w in
  ((forall u, fetchedUsers (trace rv) <> [(u, None)]) ->
     reservations (trace rv) = [] /\ coreCalls (trace rv) = [] /\
     ((fetchedUsers (trace rv) = [] /\
       exists msg, returned rv = Done (WriteError ErrorInvalidRequest msg)) \/
      (length (fetchedUsers (trace rv)) = 1%nat /\
       returned rv = Done (WriteError ErrorUserNotRegistered (Literal EmptyString))))) /\
  ((forall u, fetchedUsers (trace rc) <> [(u, None)]) ->
     reservations (trace rc) = [] /\ coreCalls (trace rc) = [] /\
     ((fetchedUsers (trace rc) = [] /\
       exists msg, returned rc = Done (WriteError ErrorInvalidRequest msg)) \/
      (length (fetchedUsers (trace rc)) = 1%nat /\
       returned rc = Done (WriteError ErrorUserNotRegistered (Literal EmptyString))))).
Proof.
  unfold handleVerifyPin, handleChangePin, doVerifyPin, doUpdatePin, whenErr, log, call,
    trace, returned, calls, coreCalls, fetchedUsers, reservations.
  cbv zeta. split.
  - exec e; intros Hn; try (by destruct (Hn x1)); repeat split; eauto.
  - exec e; intros Hn; try (by destruct (Hn x1)); repeat split; eauto.
Qed.

(** X9: what /users/verify/pin writes to the activity log of a registered
    user, when the store accepts the entries: one PinCheckRefused entry for
    a refused reservation; for a wrong PIN a PinCheckFailed entry with the
    remaining tries, followed by a PinCheckBlocked entry with the wait when
    no tries remain; one PinCheckSuccess entry for a correct PIN; and
    nothing when the Core fails otherwise. *)
Theorem handleVerifyPin_log_entries (u : KeyshareUser) (ok : bool) (tries wait : Z) :
  let r := run e handleVerifyPin w in
  fetchedUsers (trace r) = [(u, None)] ->
  reservations (trace r) = [(ok, tries, wait, None)] ->
  Forall (fun l => l.2 = None) (logEntries (trace r)) ->
  logEntries (trace r) =
    if negb ok then [(PinCheckRefused, None, None)]
    else match pinValidations (trace r) with
         | [(_, Some ErrInvalidPin)] =>
             if decide (tries = 0%Z)
             then [(PinCheckFailed, Some 0%Z, None); (PinCheckBlocked, Some wait, None)]
             else [(PinCheckFailed, Some tries, None)]
         | [(_, None)] => [(PinCheckSuccess, None, None)]
         | _ => []
         end.
Proof.
  unfold handleVerifyPin, doVerifyPin, whenErr, log, call, trace, returned,
    fetchedUsers, reservations, logEntries, pinValidations.
  cbv zeta.
  exec e; intros Hu Hr Hl; finish.
Qed.

(** X10: /users/verify/pin hands out a JWT only for a PIN the Core
    accepted after the store allowed the check: a response with status
    "success" carries the JWT [ValidatePin] returned without error, the
    reservation before it was allowed, and the PinCheckSuccess entry was
    accepted by the log; and the pincheck is cleared only after the Core
    accepted the PIN. *)
Theorem handleVerifyPin_success_sound :
  let r := run e handleVerifyPin w in
  (forall msg,
     returned r = Done (WriteJson (JPinStatus (mkPinStatus "success" msg))) ->
     (exists tries wait, reservations (trace r) = [(true, tries, wait, None)]) /\
     pinValidations (trace r) = [(msg, None)] /\
     logEntries (trace r) = [(PinCheckSuccess, None, None)]) /\
  (forall u, In (DBClearPincheck u) (calls (trace r)) ->
     exists jwt, pinValidations (trace r) = [(jwt, None)]).
Proof.
  unfold handleVerifyPin, doVerifyPin, whenErr, log, call, trace, returned, calls,
    reservations, logEntries, pinValidations.
  cbv zeta.
  exec e; (split; [intros msg Hm; finish|intros u Hin; cbn in Hin; finish]).
  all: try (exfalso; intuition congruence).
  all: match goal with
       | n : ~ (?err <> None /\ _), n0 : ?err <> Some ErrInvalidPin |- _ =>
           assert (err = None) as ->
             by (destruct err; [exfalso; apply n; split; congruence | done])
       end; eauto.
Qed.

(** X11: what /users/change/pin does to the store: it writes no log
    entry and does not mark the user as seen; it clears the pincheck and
    writes the user back only after [ChangePin] succeeded, and the user it
    writes carries the blob [ChangePin] returned; it answers "success" only
    when that write succeeded, and answers a failed write with an Internal
    error, the pincheck having been cleared already. *)
Theorem handleChangePin_store_writes :
  let r := run e handleChangePin w in
  logEntries (trace r) = [] /\
  (forall u, ~ In (DBSetSeen u) (calls (trace r))) /\
  (forall u, In (DBClearPincheck u) (calls (trace r)) ->
     exists blob, pinChanges (trace r) = [(blob, None)]) /\
  (forall u' res, In (u', res) (userUpdates (trace r)) ->
     exists user blob tries wait,
       fetchedUsers (trace r) = [(user, None)] /\
       reservations (trace r) = [(true, tries, wait, None)] /\
       pinChanges (trace r) = [(blob, None)] /\
       u' = setCoredata user blob /\
       In (DBClearPincheck u') (calls (trace r))) /\
  (forall u' err, userUpdates (trace r) = [(u', Some err)] ->
     returned r = Done (WriteError ErrorInternal (ErrorString err))) /\
  (forall msg,
     returned r = Done (WriteJson (JPinStatus (mkPinStatus "success" msg))) ->
     msg = EmptyString /\ exists u', userUpdates (trace r) = [(u', None)]).
Proof.
  unfold handleChangePin, doUpdatePin, whenErr, log, call, trace, returned, calls,
    reservations, logEntries, pinChanges, fetchedUsers, userUpdates.
  cbv zeta.
  exec e;
    (split; [reflexivity|];
     split; [intros u Hin; cbn in Hin; intuition discriminate|];
     split; [intros u Hin; cbn in Hin|];
     [|split; [intros u' res Hin; cbn in Hin|];
       [|split; [intros u' er Hu; cbn in Hu|intros msg Hm; cbn in Hm]]]).
  all: try (exfalso; intuition congruence).
  all: try match goal with
       | n : ?err <> Some ErrInvalidPin, n0 : ~ ?err <> None |- _ =>
           assert (err = None) as -> by (destruct err; [by destruct n0 | done])
       end.
  all: try (by eauto).
  all: try (simplify_eq; by eauto).
  all: try (destruct Hin as [Hin|[]]; simplify_eq; do 4 eexists; repeat split; cbn; eauto 10).
Qed.

End PinRequests.

(** A body that cannot be read. *)
Lemma pin_requests_without_user_witness :
  let s := with_body ([], Some (ErrOther "connection reset")) working in
  reservations (trace (run (scripted s) handleVerifyPin tt)) = [] /\
  coreCalls (trace (run (scripted s) handleVerifyPin tt)) = [].
Proof.
  cbv zeta.
  destruct (pin_requests_without_user
              (scripted (with_body ([], Some (ErrOther "connection reset")) working)) tt)
    as [Hv _].
  destruct Hv as (H1 & H2 & _); [intros u; vm_compute; discriminate|]. by split.
Defined.

(** A wrong PIN that uses up the last try. *)
Lemma handleVerifyPin_log_entries_witness :
  let s := with_pinMessage (mkPinMessage "alice" "00000")
             (with_reserve (true, 0%Z, 60%Z, None) working) in
  logEntries (trace (run (scripted s) handleVerifyPin tt)) =
    [(PinCheckFailed, Some 0%Z, None); (PinCheckBlocked, Some 60%Z, None)].
Proof.
  cbv zeta.
  rewrite (handleVerifyPin_log_entries
             (scripted (with_pinMessage (mkPinMessage "alice" "00000")
                          (with_reserve (true, 0%Z, 60%Z, None) working)))
             tt alice true 0%Z 60%Z); try reflexivity.
  vm_compute. by repeat constructor.
Defined.

(** The correct PIN against the working store and Core. *)
Lemma handleVerifyPin_success_sound_witness :
  pinValidations (trace (run (scripted working) handleVerifyPin tt)) = [("jwt", None)].
Proof.
  destruct (handleVerifyPin_success_sound (scripted working) tt) as [H _].
  destruct (H "jwt") as (_ & Hv & _); [reflexivity|exact Hv].
Defined.

(** The store rejects the write of the user with the new blob. *)
Lemma handleChangePin_store_writes_witness :
  let s := with_updateUser (Some (ErrOther "store unavailable")) working in
  returned (run (scripted s) handleChangePin tt) =
    Done (WriteError ErrorInternal (ErrorString (ErrOther "store unavailable"))) /\
  In (DBClearPincheck (setCoredata alice [Byte.x03]))
     (calls (trace (run (scripted s) handleChangePin tt))).
Proof.
  cbv zeta.
  destruct (handleChangePin_store_writes
              (scripted (with_updateUser (Some (ErrOther "store unavailable")) working)) tt)
    as (_ & _ & _ & Hw & Herr & _).
  split.
  - apply (Herr (setCoredata alice [Byte.x03])). reflexivity.
  - destruct (Hw (setCoredata alice [Byte.x03]) (Some (ErrOther "store unavailable")))
      as (user & blob & tries & wait & _ & _ & _ & _ & Hin); [by left|exact Hin].
Defined.

(** ** /prove/getResponse and the middleware of the session routes *)

Section SessionRoutes.

Context {W : Type} (e : env W) (w : W).

(** X12: /prove/getResponse touches the store only for a request with
    valid authorization, a challenge that parses and a cached entry, and
    then marks the user as seen and adds the IrmaSession log entry, in this
    order; the Core is called only after the log accepted the entry; an
    error of [Core.GenerateResponse] is answered as an invalid request when
    it is the Core's invalid-challenge or invalid-JWT error and as an
    internal error otherwise, and its response string is passed on as it
    is. *)
Theorem handleResponse_store_access (ctx : requestAuthorization)
    (sessions : gmap string SessionData) :
  let r := run e (handleResponse ctx sessions) w in
  (storeCalls (trace r) = [] \/
   storeCalls (trace r) = [DBSetSeen (user ctx); DBAddLog (user ctx) IrmaSession None]) /\
  (storeCalls (trace r) <> [] ->
     hasValidAuthorization ctx = true /\
     is_Some (sessions !! Username (Data (user ctx))) /\
     exists c, challenges (trace r) = [(c, None)]) /\
  (coreCalls (trace r) <> [] -> logEntries (trace r) = [(IrmaSession, None, None)]) /\
  (forall resp err, responseAnswers (trace r) = [(resp, Some err)] ->
     returned r =
       Done (WriteError
               (if decide (err = ErrInvalidChallenge \/ err = ErrInvalidJWT)
                then ErrorInvalidRequest else ErrorInternal)
               (ErrorString err))) /\
  (forall resp, responseAnswers (trace r) = [(resp, None)] ->
     returned r = Done (WriteString resp)).
Proof.
  destruct ctx as [u auth valid].
  unfold handleResponse, doGenerateResponses, whenErr, log, call,
    trace, returned, calls, coreCalls, storeCalls, challenges, logEntries, responseAnswers.
  cbv zeta.
  exec_sessions e;
    (split; [first [by left|by right]|];
     split; [intros Hs; try done; eauto|];
     split; [intros Hc; try done|];
     split; [intros resp er Hr; simplify_eq/=; try done|
             intros resp Hr; simplify_eq/=; try done]).
  all: try (case_decide; try done; exfalso; intuition congruence).
  all: exfalso; intuition congruence.
Qed.

(** X13: behind [userMiddleware], a request for a user the store does not
    find is answered UserNotRegistered with the text of the store's error;
    the handler behind it does not run: the store was asked for the user
    and nothing else was called, and the session cache is returned as it
    was. *)
Theorem userMiddleware_unknown_user {S : Type} (r : request) (sessions : S)
    (next : KeyshareUser -> prog (S * response)) (u : KeyshareUser) (err : error) :
  let x := run e (userMiddleware r sessions next) w in
  fetchedUsers (trace x) = [(u, Some err)] ->
  returned x = Done (sessions, WriteError ErrorUserNotRegistered (ErrorString err)) /\
  externalCalls (trace x) = [DBUser (header_Username r)].
Proof.
  cbv zeta. unfold userMiddleware, log, call. cbn [bind run].
  destruct (e (DBUser (header_Username r)) w) as [[u' [err'|]] w1]; cbn [fst snd].
  - cbn. intros [= -> ->]. done.
  - destruct (run e (next u') w1) as [[t w2] o]. cbn. intros [=].
Qed.

Lemma substring_all (s : string) : substring 0 (String.length s) s = s.
Proof. induction s as [|a s IH]; [done|]. cbn. by rewrite IH. Qed.

Lemma prefix_nil (s : string) : String.prefix EmptyString s = true.
Proof. by destruct s. Qed.

(** X14: [authorizationMiddleware] never rejects a request: it asks the
    Core to validate the token and runs the handler behind it with that
    token and with whether the validation returned no error.  The token is
    the Authorization header without one leading "Bearer ", and the header
    itself when it does not start with "Bearer ". *)
Theorem authorizationMiddleware_token {S : Type} (r : request) (u : KeyshareUser)
    (next : requestAuthorization -> prog (S * response)) (t : string) :
  header_Authorization r = String.append "Bearer " t \/
  (String.prefix "Bearer " (header_Authorization r) = false /\ header_Authorization r = t) ->
  let x := run e (authorizationMiddleware r u next) w in
  let v := e (CoreValidateJWT (Coredata (Data u)) t) w in
  let y := run e (next (mkContext u t (bool_decide (v.1 = None)))) v.2 in
  trace x = Event (CoreValidateJWT (Coredata (Data u)) t) v.1 :: trace y /\
  world x = world y /\
  returned x = returned y.
Proof.
  intros Ht. cbv zeta. unfold authorizationMiddleware, call. cbn [bind run].
  assert (Htok : (if String.prefix "Bearer " (header_Authorization r)
                  then substring 7 (String.length (header_Authorization r) - 7)
                         (header_Authorization r)
                  else header_Authorization r) = t).
  { destruct Ht as [->|[-> ->]]; [|done].
    cbv [String.append]. cbn. rewrite prefix_nil, Nat.sub_0_r. apply substring_all. }
  rewrite Htok.
  destruct (run e (next (mkContext u t
                           (bool_decide ((e (CoreValidateJWT (Coredata (Data u)) t) w).1 = None))))
              (e (CoreValidateJWT (Coredata (Data u)) t) w).2) as [[tr w2] o].
  done.
Qed.

(** X15: /users/isAuthorized, for a user the store finds, never answers an
    error: it answers the candidates ["pin"] with the status "authorized"
    when [Core.ValidateJWT] returned no error and "expired" whenever it
    returned one; it calls nothing but the store for the user and the Core
    for the validation, and returns the session cache as it was. *)
Theorem routeValidate_status (r : request) (sessions : gmap string SessionData)
    (u : KeyshareUser) :
  let x := run e (routeValidate r sessions) w in
  fetchedUsers (trace x) = [(u, None)] ->
  exists verr token,
    jwtValidations (trace x) = [verr] /\
    externalCalls (trace x) =
      [DBUser (header_Username r); CoreValidateJWT (Coredata (Data u)) token] /\
    returned x =
      Done (sessions,
            WriteJson (JAuthorization
              (mkAuthorization
                 (match verr with None => "authorized" | Some _ => "expired" end)
                 ["pin"]))).
Proof.
  unfold routeValidate, userMiddleware, authorizationMiddleware, handleValidate,
    log, call, trace, returned, calls, externalCalls, fetchedUsers, jwtValidations.
  cbv zeta.
  exec_sessions e; intros Hu; simplify_eq/=; eexists _, _; repeat split.
Qed.

End SessionRoutes.

(** The Core answers the challenge of an authorized request with a cached
    entry. *)
Lemma handleResponse_store_access_witness :
  let r := run (scripted working) (handleResponse authorized staleSessions) tt in
  returned r = Done (WriteString "1234567") /\
  logEntries (trace r) = [(IrmaSession, None, None)].
Proof.
  cbv zeta.
  destruct (handleResponse_store_access (scripted working) tt authorized staleSessions)
    as (_ & _ & Hlog & _ & Hok).
  split; [apply Hok; reflexivity|apply Hlog; vm_compute; discriminate].
Defined.

(** A session route asked for a user the store does not know. *)
Lemma userMiddleware_unknown_user_witness :
  returned (run (scripted working)
              (routeResponse (mkRequest "mallory" "Bearer jwt") staleSessions) tt) =
    Done (staleSessions, WriteError ErrorUserNotRegistered (ErrorString (ErrOther "not found"))).
Proof.
  apply (userMiddleware_unknown_user (scripted working) tt
           (mkRequest "mallory" "Bearer jwt") staleSessions _
           (mkKeyshareUser (mkKeyshareUserData EmptyString EmptyString []))
           (ErrOther "not found")).
  reflexivity.
Defined.

(** The header "Bearer jwt" reaches the handler as the token "jwt", found
    valid. *)
Lemma authorizationMiddleware_token_witness :
  returned (run (scripted working)
              (authorizationMiddleware (mkRequest "alice" "Bearer jwt") alice
                 (fun ctx => Ret (staleSessions, WriteString (authorization ctx)))) tt) =
    Done (staleSessions, WriteString "jwt").
Proof.
  destruct (authorizationMiddleware_token (scripted working) tt
              (mkRequest "alice" "Bearer jwt") alice
              (fun ctx => Ret (staleSessions, WriteString (authorization ctx))) "jwt")
    as (_ & _ & ->); [by left|reflexivity].
Defined.

(** alice asks with a token the Core does not accept. *)
Lemma routeValidate_status_witness :
  returned (run (scripted working)
              (routeValidate (mkRequest "alice" "Bearer stale") staleSessions) tt) =
    Done (staleSessions, WriteJson (JAuthorization (mkAuthorization "expired" ["pin"]))).
Proof.
  destruct (routeValidate_status (scripted working) tt
              (mkRequest "alice" "Bearer stale") staleSessions alice eq_refl)
    as (verr & token & Hv & _ & ->).
  vm_compute in Hv. by simplify_eq.
Defined.

(** ** Runs over any set of calls *)

Section FreeRuns.

Import effects.

Context {A : Type} {res : A -> Type} {W : Type} (e : fenv res W).

Lemma frun_bind {X Y : Type} (p : fprog res X) (f : X -> fprog res Y) :
  forall w,
    frun e (fbind p f) w =
    match frun e p w with
    | (t1, w1, Done x) =>
        let '(t2, w2, o) := frun e (f x) w1 in ((t1 ++ t2)%list, w2, o)
    | (t1, w1, Panicked) => (t1, w1, Panicked)
    end.
Proof.
  induction p as [r|a k IH|]; intros w; cbn [fbind frun].
  - by destruct (frun e (f r) w) as [[t2 w2] o].
  - rewrite IH. destruct (frun e (k (e a w).1) (e a w).2) as [[t1 w1] [x|]]; [|done].
    by destruct (frun e (f x) w1) as [[t2 w2] o].
  - done.
Qed.

End FreeRuns.

(** ** Loading the issuer keys *)


Section Loading.

Import effects loading.

Context {RSAPrivateKey GabiPublicKey ConsistentStorage W : Type}.
Context (e : fenv (lresult GabiPublicKey) W).
Implicit Types c : Core RSAPrivateKey GabiPublicKey ConsistentStorage.

(** Adding the keys of a list as trusted, in the order of the list. *)
Lemma trust_snoc (l1 l2 : list (PublicKeyIdentifier * GabiPublicKey)) c :
  foldl (fun c kv => DangerousAddTrustedPublicKey kv.1 kv.2 c) c (l1 ++ l2) =
  foldl (fun c kv => DangerousAddTrustedPublicKey kv.1 kv.2 c)
    (foldl (fun c kv => DangerousAddTrustedPublicKey kv.1 kv.2 c) c l1) l2.
Proof. apply foldl_app. Qed.

Lemma loadKeys_run (issuer : string) (keyIDs : list Z) :
  forall c w,
    exists c',
      (frun e (loadKeys issuer keyIDs c) w).2 = Done c' /\
      indexRequests (frun e (loadKeys issuer keyIDs c) w).1.1 = [] /\
      c' = foldl (fun c kv => DangerousAddTrustedPublicKey kv.1 kv.2 c) c
             (fetchedKeys (frun e (loadKeys issuer keyIDs c) w).1.1).
Proof.
  induction keyIDs as [|id rest IH]; intros c w.
  - exists c. done.
  - cbn [loadKeys]. unfold llog, fcall. cbn [fbind frun].
    destruct (e (PublicKey issuer id) w) as [[key [err|]] w1]; cbn [fst snd].
    + cbn [fbind frun].
      destruct (e (LBase (Logger Warn "Could not fetch public key for issuer")) w1)
        as [[] w2]; cbn [fst snd].
      destruct (IH c w2) as (c' & Hr & Hi & Hc).
      destruct (frun e (loadKeys issuer rest c) w2) as [[t w3] o].
      exists c'. cbn in *. done.
    + destruct (IH (DangerousAddTrustedPublicKey
                      (mkPublicKeyIdentifier issuer (uint_of_int id)) key c) w1)
        as (c' & Hr & Hi & Hc).
      destruct (frun e (loadKeys issuer rest _) w1) as [[t w3] o].
      exists c'. cbn in *. done.
Qed.

Lemma LoadIdemixKeys_run (issuers : list string) :
  forall c w,
    exists c',
      (frun e (LoadIdemixKeys issuers c) w).2 = Done c' /\
      indexRequests (frun e (LoadIdemixKeys issuers c) w).1.1 = issuers /\
      c' = foldl (fun c kv => DangerousAddTrustedPublicKey kv.1 kv.2 c) c
             (fetchedKeys (frun e (LoadIdemixKeys issuers c) w).1.1).
Proof.
  induction issuers as [|issuer rest IH]; intros c w.
  - exists c. done.
  - cbn [LoadIdemixKeys]. unfold llog, fcall. cbn [fbind frun].
    destruct (e (PublicKeyIndices issuer) w) as [[keyIDs [err|]] w1]; cbn [fst snd].
    + cbn [fbind frun].
      destruct (e (LBase (Logger Warn "Could not find keyIDs for issuer")) w1)
        as [[] w2]; cbn [fst snd].
      destruct (IH c w2) as (c' & Hr & Hi & Hc).
      destruct (frun e (LoadIdemixKeys rest c) w2) as [[t w3] o].
      exists c'. cbn in *. by rewrite Hi.
    + rewrite frun_bind.
      destruct (loadKeys_run issuer keyIDs c w1) as (c1 & Hr1 & Hi1 & Hc1).
      destruct (frun e (loadKeys issuer keyIDs c) w1) as [[t1 w2] o1].
      cbn in Hr1, Hi1, Hc1. subst o1.
      destruct (IH c1 w2) as (c' & Hr & Hi & Hc).
      destruct (frun e (LoadIdemixKeys rest c1) w2) as [[t2 w3] o].
      exists c'. cbn in *. unfold indexRequests, fetchedKeys in *.
      rewrite !omap_app, Hi1, Hi, trust_snoc, <- Hc1. done.
Qed.

Lemma trust_frame (l : list (PublicKeyIdentifier * GabiPublicKey)) :
  forall c,
    let c' := foldl (fun c kv => DangerousAddTrustedPublicKey kv.1 kv.2 c) c l in
    decryptionKeys c' = decryptionKeys c /\
    decryptionKey c' = decryptionKey c /\
    decryptionKeyID c' = decryptionKeyID c /\
    jwtPrivateKey c' = jwtPrivateKey c /\
    jwtPrivateKeyID c' = jwtPrivateKeyID c /\
    jwtIssuer c' = jwtIssuer c /\
    jwtPinExpiry c' = jwtPinExpiry c /\
    storage c' = storage c /\
    forall k,
      trustedKeys c' !! k =
      match last (filter (fun kv => kv.1 = k) l) with
      | Some kv => Some kv.2
      | None => trustedKeys c !! k
      end.
Proof.
  induction l as [|[k' key] l IH] using rev_ind; intros c; [done|].
  cbv zeta. rewrite foldl_app. cbn [foldl fst snd].
  destruct (IH c) as (H1 & H2 & H3 & H4 & H5 & H6 & H7 & H8 & H9).
  cbn. repeat split; try done.
  intros k. rewrite filter_app, filter_cons, filter_nil. cbn [fst].
  destruct (decide (k' = k)) as [->|Hne].
  - by rewrite lookup_insert_eq, last_snoc.
  - rewrite lookup_insert_ne by done. by rewrite app_nil_r, H9.
Qed.

(** X16: [LoadIdemixKeys] never stops early: it asks for the key list of
    every issuer, in order, also after an issuer or a key that could not be
    read.  The key the Core trusts afterwards under an identifier is the last
    one that was read for it without error, and the key it trusted before
    when none was; so no trusted key is ever dropped. *)
Theorem LoadIdemixKeys_loads (issuers : list string) c (w : W) :
  let r := frun e (LoadIdemixKeys issuers c) w in
  exists c',
    r.2 = Done c' /\
    indexRequests r.1.1 = issuers /\
    (forall k,
       trustedKeys c' !! k =
       match last (filter (fun kv => kv.1 = k) (fetchedKeys r.1.1)) with
       | Some kv => Some kv.2
       | None => trustedKeys c !! k
       end) /\
    (forall k, is_Some (trustedKeys c !! k) -> is_Some (trustedKeys c' !! k)).
Proof.
  cbv zeta. destruct (LoadIdemixKeys_run issuers c w) as (c' & Hr & Hi & Hc).
  exists c'. split; [done|]. split; [done|].
  destruct (trust_frame (fetchedKeys (frun e (LoadIdemixKeys issuers c) w).1.1) c)
    as (_ & _ & _ & _ & _ & _ & _ & _ & Hk).
  cbv zeta in Hk. rewrite <- Hc in Hk. split; [exact Hk|].
  intros k Hs. rewrite Hk. by destruct (last _).
Qed.

(** X17: [LoadIdemixKeys] changes nothing of the Core but its trusted
    keys: the decryption key ring, the write key, the JWT key and settings
    and the storage are those from before. *)
Theorem LoadIdemixKeys_frame (issuers : list string) c (w : W) :
  exists c',
    (frun e (LoadIdemixKeys issuers c) w).2 = Done c' /\
    decryptionKeys c' = decryptionKeys c /\
    decryptionKey c' = decryptionKey c /\
    decryptionKeyID c' = decryptionKeyID c /\
    jwtPrivateKey c' = jwtPrivateKey c /\
    jwtPrivateKeyID c' = jwtPrivateKeyID c /\
    jwtIssuer c' = jwtIssuer c /\
    jwtPinExpiry c' = jwtPinExpiry c /\
    storage c' = storage c.
Proof.
  destruct (LoadIdemixKeys_run issuers c w) as (c' & Hr & Hi & Hc).
  exists c'. split; [done|].
  destruct (trust_frame (fetchedKeys (frun e (LoadIdemixKeys issuers c) w).1.1) c)
    as (H1 & H2 & H3 & H4 & H5 & H6 & H7 & H8 & _).
  cbv zeta in *. rewrite <- Hc in *. done.
Qed.

End Loading.

(** The keys of the first issuer cannot be listed and key 0 of the second
    cannot be read; key 1 of the second is trusted all the same. *)
Lemma LoadIdemixKeys_loads_witness :
  let c := NewKeyshareCore (option Z)
             (mkConfiguration (RSAPrivateKey := unit) [Byte.x01] 1%N None 0%N
                EmptyString 0%Z tt) in
  exists c',
    (effects.frun loading.twoIssuers
       (loading.LoadIdemixKeys ["test.first"; "test.second"] c) tt).2 = Done c' /\
    trustedKeys c' !! mkPublicKeyIdentifier "test.second" 1 = Some (Some 1%Z) /\
    trustedKeys c' !! mkPublicKeyIdentifier "test.second" 0 = None.
Proof.
  cbv zeta.
  destruct (LoadIdemixKeys_loads loading.twoIssuers ["test.first"; "test.second"]
              (NewKeyshareCore (option Z)
                 (mkConfiguration (RSAPrivateKey := unit) [Byte.x01] 1%N None 0%N
                    EmptyString 0%Z tt)) tt)
    as (c' & Hr & _ & Hk & _).
  exists c'. split; [exact Hr|]. rewrite !Hk. split; reflexivity.
Defined.

(** ** Registration *)

Import effects registration.

Section Registration.

Context {W : Type} (e : fenv rresult W).

Lemma frun_lift {R Y : Type} (p : prog R) (k : R -> rprog Y) :
  forall w,
    frun e (fbind (lift p) k) w =
    match run (fun a => e (Base a)) p w with
    | (t1, w1, Done x) =>
        let '(t2, w2, o) := frun e (k x) w1 in ((map liftEvent t1 ++ t2)%list, w2, o)
    | (t1, w1, Panicked) => (map liftEvent t1, w1, Panicked)
    end.
Proof.
  induction p as [r|a k' IH|]; intros w; cbn [lift fbind frun run].
  - by destruct (frun e (k r) w) as [[t2 w2] o].
  - rewrite IH. cbn.
    match goal with
    | |- context [run ?f ?q ?w0] => destruct (run f q w0) as [[t1 w1] [x|]]
    end; cbn; [|done].
    by destruct (frun e (k x) w1) as [[t2 w2] o].
  - done.
Qed.

Lemma generateUsername_run {W' : Type} (e' : env W') (w : W') :
  run e' generateUsername w =
  ([Event (RandRead 8) (e' (RandRead 8) w).1], (e' (RandRead 8) w).2,
   match (e' (RandRead 8) w).1.2 with
   | Some _ => Panicked
   | None => usernameFrom (e' (RandRead 8) w).1.1
   end).
Proof.
  unfold usernameFrom, generateUsername, returned.
  cbn -[ReplaceAll Encode writeInto fill].
  destruct (e' (RandRead 8) w) as [[data [err|]] w']; cbn -[ReplaceAll Encode writeInto fill];
    [done|].
  by destruct (writeInto _ _).
Qed.

Lemma usernameFrom_base62 (data : list Byte.byte) :
  exists s,
    usernameFrom data = Done s /\
    Forall (fun c => isBase62 c = true) (list_ascii_of_string s) /\
    (String.length s <= 11)%nat.
Proof.
  unfold usernameFrom, generateUsername, returned. cbn -[ReplaceAll Encode writeInto fill].
  remember (fill _ data) as bts eqn:Hb.
  assert (Hlen : length bts = 8%nat) by (subst bts; apply fill_length).
  clear Hb.
  do 9 (destruct bts as [|? bts]; try discriminate Hlen). clear Hlen.
  cbn [Encode writeInto length Nat.leb repeat drop app run snd fst].
  eexists. split; [reflexivity|].
  rewrite String_length_list, !ReplaceAll_single, list_ascii_of_string_of_list_ascii.
  match goal with |- context [filter _ (filter _ (filter _ ?l))] => set (enc := l) end.
  assert (Hin : forall c, In c enc ->
            In c (list_ascii_of_string encodeStd) \/ c = StdPadding).
  { intros c Hc. subst enc. cbn in Hc.
    repeat (destruct Hc as [<-|Hc];
            [first [left; apply sextet_in_alphabet | by right]|]).
    destruct Hc. }
  split.
  - apply Forall_forall. intros c Hc.
    rewrite !list_elem_of_filter in Hc. destruct Hc as (Heq & Hsl & Hpl & Hc).
    apply list_elem_of_In in Hc. apply Hin in Hc. destruct Hc as [Hc|Hc]; [|done].
    destruct (alphabet_chars c Hc) as [?|[?|?]]; done.
  - assert (Hpad : StdPadding ∈ enc)
      by (apply list_elem_of_lookup; exists 11%nat; reflexivity).
    pose proof (length_filter (fun c => c <> "+"%char) enc) as H1.
    pose proof (length_filter (fun c => c <> "/"%char)
                  (filter (fun c => c <> "+"%char) enc)) as H2.
    pose proof (length_filter_lt (fun c => c <> "="%char)
                  (filter (fun c => c <> "/"%char)
                     (filter (fun c => c <> "+"%char) enc)) StdPadding) as H3.
    change (length enc) with 12%nat in H1.
    assert (length (filter (fun c => c <> "="%char)
                      (filter (fun c => c <> "/"%char)
                         (filter (fun c => c <> "+"%char) enc))) <
            length (filter (fun c => c <> "/"%char)
                      (filter (fun c => c <> "+"%char) enc)))%nat; [|lia].
    apply H3; [|by intros E; apply E].
    rewrite !list_elem_of_filter. done.
Qed.


Local Arguments lift : simpl never.
Local Arguments generateUsername : simpl never.

(** Run the registration handler: answer the call in front, split on what
    was answered, simplify. *)
Ltac exec_registration :=
  unfold handleRegister, doRegistration, sendRegistrationEmail, rlog, fcall;
  repeat first
    [ progress cbn [fbind frun fst snd]
    | rewrite frun_lift, generateUsername_run
    | rewrite frun_bind
    | answer_call e
    | match goal with
      | |- context [usernameFrom ?d] =>
          let s := fresh "username" in
          let H1 := fresh "Hbase62" in
          let H2 := fresh "Hlength" in
          destruct (usernameFrom_base62 d) as (s & -> & H1 & H2)
      | |- context [match en_Email ?m with _ => _ end] => destruct (en_Email m) eqn:?
      | |- context [match byLanguage None ?m ?c ?l with _ => _ end] =>
          destruct (byLanguage None m c l) eqn:?
      | |- context [match ?x with _ => _ end] => is_var x; destruct x
      | |- context [decide ?P] => destruct (decide P)
      end ].

(** X19: a request to /client/register whose body cannot be read or is not
    an enrollment message is answered with an invalid-request error, and
    nothing else happens: no random read, no call to the Core, the store,
    the mailer or the session server. *)
Theorem handleRegister_malformed (conf : Configuration) (w : W) :
  let r := frun e (handleRegister conf) w in
  (forall msg, enrollments r.1.1 <> [(msg, None)]) ->
  (r.2 = Done (RegisterError ErrorInvalidRequest (Literal "could not read request body")) /\
   registrationCalls r.1.1 = [Base ReadAll]) \/
  (r.2 = Done (RegisterError ErrorInvalidRequest (Literal "Invalid request")) /\
   exists body, registrationCalls r.1.1 = [Base ReadAll; UnmarshalEnrollment body]).
Proof.
  cbv zeta. exec_registration.
  all: cbn; intros H; try (exfalso; by eapply H); eauto.
Qed.

(** X20: /client/register panics in exactly two cases.  The random source
    fails while the username is generated: that is before the Core is asked
    for a secret, and nothing has been stored, mailed or issued.  Or the
    verification record of the mail has been stored and the server has no
    template for the language of the message, nor for the default language
    when the language has no entry: the user row and the verification
    record are stored then, no mail is rendered or sent and no session is
    started. *)
Theorem handleRegister_panics (conf : Configuration) (w : W) :
  let r := frun e (handleRegister conf) w in
  (r.2 = Panicked <->
   (exists data err, randomReads r.1.1 = [(data, Some err)]) \/
   (exists msg user email token,
      enrollments r.1.1 = [(msg, None)] /\
      verifications r.1.1 = [(user, email, token, None)] /\
      byLanguage None (RegistrationEmailTemplates conf) conf (en_Language msg) = None)) /\
  (forall data err,
     randomReads r.1.1 = [(data, Some err)] ->
     generatedSecrets r.1.1 = [] /\ newUsers r.1.1 = [] /\ mailCalls r.1.1 = [] /\
     startedSessions r.1.1 = []) /\
  (forall data,
     r.2 = Panicked -> randomReads r.1.1 = [(data, None)] ->
     (exists row user token email,
        newUsers r.1.1 = [(row, (user, None))] /\
        verifications r.1.1 = [(user, email, token, None)]) /\
     renderings r.1.1 = [] /\ sentMails r.1.1 = [] /\ startedSessions r.1.1 = []).
Proof.
  cbv zeta. exec_registration.
  all: cbn; (split; [split|split]); intros; simplify_eq/=; try done; eauto 12.
  all: repeat match goal with
              | H : _ \/ _ |- _ => destruct H
              | H : ex _ |- _ => destruct H
              | H : _ /\ _ |- _ => destruct H
              end; simplify_eq/=; try done; try congruence.
  all: repeat split; eauto 10.
Qed.

(** X21: when the Core gives no secret for the PIN, no user is stored, no
    mail is sent and no issuance session is started.  The client gets the
    Core's error, as an invalid request when the PIN was too long and as an
    internal error otherwise. *)
Theorem handleRegister_secret_failure (conf : Configuration) (w : W)
    (pin : string) (d : EncryptedKeysharePacket) (err : error) :
  let r := frun e (handleRegister conf) w in
  generatedSecrets r.1.1 = [(pin, (d, Some err))] ->
  newUsers r.1.1 = [] /\ mailCalls r.1.1 = [] /\ startedSessions r.1.1 = [] /\
  r.2 = Done (RegisterError
                (if decide (err = ErrPinTooLong) then ErrorInvalidRequest else ErrorInternal)
                (ErrorString err)) /\
  exists msg, enrollments r.1.1 = [(msg, None)] /\ pin = en_Pin msg.
Proof.
  cbv zeta. exec_registration.
  all: cbn; intros; simplify_eq/=.
  all: repeat split; eauto.
  all: try (case_decide; congruence).
Qed.

(** X22: the user row that registration stores carries a username of at
    most 11 letters and digits, the language of the enrollment message and
    the secret the Core made of the message's PIN.  When the store refuses
    the row, no mail is sent, no session is started, and the client gets the
    store's error. *)
Theorem handleRegister_new_user (conf : Configuration) (w : W)
    (data : KeyshareUserData) (user : KeyshareUser) (err : option error) :
  let r := frun e (handleRegister conf) w in
  newUsers r.1.1 = [(data, (user, err))] ->
  (exists msg,
     enrollments r.1.1 = [(msg, None)] /\
     generatedSecrets r.1.1 = [(en_Pin msg, (Coredata data, None))] /\
     Language data = en_Language msg) /\
  Forall (fun c => isBase62 c = true) (list_ascii_of_string (Username data)) /\
  (String.length (Username data) <= 11)%nat /\
  (forall e', err = Some e' ->
     mailCalls r.1.1 = [] /\ startedSessions r.1.1 = [] /\
     r.2 = Done (RegisterError
                   (if decide (e' = ErrPinTooLong) then ErrorInvalidRequest else ErrorInternal)
                   (ErrorString e'))).
Proof.
  cbv zeta. exec_registration.
  all: cbn; intros; simplify_eq/=.
  all: repeat split; eauto; intros; simplify_eq/=.
  all: repeat split; try done.
  all: try (case_decide; congruence).
Qed.

(** X23: a verification mail is attempted exactly when the user row was
    stored, the enrollment message has an email address that is not empty,
    and the server has a mail server.  The first steps are then one fresh
    token and the verification record of that very token for the stored
    user and the address of the message. *)
Theorem handleRegister_mail (conf : Configuration) (w : W) :
  let r := frun e (handleRegister conf) w in
  (mailCalls r.1.1 <> [] <->
   exists msg data user email,
     enrollments r.1.1 = [(msg, None)] /\ newUsers r.1.1 = [(data, (user, None))] /\
     en_Email msg = Some email /\ email <> EmptyString /\ EmailServer conf <> EmptyString) /\
  (forall msg data user email,
     enrollments r.1.1 = [(msg, None)] -> newUsers r.1.1 = [(data, (user, None))] ->
     en_Email msg = Some email -> email <> EmptyString -> EmailServer conf <> EmptyString ->
     exists token stored rest,
       newTokens r.1.1 = [token] /\
       verifications r.1.1 = [(user, email, token, stored)] /\
       mailCalls r.1.1 =
         NewSessionToken :: DBAddEmailVerification user email token :: rest).
Proof.
  cbv zeta. exec_registration.
  all: cbn; (split; [split|]); intros; simplify_eq/=; try done; eauto 10.
  all: repeat match goal with
              | H : ex _ |- _ => destruct H
              | H : _ /\ _ |- _ => destruct H
              end; simplify_eq/=; try done; try tauto; try congruence.
  all: do 3 eexists; repeat split; reflexivity.
Qed.

(** X24: the verification mail.  One token is drawn and the verification
    record is stored for it, the user and the address.  Only when that
    succeeded is the mail rendered, from the template of the language (of
    the default language when the language has no entry) and the
    verification URL of the language followed by the same token; only when
    rendering succeeded is the mail sent, to the same address, with what was
    rendered.  The error returned is that of the first step that failed.
    Sending panics exactly when the record was stored and there is no
    template: nothing is rendered or sent then. *)
Theorem sendRegistrationEmail_steps (conf : Configuration) (user : KeyshareUser)
    (language email : string) (w : W) :
  let r := frun e (sendRegistrationEmail conf user language email) w in
  let template := byLanguage None (RegistrationEmailTemplates conf) conf language in
  let url := byLanguage EmptyString (VerificationURL conf) conf language in
  let subject := byLanguage EmptyString (RegistrationEmailSubject conf) conf language in
  exists token err1,
    newTokens r.1.1 = [token] /\
    verifications r.1.1 = [(user, email, token, err1)] /\
    (r.2 = Panicked <-> err1 = None /\ template = None) /\
    (forall e', err1 = Some e' ->
       renderings r.1.1 = [] /\ sentMails r.1.1 = [] /\ r.2 = Done (Some e')) /\
    (err1 = None -> template = None ->
       renderings r.1.1 = [] /\ sentMails r.1.1 = []) /\
    (forall t, err1 = None -> template = Some t ->
     exists msg err2,
       renderings r.1.1 =
         [(t, {[ "VerificationURL" := String.append url token ]}, (msg, err2))] /\
       (forall e', err2 = Some e' -> sentMails r.1.1 = [] /\ r.2 = Done (Some e')) /\
       (err2 = None ->
        exists err3,
          sentMails r.1.1 =
            [(EmailServer conf, EmailAuth conf, EmailFrom conf, email, subject, msg, err3)] /\
          r.2 = Done err3)).
Proof.
  cbv zeta. exec_registration.
  all: cbn; do 2 eexists; (split; [reflexivity|]); (split; [reflexivity|]).
  all: (split; [split; intros; simplify_eq/=; try done; intuition congruence|]).
  all: (split; [intros; simplify_eq/=; done|]).
  all: (split; [intros; simplify_eq/=; done|]).
  all: intros; simplify_eq/=; try done.
  all: do 2 eexists; (split; [reflexivity|]).
  all: split; intros; simplify_eq/=; try done.
  all: eexists; split; reflexivity.
Qed.

(** X25: an issuance session is only started for a user that was stored,
    and it issues the one keyshare credential with the stored username as
    its attribute.  The client gets the session pointer exactly when the
    session was started; when starting it fails the client gets an error
    although the user row exists. *)
Theorem handleRegister_session (conf : Configuration) (w : W) :
  let r := frun e (handleRegister conf) w in
  (forall q, r.2 = Done (RegisterJson q) <->
             exists req tok, startedSessions r.1.1 = [(req, (q, tok, None))]) /\
  (forall req q tok err,
     startedSessions r.1.1 = [(req, (q, tok, err))] ->
     (exists data user,
        newUsers r.1.1 = [(data, (user, None))] /\
        req = [mkCredentialRequest (KeyshareCredential conf)
                 {[ KeyshareAttribute conf := Username data ]}]) /\
     forall e', err = Some e' ->
       r.2 = Done (RegisterError
                     (if decide (e' = ErrPinTooLong) then ErrorInvalidRequest
                      else ErrorInternal)
                     (ErrorString e'))).
Proof.
  cbv zeta. exec_registration.
  all: cbn; (split; [split|]); intros; simplify_eq/=; try done; eauto 10.
  all: repeat match goal with
              | H : ex _ |- _ => destruct H
              | H : _ /\ _ |- _ => destruct H
              end; simplify_eq/=; try done.
  all: repeat split; eauto; intros; simplify_eq/=; try done.
  all: try (case_decide; congruence).
Qed.

End Registration.

(** A body that is not an enrollment message. *)
Lemma handleRegister_malformed_witness :
  let s := with_enrollment (carol, Some (ErrOther "unexpected end of JSON input"))
             (enrolling carol) in
  (frun (rscripted s) (handleRegister mailing) tt).2 =
    Done (RegisterError ErrorInvalidRequest (Literal "Invalid request")).
Proof.
  cbv zeta.
  destruct (handleRegister_malformed
              (rscripted (with_enrollment (carol, Some (ErrOther "unexpected end of JSON input"))
                            (enrolling carol)))
              mailing tt) as [[H _]|[H _]].
  - intros msg. vm_compute. discriminate.
  - vm_compute in H. discriminate.
  - exact H.
Defined.

(** A random source that fails; and a client with an email address at a
    server that has a mail server but no template. *)
Lemma handleRegister_panics_witness :
  let s := with_base (with_random ([], Some (ErrOther "no entropy")) working)
             (enrolling carol) in
  let r := frun (rscripted (enrolling carol)) (handleRegister untemplated) tt in
  generatedSecrets (frun (rscripted s) (handleRegister mailing) tt).1.1 = [] /\
  newUsers (frun (rscripted s) (handleRegister mailing) tt).1.1 = [] /\
  r.2 = Panicked /\
  newUsers r.1.1 =
    [(mkKeyshareUserData "8AEIMegE" "nl" [Byte.x07],
      (mkKeyshareUser (mkKeyshareUserData "8AEIMegE" "nl" [Byte.x07]), None))] /\
  sentMails r.1.1 = [] /\
  startedSessions r.1.1 = [].
Proof.
  cbv zeta.
  destruct (handleRegister_panics
              (rscripted (with_base (with_random ([], Some (ErrOther "no entropy")) working)
                            (enrolling carol)))
              mailing tt) as (_ & Hnone & _).
  destruct (Hnone [] (ErrOther "no entropy") eq_refl) as (H1 & H2 & _).
  split; [exact H1|]. split; [exact H2|].
  destruct (handleRegister_panics (rscripted (enrolling carol)) untemplated tt)
    as (Hiff & _ & Hafter).
  assert (Hp : (frun (rscripted (enrolling carol)) (handleRegister untemplated) tt).2 = Panicked).
  { apply Hiff. right.
    exists carol, (mkKeyshareUser (mkKeyshareUserData "8AEIMegE" "nl" [Byte.x07])),
      "carol@example.com", "token".
    repeat split; reflexivity. }
  destruct (Hafter _ Hp eq_refl) as (_ & _ & Hs & Hss).
  split; [exact Hp|]. split; [reflexivity|]. split; [exact Hs|exact Hss].
Defined.

(** A PIN of 65 characters. *)
Lemma handleRegister_secret_failure_witness :
  let pin := "00000000000000000000000000000000000000000000000000000000000000000" in
  let s := enrolling (mkEnrollment pin None "en") in
  (frun (rscripted s) (handleRegister mailing) tt).2 =
    Done (RegisterError ErrorInvalidRequest (ErrorString ErrPinTooLong)) /\
  newUsers (frun (rscripted s) (handleRegister mailing) tt).1.1 = [].
Proof.
  cbv zeta.
  destruct (handleRegister_secret_failure
              (rscripted (enrolling
                 (mkEnrollment
                    "00000000000000000000000000000000000000000000000000000000000000000"
                    None "en")))
              mailing tt
              "00000000000000000000000000000000000000000000000000000000000000000"
              [] ErrPinTooLong) as (H1 & _ & _ & H4 & _).
  - reflexivity.
  - split; [exact H4|exact H1].
Defined.

(** A store that refuses the new row. *)
Lemma handleRegister_new_user_witness :
  let s := with_newUser (Some (ErrOther "duplicate key")) (enrolling carol) in
  (frun (rscripted s) (handleRegister mailing) tt).2 =
    Done (RegisterError ErrorInternal (ErrorString (ErrOther "duplicate key"))) /\
  mailCalls (frun (rscripted s) (handleRegister mailing) tt).1.1 = [].
Proof.
  cbv zeta.
  destruct (handleRegister_new_user
              (rscripted (with_newUser (Some (ErrOther "duplicate key")) (enrolling carol)))
              mailing tt
              (mkKeyshareUserData "8AEIMegE" "nl" [Byte.x07])
              (mkKeyshareUser (mkKeyshareUserData "8AEIMegE" "nl" [Byte.x07]))
              (Some (ErrOther "duplicate key"))) as (_ & _ & _ & H).
  - reflexivity.
  - destruct (H (ErrOther "duplicate key") eq_refl) as (H1 & _ & H3).
    split; [exact H3|exact H1].
Defined.

(** A client with an email address, at a server with a mail server. *)
Lemma handleRegister_mail_witness :
  let r := frun (rscripted (enrolling carol)) (handleRegister mailing) tt in
  mailCalls r.1.1 <> [] /\
  newTokens r.1.1 = ["token"] /\
  verifications r.1.1 =
    [(mkKeyshareUser (mkKeyshareUserData "8AEIMegE" "nl" [Byte.x07]),
      "carol@example.com", "token", None)].
Proof.
  cbv zeta.
  destruct (handleRegister_mail (rscripted (enrolling carol)) mailing tt) as [Hiff Hfirst].
  split.
  - apply Hiff.
    exists carol, (mkKeyshareUserData "8AEIMegE" "nl" [Byte.x07]),
      (mkKeyshareUser (mkKeyshareUserData "8AEIMegE" "nl" [Byte.x07])), "carol@example.com".
    repeat split; try reflexivity; discriminate.
  - destruct (Hfirst carol (mkKeyshareUserData "8AEIMegE" "nl" [Byte.x07])
                (mkKeyshareUser (mkKeyshareUserData "8AEIMegE" "nl" [Byte.x07]))
                "carol@example.com")
      as (token & stored & rest & Ht & Hv & _);
      [reflexivity | reflexivity | reflexivity | discriminate | discriminate |].
    assert (token = "token") as -> by (vm_compute in Ht; congruence).
    assert (stored = None) as -> by (clear Ht; vm_compute in Hv; congruence).
    split; [exact Ht|exact Hv].
Defined.

(** Dutch has a template and a verification URL but no subject line: the
    mail has the Dutch text and link and the English subject.  Without any
    template, sending panics after the record was stored. *)
Lemma sendRegistrationEmail_steps_witness :
  let r := frun (rscripted (enrolling carol))
             (sendRegistrationEmail mailing alice "nl" "carol@example.com") tt in
  let r' := frun (rscripted (enrolling carol))
              (sendRegistrationEmail untemplated alice "nl" "carol@example.com") tt in
  renderings r.1.1 =
    [(2%N, {[ "VerificationURL" := "https://example.com/nl/verify/token" ]},
      ([Byte.x68; Byte.x69], None))] /\
  sentMails r.1.1 =
    [("smtp.example.com:25", 0%N, "noreply@example.com", "carol@example.com",
      "Verify your email address", [Byte.x68; Byte.x69], None)] /\
  r'.2 = Panicked /\
  verifications r'.1.1 = [(alice, "carol@example.com", "token", None)].
Proof.
  cbv zeta. split; [|split].
  1,2: destruct (sendRegistrationEmail_steps (rscripted (enrolling carol)) mailing alice
                   "nl" "carol@example.com" tt) as (token & err1 & Ht & Hv & _ & _ & _ & Hok);
       assert (token = "token") as -> by (vm_compute in Ht; congruence);
       assert (err1 = None) as -> by (clear Ht; vm_compute in Hv; congruence);
       destruct (Hok 2%N eq_refl eq_refl) as (msg & err2 & Hr & _ & Hsend);
       assert (msg = [Byte.x68; Byte.x69] /\ err2 = None) as [-> ->]
         by (clear Hsend; vm_compute in Hr; split; congruence);
       destruct (Hsend eq_refl) as (err3 & Hm & _);
       assert (err3 = None) as -> by (clear Hr; vm_compute in Hm; congruence).
  - exact Hr.
  - exact Hm.
  - destruct (sendRegistrationEmail_steps (rscripted (enrolling carol)) untemplated alice
                "nl" "carol@example.com" tt) as (token & err1 & Ht & Hv & Hpanic & _).
    assert (token = "token") as -> by (vm_compute in Ht; congruence).
    assert (err1 = None) as -> by (clear Ht; vm_compute in Hv; congruence).
    split; [apply Hpanic; split; reflexivity|exact Hv].
Defined.

(** A session server that cannot start the issuance session. *)
Lemma handleRegister_session_witness :
  let s := with_session (None, EmptyString, Some (ErrOther "unknown credential type"))
             (enrolling carol) in
  (frun (rscripted s) (handleRegister mailing) tt).2 =
    Done (RegisterError ErrorInternal (ErrorString (ErrOther "unknown credential type"))) /\
  newUsers (frun (rscripted s) (handleRegister mailing) tt).1.1 =
    [(mkKeyshareUserData "8AEIMegE" "nl" [Byte.x07],
      (mkKeyshareUser (mkKeyshareUserData "8AEIMegE" "nl" [Byte.x07]), None))].
Proof.
  cbv zeta.
  destruct (handleRegister_session
              (rscripted (with_session
                            (None, EmptyString, Some (ErrOther "unknown credential type"))
                            (enrolling carol)))
              mailing tt) as [_ H].
  destruct (H [mkCredentialRequest "test.keyshare.mijnirma" {[ "email" := "8AEIMegE" ]}]
              None EmptyString (Some (ErrOther "unknown credential type")))
    as [_ Herr].
  - reflexivity.
  - split; [exact (Herr _ eq_refl)|reflexivity].
Defined.
